(** * AI calendar assistant: a shallow embedding of the request handlers

    The development follows the three server routes of the repository:

    - the chat route ([calculateDateRange], the multi-calendar read, the
      delete search with its filter cascade and its three outcomes, the
      fallback on an unparseable completion),
    - the event route (building the calendar event of a create request),
    - the speech route (sanitising the text before synthesis).

    JavaScript's [Date] is modelled after the ECMAScript time-value
    arithmetic ([Day], [YearFromTime], [MakeDay], [LocalTime], [UTC], ...),
    over [Z], with the host time zone as an explicit parameter.  Time
    values are whole milliseconds well inside the range of [TimeClip], and
    the parts of a date are integers.  The numbers that a request body
    carries (the minutes of a duration, the speed of a voice) are doubles
    ([JSNumber]).  What the platform and the remote services do (the Los
    Angeles formatter, [localeCompare], [Date.parse], [JSON.parse], the
    requests to the calendar and completion services) enters the handlers
    as parameters. *)

From Stdlib Require Import QArith ZArith Lia List String Ascii Bool.
From Stdlib Require Import DecimalString DecimalZ DecimalPos Decimal.
From Stdlib Require Import Sorting.Sorted Sorting.Permutation.
Import ListNotations.
Open Scope string_scope.
Open Scope Z_scope.

(* ================================================================== *)
(** ** ECMAScript dates *)
(* ================================================================== *)

Module JSDate.

Definition msPerDay : Z := 86400000.
Definition msPerHour : Z := 3600000.
Definition msPerMinute : Z := 60000.

Definition Day (t : Z) : Z := t / msPerDay.
Definition TimeWithinDay (t : Z) : Z := t mod msPerDay.

Definition DaysInYear (y : Z) : Z :=
  if negb (y mod 4 =? 0) then 365
  else if negb (y mod 100 =? 0) then 366
  else if negb (y mod 400 =? 0) then 365
  else 366.

Definition DayFromYear (y : Z) : Z :=
  365 * (y - 1970) + (y - 1969) / 4 - (y - 1901) / 100 + (y - 1601) / 400.

(** The largest year whose first day is not after day [d]: a first guess
    from the mean year length, corrected by at most one year. *)
Definition YearFromDay (d : Z) : Z :=
  let y := 1970 + (400 * d) / 146097 in
  if DayFromYear (y + 1) <=? d then y + 1
  else if DayFromYear y <=? d then y
  else y - 1.

Definition YearFromTime (t : Z) : Z := YearFromDay (Day t).

Definition leapOfYear (y : Z) : Z := if DaysInYear y =? 366 then 1 else 0.

Definition InLeapYear (t : Z) : Z := leapOfYear (YearFromTime t).

Definition DayWithinYear (t : Z) : Z := Day t - DayFromYear (YearFromTime t).

Definition MonthFromTime (t : Z) : Z :=
  let d := DayWithinYear t in
  let leap := InLeapYear t in
  if d <? 31 then 0
  else if d <? 59 + leap then 1
  else if d <? 90 + leap then 2
  else if d <? 120 + leap then 3
  else if d <? 151 + leap then 4
  else if d <? 181 + leap then 5
  else if d <? 212 + leap then 6
  else if d <? 243 + leap then 7
  else if d <? 273 + leap then 8
  else if d <? 304 + leap then 9
  else if d <? 334 + leap then 10
  else 11.

(** Day within the year on which month [m] (0-based) starts. *)
Definition monthStart (m leap : Z) : Z :=
  if m =? 0 then 0
  else if m =? 1 then 31
  else if m =? 2 then 59 + leap
  else if m =? 3 then 90 + leap
  else if m =? 4 then 120 + leap
  else if m =? 5 then 151 + leap
  else if m =? 6 then 181 + leap
  else if m =? 7 then 212 + leap
  else if m =? 8 then 243 + leap
  else if m =? 9 then 273 + leap
  else if m =? 10 then 304 + leap
  else 334 + leap.

Definition DateFromTime (t : Z) : Z :=
  DayWithinYear t - monthStart (MonthFromTime t) (InLeapYear t) + 1.

Definition WeekDay (t : Z) : Z := (Day t + 4) mod 7.

Definition HourFromTime (t : Z) : Z := (t / msPerHour) mod 24.
Definition MinFromTime (t : Z) : Z := (t / msPerMinute) mod 60.

Definition MakeDay (year month date : Z) : Z :=
  let ym := year + month / 12 in
  let mn := month mod 12 in
  DayFromYear ym + monthStart mn (leapOfYear ym) + date - 1.

Definition MakeDate (day time : Z) : Z := day * msPerDay + time.

(** The host time zone: ECMAScript's [LocalTZA(t, isUTC)], the offset of
    local time from UTC in milliseconds, asked either at a UTC time value
    or at a local one. *)
Record Zone := {
  tzaAtUTC : Z -> Z;
  tzaAtLocal : Z -> Z
}.

Definition LocalTime (z : Zone) (t : Z) : Z := t + tzaAtUTC z t.
Definition UTC (z : Zone) (t : Z) : Z := t - tzaAtLocal z t.

(** [new Date(year, month, day)]: years 0..99 stand for 1900..1999. *)
Definition fullYear (year : Z) : Z :=
  if (0 <=? year) && (year <=? 99) then 1900 + year else year.

Definition newDateYMD (z : Zone) (year month day : Z) : Z :=
  UTC z (MakeDate (MakeDay (fullYear year) month day) 0).

Definition getFullYear (z : Zone) (t : Z) : Z := YearFromTime (LocalTime z t).
Definition getMonth (z : Zone) (t : Z) : Z := MonthFromTime (LocalTime z t).
Definition getDate (z : Zone) (t : Z) : Z := DateFromTime (LocalTime z t).
Definition getDay (z : Zone) (t : Z) : Z := WeekDay (LocalTime z t).
Definition getHours (z : Zone) (t : Z) : Z := HourFromTime (LocalTime z t).
Definition getMinutes (z : Zone) (t : Z) : Z := MinFromTime (LocalTime z t).

Definition getTimezoneOffset (z : Zone) (t : Z) : Z :=
  (t - LocalTime z t) / msPerMinute.

(** [d.setDate(dt)], returning the new time value. *)
Definition setDate (z : Zone) (t dt : Z) : Z :=
  let lt := LocalTime z t in
  UTC z (MakeDate (MakeDay (YearFromTime lt) (MonthFromTime lt) dt)
                  (TimeWithinDay lt)).

(** Days of month [m] (1-based) of year [y], and civil validity. *)
Definition daysInMonth (y m : Z) : Z :=
  if m =? 2 then 28 + leapOfYear y
  else if (m =? 4) || (m =? 6) || (m =? 9) || (m =? 11) then 30
  else 31.

Definition validCivil (y m d : Z) : bool :=
  (1 <=? m) && (m <=? 12) && (1 <=? d) && (d <=? daysInMonth y m).

(** Two host zones used in the examples: UTC, and US Pacific time with
    the current United States rule (second Sunday of March, 02:00, to
    first Sunday of November, 02:00) applied to every year.  The rule is
    in force since 2007; for the years before, the zone of a host in
    Pacific time changes on other days, and [zonePacific] is not that
    zone.  A local time that is skipped or repeated is read with the
    offset in force before the transition, as ECMAScript prescribes. *)
Definition zoneUTC : Zone :=
  {| tzaAtUTC := fun _ => 0; tzaAtLocal := fun _ => 0 |}.

Definition firstSundayFrom (day : Z) : Z := day + (7 - (day + 4) mod 7) mod 7.

Definition pacificDstStartDay (y : Z) : Z := firstSundayFrom (MakeDay y 2 1) + 7.
Definition pacificDstEndDay (y : Z) : Z := firstSundayFrom (MakeDay y 10 1).

Definition zonePacific : Zone :=
  {| tzaAtUTC := fun t =>
       let y := YearFromTime (t - 8 * msPerHour) in
       if (pacificDstStartDay y * msPerDay + 10 * msPerHour <=? t)
          && (t <? pacificDstEndDay y * msPerDay + 9 * msPerHour)
       then - (7 * msPerHour) else - (8 * msPerHour);
     tzaAtLocal := fun t =>
       let y := YearFromTime t in
       if (pacificDstStartDay y * msPerDay + 3 * msPerHour <=? t)
          && (t <? pacificDstEndDay y * msPerDay + 2 * msPerHour)
       then - (7 * msPerHour) else - (8 * msPerHour) |}.

End JSDate.

(* ================================================================== *)
(** ** Strings *)
(* ================================================================== *)

(** Texts are strings of 8-bit units.  The patterns of the handlers
    inspect ASCII characters only (digits, [-], [:], [T], [,]).
    [toLowerCase] is the lower case of a text of ASCII characters: it maps
    [A]..[Z] and leaves every other unit unchanged, where the platform
    also maps the capital letters outside ASCII; the date range resolver
    therefore takes the lower case of the platform as a parameter
    ([calculateDateRangeWith]). *)

Module JSText.

Definition isDigit (c : ascii) : bool :=
  let n := N_of_ascii c in ((48 <=? n) && (n <=? 57))%N.

Fixpoint allDigits (s : string) : bool :=
  match s with
  | EmptyString => true
  | String c r => isDigit c && allDigits r
  end.

(** [String(n)] and template interpolation of an integer. *)
Definition numToString (n : Z) : string := NilZero.string_of_int (Z.to_int n).

(** [parseInt] on a capture of decimal digits (its only use here). *)
Definition parseInt (s : string) : Z :=
  match NilEmpty.uint_of_string s with
  | Some u => Z.of_uint u
  | None => 0
  end.

(** [Number(s)] on a segment of a time of day written with digits, as
    [HH:MM] is: the empty string is 0, a run of decimal digits is its
    value, and NaN is [None].  [Number] also reads blanks around the
    digits, signs, fractions, exponents and radix prefixes; a segment of
    that kind is outside this definition, which gives NaN for it. *)
Definition Number (s : string) : option Z :=
  match s with
  | EmptyString => Some 0
  | _ => if allDigits s then Some (parseInt s) else None
  end.

Fixpoint cycleFill (k : nat) (cur fill : string) : string :=
  match k with
  | O => EmptyString
  | S k' =>
      match cur with
      | String c r => String c (cycleFill k' r fill)
      | EmptyString =>
          match fill with
          | String c r => String c (cycleFill k' r fill)
          | EmptyString => EmptyString
          end
      end
  end.

Definition padStart (n : nat) (fill s : string) : string :=
  if (n <=? String.length s)%nat then s
  else cycleFill (n - String.length s) fill fill ++ s.

Definition lowerChar (c : ascii) : ascii :=
  let n := N_of_ascii c in
  if ((65 <=? n) && (n <=? 90))%N then ascii_of_N (n + 32) else c.

Fixpoint toLowerCase (s : string) : string :=
  match s with
  | EmptyString => EmptyString
  | String c r => String (lowerChar c) (toLowerCase r)
  end.

Fixpoint includes (s sub : string) : bool :=
  prefix sub s ||
  match s with
  | EmptyString => false
  | String _ r => includes r sub
  end.

Definition includesChar (s : string) (c : ascii) : bool :=
  includes s (String c EmptyString).

(** [s.split(sep)] for a one-character separator. *)
Fixpoint splitAux (sep : ascii) (s : string) (cur : string) : list string :=
  match s with
  | EmptyString => [cur]
  | String c r =>
      if Ascii.eqb c sep then cur :: splitAux sep r EmptyString
      else splitAux sep r (cur ++ String c EmptyString)
  end.

Definition split (sep : ascii) (s : string) : list string :=
  splitAux sep s EmptyString.

(** JavaScript truthiness of a possibly absent string. *)
Definition truthy (o : option string) : bool :=
  match o with
  | Some (String _ _) => true
  | _ => false
  end.

(** The property names that every object inherits: a look-up under one
    of them finds a member although nothing was stored. *)
Definition inheritedKeys : list string :=
  ["constructor"; "__defineGetter__"; "__defineSetter__"; "hasOwnProperty";
   "__lookupGetter__"; "__lookupSetter__"; "isPrototypeOf";
   "propertyIsEnumerable"; "toString"; "valueOf"; "__proto__";
   "toLocaleString"].

End JSText.

(* ================================================================== *)
(** ** Numbers *)
(* ================================================================== *)

(** A number of a request body is a double: not a number, an infinity, or
    a finite double, held here by its value (a rational).  The whole
    numbers up to 2^53 in absolute value are all doubles; the operations
    below round where the code's operations round. *)

Module JSNumber.

Inductive Num :=
| NaN
| Infinity (negative : bool)
| Finite (q : Q).

Definition ofZ (z : Z) : Num := Finite (inject_Z z).

(** [!n] *)
Definition falsy (n : Num) : bool :=
  match n with
  | NaN => true
  | Infinity _ => false
  | Finite q => Qnum q =? 0
  end.

(** The whole number that a finite number is, if it is one. *)
Definition wholeOf (n : Num) : option Z :=
  match n with
  | Finite q =>
      let r := Qred q in
      if (Qden r =? 1)%positive then Some (Qnum r) else None
  | _ => None
  end.

(** [a <= b]; false when one of them is [NaN]. *)
Definition leb (a b : Num) : bool :=
  match a, b with
  | NaN, _ | _, NaN => false
  | Infinity true, _ => true
  | _, Infinity false => true
  | Infinity false, _ => false
  | _, Infinity true => false
  | Finite p, Finite q => Qle_bool p q
  end.

Definition Math_min (a b : Num) : Num :=
  match a, b with
  | NaN, _ | _, NaN => NaN
  | _, _ => if leb a b then a else b
  end.

Definition Math_max (a b : Num) : Num :=
  match a, b with
  | NaN, _ | _, NaN => NaN
  | _, _ => if leb a b then b else a
  end.

(** The whole number nearest to [a / b] for [b > 0], the even one of the
    two when [a / b] lies half way. *)
Definition roundHalfEven (a b : Z) : Z :=
  let q := a / b in
  let r := a mod b in
  if 2 * r <? b then q
  else if b <? 2 * r then q + 1
  else if Z.even q then q else q + 1.

(** The double nearest to the whole number [z]: a double holds 53 binary
    digits, so from 2^53 on the whole numbers are rounded to a multiple of
    a power of two. *)
Definition roundDouble (z : Z) : Z :=
  let e := Z.log2 (Z.abs z) - 52 in
  if e <=? 0 then z
  else Z.sgn z * (roundHalfEven (Z.abs z) (2 ^ e) * 2 ^ e).

(** [Math.floor(t / b)] for a whole double [t] and a whole [b] with
    [0 < b < 2^53]: the quotient is rounded to the nearest double before
    its floor is taken. *)
Definition floorOfQuotient (t b : Z) : Z :=
  let n := Z.abs t / b in
  let e := Z.log2 n - 52 in
  if n =? 0 then t / b
  else if 0 <=? e then Z.sgn t * (roundHalfEven (Z.abs t) (b * 2 ^ e) * 2 ^ e)
  else (Z.sgn t * roundHalfEven (Z.abs t * 2 ^ (- e)) b) / 2 ^ (- e).

End JSNumber.

Import JSDate JSText.

(** [d.toISOString().split("T")[0]]: the UTC date of a time value, with a
    four-digit year, or a signed six-digit one outside 0..9999. *)
Definition isoYear (y : Z) : string :=
  if (0 <=? y) && (y <=? 9999) then padStart 4 "0" (numToString y)
  else (if y <? 0 then "-" else "+") ++ padStart 6 "0" (numToString (Z.abs y)).

Definition toISODate (t : Z) : string :=
  isoYear (YearFromTime t) ++ "-"
  ++ padStart 2 "0" (numToString (MonthFromTime t + 1)) ++ "-"
  ++ padStart 2 "0" (numToString (DateFromTime t)).

(* ================================================================== *)
(** ** The chat route: date ranges *)
(* ================================================================== *)

Module Chat.

(** What the handler reads from its host: the time zone of the process,
    the current time value, and the parts that the Los Angeles formatter
    gives for it ([formatToParts]: type and value). *)
Record Host := {
  zone : Zone;
  now : Z;
  laParts : list (string * string)
}.

Record DateRange := { timeMin : string; timeMax : string }.

Definition getPart (h : Host) (type : string) : string :=
  match find (fun p => (fst p =? type)%string) (laParts h) with
  | Some (_, String c r) => String c r
  | _ => "0"
  end.

Definition laYear (h : Host) : Z := parseInt (getPart h "year").
Definition laMonth (h : Host) : Z := parseInt (getPart h "month") - 1.
Definition laDay (h : Host) : Z := parseInt (getPart h "day").

Definition todayLA (h : Host) : Z :=
  newDateYMD (zone h) (laYear h) (laMonth h) (laDay h).

Definition tzOffsetFor (z : Zone) (year nowT : Z) : string :=
  let jan := newDateYMD z year 0 1 in
  let jul := newDateYMD z year 6 1 in
  let stdOffset := Z.max (getTimezoneOffset z jan) (getTimezoneOffset z jul) in
  let isDST := getTimezoneOffset z nowT <? stdOffset in
  if isDST then "-07:00" else "-08:00".

Definition tzOffset (h : Host) : string :=
  tzOffsetFor (zone h) (laYear h) (now h).

Definition formatDate (z : Zone) (d : Z) : string :=
  let year := getFullYear z d in
  let month := padStart 2 "0" (numToString (getMonth z d + 1)) in
  let day := padStart 2 "0" (numToString (getDate z d)) in
  numToString year ++ "-" ++ month ++ "-" ++ day.

(** [/^(\d{4})-(\d{2})-(\d{2})$/] *)
Definition matchIsoDate (s : string) : option (string * string * string) :=
  let y := substring 0 4 s in
  let m := substring 5 2 s in
  let d := substring 8 2 s in
  if (String.length s =? 10)%nat
     && allDigits y && (substring 4 1 s =? "-")%string
     && allDigits m && (substring 7 1 s =? "-")%string
     && allDigits d
  then Some (y, m, d) else None.

(** [/^week_of:(\d{4})-(\d{2})-(\d{2})$/] *)
Definition matchWeekOf (s : string) : option (string * string * string) :=
  if prefix "week_of:" s
  then matchIsoDate (substring 8 (String.length s - 8) s)
  else None.

Definition startOfDay (day tz : string) : string := day ++ "T00:00:00" ++ tz.
Definition endOfDay (day tz : string) : string := day ++ "T23:59:59" ++ tz.

Definition isOneOf (s : string) (cases : list string) : bool :=
  existsb (String.eqb s) cases.

(** [calculateDateRange], with [String.prototype.toLowerCase] of the
    platform as a parameter. *)
Definition calculateDateRangeWith (toLowerCase : string -> string)
           (h : Host) (rangeType : string) : DateRange :=
  let z := zone h in
  let todayLA := todayLA h in
  let tzOffset := tzOffset h in
  match matchWeekOf rangeType with
  | Some (yearStr, monthStr, dayStr) =>
      let targetDate :=
        newDateYMD z (parseInt yearStr) (parseInt monthStr - 1) (parseInt dayStr) in
      let dayOfWeek := getDay z targetDate in
      let sunday := setDate z targetDate (getDate z targetDate - dayOfWeek) in
      let saturday := setDate z sunday (getDate z sunday + 6) in
      {| timeMin := startOfDay (formatDate z sunday) tzOffset;
         timeMax := endOfDay (formatDate z saturday) tzOffset |}
  | None =>
  match matchIsoDate rangeType with
  | Some _ =>
      let specificDate := rangeType in
      {| timeMin := startOfDay specificDate tzOffset;
         timeMax := endOfDay specificDate tzOffset |}
  | None =>
      let key := toLowerCase rangeType in
      let '(startDate, endDate) :=
        if isOneOf key ["today"] then
          (todayLA, todayLA)
        else if isOneOf key ["yesterday"] then
          let startDate := setDate z todayLA (getDate z todayLA - 1) in
          (startDate, startDate)
        else if isOneOf key ["tomorrow"] then
          let startDate := setDate z todayLA (getDate z todayLA + 1) in
          (startDate, startDate)
        else if isOneOf key ["last_week"; "last week"; "past week"] then
          (setDate z todayLA (getDate z todayLA - 7), todayLA)
        else if isOneOf key ["this_week"; "this week"] then
          let dayOfWeek := getDay z todayLA in
          let daysToMonday := if dayOfWeek =? 0 then 6 else dayOfWeek - 1 in
          let startDate := setDate z todayLA (getDate z todayLA - daysToMonday) in
          (startDate, setDate z startDate (getDate z startDate + 6))
        else if isOneOf key ["next_week"; "next week"] then
          let dow := getDay z todayLA in
          let daysUntilMonday := if dow =? 0 then 1 else 8 - dow in
          let startDate := setDate z todayLA (getDate z todayLA + daysUntilMonday) in
          (startDate, setDate z startDate (getDate z startDate + 6))
        else if isOneOf key ["last_month"; "last month"; "past month"] then
          (setDate z todayLA (getDate z todayLA - 30), todayLA)
        else
          (* "upcoming", "schedule" and the default *)
          (todayLA, setDate z todayLA (getDate z todayLA + 7)) in
      {| timeMin := startOfDay (formatDate z startDate) tzOffset;
         timeMax := endOfDay (formatDate z endDate) tzOffset |}
  end
  end.

(** The resolver on tokens of ASCII characters, whose lower case is that
    of [JSText.toLowerCase]. *)
Definition calculateDateRange (h : Host) (rangeType : string) : DateRange :=
  calculateDateRangeWith toLowerCase h rangeType.

(* ---------------------------------------------------------------- *)
(** *** Events, calendars and what the calendar service returns *)

Record CalendarEvent := {
  id : string;
  title : string;
  start : string;
  end_ : string;
  location : option string;
  calendarId : option string;
  calendarName : option string;
  calendarColor : option string
}.

Record CalendarInfo := {
  cal_id : string;
  cal_name : string;
  cal_color : string
}.

(** An event of the calendar service carries either a [dateTime] or, for
    an all-day event, a [date]. *)
Inductive EventTime :=
| dateTime (s : string)
| date (s : string).

Definition timeText (t : EventTime) : string :=
  match t with dateTime s => s | date s => s end.

Record GoogleItem := {
  g_id : string;
  g_summary : option string;
  g_start : EventTime;
  g_end : EventTime;
  g_location : option string
}.

(** One per-calendar request: the request throws (network error, or a
    body that is not JSON), the service answers with an error status, or
    it answers with a body whose [items] may be absent. *)
Inductive FetchOutcome :=
| FetchThrew
| FetchNotOk
| FetchOk (items : option (list GoogleItem)).

Record DeleteSearch := {
  searchTerm : option string;
  searchDate : option string;
  time : option string;
  timeRangeStart : option string;
  timeRangeEnd : option string;
  needsClarification : bool;
  clarificationQuestion : option string
}.

Record AppointmentData := {
  a_date : option string;
  a_time : option string;
  a_title : option string;
  a_description : option string;
  a_duration : Z;
  a_needsClarification : bool;
  a_clarificationMessage : option string
}.

Record ChatResponse := {
  message : string;
  speech : option string;
  action : string;
  appointment : option AppointmentData;
  readRange : option string;
  deleteSearch : option DeleteSearch
}.

(** What [JSON.parse] makes of the completion: it throws a syntax
    error, or it returns [null], or a value other than [null] that has no
    property [action] (a number, a text, an array, an object such as
    [{}]), or an object read through the fields of [ChatResponse]. *)
Inductive Parsed :=
| SyntaxError
| JsonNull
| JsonNoAction
| JsonObject (parsed : ChatResponse).

(** The JSON body of a reply; absent keys are [None]. *)
Record ReplyBody := {
  r_message : string;
  r_speech : option string;
  r_action : string;
  r_appointment : option AppointmentData;
  r_readRange : option string;
  r_deleteSearch : option DeleteSearch;
  r_events : option (list CalendarEvent);
  r_deleteEvent : option CalendarEvent;
  r_multipleEvents : option (list CalendarEvent)
}.

(** A reply: an error with its status, a body built by the handler, or
    (status 200) the parsed completion passed back with its own
    properties, whatever they are. *)
Inductive Reply :=
| ErrorReply (status : Z) (error : string)
| JsonReply (body : ReplyBody)
| ValueReply.

Definition plainReply (msg : string) (sp : option string) : Reply :=
  JsonReply {| r_message := msg; r_speech := sp; r_action := "none";
               r_appointment := None; r_readRange := None;
               r_deleteSearch := None; r_events := None;
               r_deleteEvent := None; r_multipleEvents := None |}.

(** The callback mapped over the calendars to search. *)
Definition eventOfItem (cal : CalendarInfo) (withColor : bool)
           (event : GoogleItem) : CalendarEvent :=
  {| id := g_id event;
     title := if truthy (g_summary event)
              then match g_summary event with Some t => t | None => "" end
              else "(No title)";
     start := timeText (g_start event);
     end_ := timeText (g_end event);
     location := g_location event;
     calendarId := Some (cal_id cal);
     calendarName := Some (cal_name cal);
     calendarColor := if withColor then Some (cal_color cal) else None |}.

Definition fetchCalendar (withColor : bool) (cal : CalendarInfo)
           (outcome : FetchOutcome) : list CalendarEvent :=
  match outcome with
  | FetchThrew => []
  | FetchNotOk => []
  | FetchOk None => []
  | FetchOk (Some items) => map (eventOfItem cal withColor) items
  end.

Definition primaryCalendar : CalendarInfo :=
  {| cal_id := "primary"; cal_name := "Primary"; cal_color := "#4285f4" |}.

Definition calendarsToSearch (activeCalendars : list CalendarInfo)
  : list CalendarInfo :=
  match activeCalendars with
  | [] => [primaryCalendar]
  | _ => activeCalendars
  end.

Section Handler.

(** Services of the platform that the handler calls:
    [String.prototype.localeCompare], [Date.parse] (NaN is [None]),
    the Los Angeles rendering of a start time, [JSON.parse] of the
    completion, the request to the
    calendar service for one calendar and one window, the wording
    of a range token ("for today", "for the week of ..."), and the
    two renderings of an event list, which may throw ([None]). *)
Variable localeCompare : string -> string -> Z.
Variable Date_parse : string -> option Z.
Variable toLocaleTimeString : string -> string.
Variable JSON_parse : string -> Parsed.
Variable fetchEvents :
  CalendarInfo -> string -> string -> string -> FetchOutcome.
Variable rangeDescriptionOf : string -> string.
Variable formatEventsMessage :
  list CalendarEvent -> string -> bool -> option string.
Variable formatEventsSpeech : list CalendarEvent -> string -> option string.

(** [Array.prototype.sort] is stable: elements that compare equal keep
    their order.  Insertion from the right computes that result. *)
Fixpoint insertSorted (a : CalendarEvent) (l : list CalendarEvent)
  : list CalendarEvent :=
  match l with
  | [] => [a]
  | b :: r =>
      if localeCompare (start a) (start b) <=? 0 then a :: b :: r
      else b :: insertSorted a r
  end.

Definition sortByStart (l : list CalendarEvent) : list CalendarEvent :=
  fold_right insertSorted [] l.

(** [a] may come before [b] in ascending order of [start]. *)
Definition startsInOrder (a b : CalendarEvent) : Prop :=
  localeCompare (start a) (start b) <= 0.

(** The read branch: one request per calendar, failures give no
    events, the results are flattened and sorted by [start]. *)
Definition readEvents (h : Host) (rangeType : string)
           (activeCalendars : list CalendarInfo) : list CalendarEvent :=
  let dateRange := calculateDateRange h rangeType in
  let allEventsArrays :=
    map (fun cal =>
           fetchCalendar true cal
             (fetchEvents cal (timeMin dateRange) (timeMax dateRange) "2500"))
        (calendarsToSearch activeCalendars) in
  sortByStart (List.concat allEventsArrays).

(** The reply of the [catch] around the read. *)
Definition troubleReply : Reply :=
  plainReply "I had trouble fetching your calendar. Please try again."
             (Some "I had trouble fetching your calendar. Please try again.").

(** The read branch from the requests on: the events are rendered
    twice, for the page and for the voice, and an exception of either
    rendering is caught with [troubleReply]. *)
Definition readReply (h : Host) (rangeType : string)
           (activeCalendars : list CalendarInfo) : Reply :=
  let events := readEvents h rangeType activeCalendars in
  let showCalendarNames :=
    (1 <? Z.of_nat (List.length (calendarsToSearch activeCalendars))) in
  let rangeDescription := rangeDescriptionOf rangeType in
  match formatEventsMessage events rangeDescription showCalendarNames with
  | None => troubleReply
  | Some eventsMessage =>
      match formatEventsSpeech events rangeDescription with
      | None => troubleReply
      | Some eventsSpeech =>
          JsonReply {| r_message := eventsMessage;
                       r_speech := Some eventsSpeech;
                       r_action := "none";
                       r_appointment := None; r_readRange := None;
                       r_deleteSearch := None; r_events := Some events;
                       r_deleteEvent := None; r_multipleEvents := None |}
      end
  end.

(* -------------------------------------------------------------- *)
(** *** The delete search *)

Definition deleteWindow (h : Host) (d : option string) : DateRange :=
  let z := zone h in
  let tzOffset := tzOffsetFor z (getFullYear z (now h)) (now h) in
  if truthy d then
    let date := match d with Some s => s | None => "" end in
    {| timeMin := startOfDay date tzOffset; timeMax := endOfDay date tzOffset |}
  else
    let past := setDate z (now h) (getDate z (now h) - 30) in
    let future := setDate z (now h) (getDate z (now h) + 30) in
    {| timeMin := startOfDay (toISODate past) tzOffset;
       timeMax := endOfDay (toISODate future) tzOffset |}.

Definition fetchedForDelete (h : Host) (d : option string)
           (activeCalendars : list CalendarInfo) : list CalendarEvent :=
  let w := deleteWindow h d in
  List.concat (map (fun cal =>
                 fetchCalendar false cal
                   (fetchEvents cal (timeMin w) (timeMax w) "100"))
              (calendarsToSearch activeCalendars)).

(** [const [a, b] = t.split(":").map(Number)]: a missing segment is
    [undefined], which like NaN makes every comparison false. *)
Definition hourMinute (t : string) : option Z * option Z :=
  let parts := map Number (split ":" t) in
  (nth 0 parts None, nth 1 parts None).

Definition isAllDay (e : CalendarEvent) : bool :=
  negb (includesChar (start e) "T").

Definition bySearchTerm (term : string) (events : list CalendarEvent)
  : list CalendarEvent :=
  let searchLower := toLowerCase term in
  filter (fun e => includes (toLowerCase (title e)) searchLower) events.

Definition timeMatches (z : Zone) (filterTime : string) (e : CalendarEvent)
  : bool :=
  let '(filterHour, filterMin) := hourMinute filterTime in
  if isAllDay e then false
  else
    match Date_parse (start e), filterHour, filterMin with
    | Some eventDate, Some fh, Some fm =>
        let eventHour := getHours z eventDate in
        let eventMin := getMinutes z eventDate in
        (eventHour =? fh) && (Z.abs (eventMin - fm) <=? 30)
    | _, _, _ => false
    end.

Definition byTime (z : Zone) (filterTime : string)
           (events : list CalendarEvent) : list CalendarEvent :=
  filter (timeMatches z filterTime) events.

Definition minutesOfDay (hm : option Z * option Z) : option Z :=
  match hm with
  | (Some hh, Some mm) => Some (hh * 60 + mm)
  | _ => None
  end.

Definition rangeMatches (z : Zone) (rangeStart rangeEnd : string)
           (e : CalendarEvent) : bool :=
  let rangeStartMinutes := minutesOfDay (hourMinute rangeStart) in
  let rangeEndMinutes := minutesOfDay (hourMinute rangeEnd) in
  if isAllDay e then false
  else
    match Date_parse (start e), rangeStartMinutes, rangeEndMinutes with
    | Some eventDate, Some lo, Some hi =>
        let eventMinutes :=
          getHours z eventDate * 60 + getMinutes z eventDate in
        (lo <=? eventMinutes) && (eventMinutes <=? hi)
    | _, _, _ => false
    end.

Definition byTimeRange (z : Zone) (rangeStart rangeEnd : string)
           (events : list CalendarEvent) : list CalendarEvent :=
  filter (rangeMatches z rangeStart rangeEnd) events.

Definition orEmpty (o : option string) : string :=
  match o with Some s => s | None => "" end.

(** The three filters, each applied only when its field is truthy. *)
Definition stageSearchTerm (ds : DeleteSearch) (events : list CalendarEvent) :=
  if truthy (searchTerm ds) then bySearchTerm (orEmpty (searchTerm ds)) events
  else events.

Definition stageTime (z : Zone) (ds : DeleteSearch) (events : list CalendarEvent) :=
  if truthy (time ds) then byTime z (orEmpty (time ds)) events else events.

Definition stageTimeRange (z : Zone) (ds : DeleteSearch)
           (events : list CalendarEvent) :=
  if truthy (timeRangeStart ds) && truthy (timeRangeEnd ds)
  then byTimeRange z (orEmpty (timeRangeStart ds)) (orEmpty (timeRangeEnd ds)) events
  else events.

Definition filterCascade (z : Zone) (ds : DeleteSearch)
           (events : list CalendarEvent) : list CalendarEvent :=
  stageTimeRange z ds (stageTime z ds (stageSearchTerm ds events)).

Definition noMatchReply : Reply :=
  plainReply
    "I couldn't find any appointments matching that. Can you give me more details like the exact time or what the appointment is for?"
    (Some "I couldn't find that appointment. Can you give me more details?").

Definition deleteOutcome (parsedMessage : string)
           (events : list CalendarEvent) : Reply :=
  match events with
  | [] => noMatchReply
  | [evt] =>
      let evtTime :=
        if includesChar (start evt) "T" then toLocaleTimeString (start evt)
        else "all day" in
      JsonReply {| r_message := parsedMessage;
                   r_speech := Some ("Delete " ++ title evt ++ " at " ++ evtTime ++ "?");
                   r_action := "delete";
                   r_appointment := None; r_readRange := None;
                   r_deleteSearch := None; r_events := None;
                   r_deleteEvent := Some evt; r_multipleEvents := None |}
  | _ =>
      let n := Z.of_nat (List.length events) in
      let eventsToShow := firstn 10 events in
      JsonReply {| r_message :=
                     "I found " ++ numToString n ++ " appointment"
                     ++ (if 1 <? n then "s" else "")
                     ++ " matching your request. Select which ones to delete:";
                   r_speech :=
                     Some ("Found " ++ numToString n
                           ++ " matching appointments. Please select on screen.");
                   r_action := "delete_multiple";
                   r_appointment := None; r_readRange := None;
                   r_deleteSearch := None; r_events := None;
                   r_deleteEvent := None; r_multipleEvents := Some eventsToShow |}
  end.

Definition noAccessReply : Reply :=
  plainReply
    "I can't access your calendar. Please sign out and sign in again to grant calendar permissions."
    (Some "I can't access your calendar. Please sign out and sign in again.").

Definition deleteReply (h : Host) (providerToken : option string)
           (parsed : ChatResponse) (ds : DeleteSearch)
           (activeCalendars : list CalendarInfo) : Reply :=
  if needsClarification ds then plainReply (message parsed) None
  else if negb (truthy providerToken) then noAccessReply
  else
    let events := fetchedForDelete h (searchDate ds) activeCalendars in
    deleteOutcome (message parsed) (filterCascade (zone h) ds events).

(* -------------------------------------------------------------- *)
(** *** The handler after the completion request *)

(** The completion request: it throws, answers with an error status,
    or answers with a body whose first choice may have no content. *)
Inductive Completion :=
| CompletionThrew
| CompletionNotOk
| CompletionOk (content : option string).

Definition rephraseReply : Reply :=
  plainReply "I had trouble understanding that. Could you rephrase?"
             (Some "I had trouble understanding that. Could you rephrase?").

(** The last reply: the parsed completion with [speech] defaulting
    to [message]. *)
Definition finalResponse (parsed : ChatResponse) : Reply :=
  JsonReply {| r_message := message parsed;
               r_speech := if truthy (speech parsed) then speech parsed
                           else Some (message parsed);
               r_action := action parsed;
               r_appointment := appointment parsed;
               r_readRange := readRange parsed;
               r_deleteSearch := deleteSearch parsed;
               r_events := None; r_deleteEvent := None;
               r_multipleEvents := None |}.

Definition respond (h : Host) (providerToken : option string)
           (activeCalendars : list CalendarInfo) (c : Completion) : Reply :=
  match c with
  | CompletionThrew => ErrorReply 500 "Failed to process request"
  | CompletionNotOk => ErrorReply 500 "AI service error"
  | CompletionOk content =>
      if negb (truthy content) then ErrorReply 500 "No response from AI"
      else
        match JSON_parse (orEmpty content) with
        | SyntaxError => rephraseReply
        | JsonNull =>
            (* reading [parsed.action] throws; the outer handler answers *)
            ErrorReply 500 "Failed to process request"
        | JsonNoAction =>
            (* neither a read nor a delete: [{...parsed, speech: ...}] *)
            ValueReply
        | JsonObject parsed =>
            if (action parsed =? "read")%string && truthy (readRange parsed) then
              if negb (truthy providerToken) then noAccessReply
              else readReply h (orEmpty (readRange parsed)) activeCalendars
            else
              match deleteSearch parsed with
              | Some ds =>
                  if (action parsed =? "delete")%string
                  then deleteReply h providerToken parsed ds activeCalendars
                  else finalResponse parsed
              | None => finalResponse parsed
              end
        end
  end.

(** The request as the handler sees it: the session check, the body
    ([message] is [None] when it is missing or not a string,
    [calendars] is [None] when it is not an array), the key of the
    completion service, and the completion itself. *)
Record Request := {
  authError : bool;
  sessionUser : bool;
  provider_token : option string;
  req_message : option string;
  req_calendars : option (list CalendarInfo);
  openaiKey : option string;
  completion : Completion
}.

Definition POST (h : Host) (req : Request) : Reply :=
  if authError req || negb (sessionUser req) then ErrorReply 401 "Unauthorized"
  else
    let activeCalendars :=
      match req_calendars req with Some l => l | None => [] end in
    if negb (truthy (req_message req)) then ErrorReply 400 "Message is required"
    else if negb (truthy (openaiKey req)) then ErrorReply 500 "AI service not configured"
    else respond h (provider_token req) activeCalendars (completion req).

End Handler.

End Chat.

(* ================================================================== *)
(** ** The event route: creating an event *)
(* ================================================================== *)

Module Events.

(** The request body; an absent key is [None] ([allDay] absent is
    [false]); [duration] is a number, in minutes. *)
Record EventRequest := {
  calendarId : option string;
  title : option string;
  description : option string;
  location : option string;
  date : option string;
  time : option string;
  duration : option JSNumber.Num;
  allDay : bool;
  recurrence : option string
}.

Record GoogleTime := {
  g_dateTime : option string;
  g_date : option string;
  g_timeZone : option string
}.

(** What [recurrenceRules[recurrence]] finds: one of the four rules, or,
    under a name that every object inherits, the inherited member. *)
Inductive RecurrenceEntry :=
| Rule (rrule : string)
| InheritedMember (key : string).

Record GoogleEvent := {
  summary : string;
  e_description : option string;
  e_location : option string;
  start : GoogleTime;
  end_ : GoogleTime;
  e_recurrence : option (list RecurrenceEntry)
}.

(** The handler up to its request to the calendar service: it answers
    with an error, it throws, or it submits an event to a calendar.  For
    a timed event whose duration has a fractional part, the text of the
    end time is not followed here: [SubmitFraction] stands for an event
    submitted with such an end. *)
Inductive Outcome :=
| Rejected (status : Z) (error : string)
| Threw
| Submit (calendar : string) (event : GoogleEvent)
| SubmitFraction (calendar : string).

(** [/^\d{2}:\d{2}$/] *)
Definition matchTime (s : string) : bool :=
  (String.length s =? 5)%nat
  && allDigits (substring 0 2 s) && (substring 2 1 s =? ":")%string
  && allDigits (substring 3 2 s).

Definition isIsoDate (s : string) : bool :=
  match Chat.matchIsoDate s with Some _ => true | None => false end.

(** [new Date(date)] for a text that matched the date pattern: the
    date-only form is read as UTC midnight; a month outside 1..12 or a
    day outside 1..31 gives an invalid date ([None]), and a day past the
    end of its month runs into the next one. *)
Definition parseDateOnly (s : string) : option Z :=
  match Chat.matchIsoDate s with
  | Some (y, m, d) =>
      let mo := parseInt m in
      let dy := parseInt d in
      if (1 <=? mo) && (mo <=? 12) && (1 <=? dy) && (dy <=? 31)
      then Some (MakeDate (MakeDay (parseInt y) (mo - 1) dy) 0)
      else None
  | None => None
  end.

Definition orUndefined (o : option string) : option string :=
  if truthy o then o else None.

Definition orEmpty (o : option string) : string :=
  match o with Some s => s | None => "" end.

Definition recurrenceRule (r : string) : option RecurrenceEntry :=
  if (r =? "daily")%string then Some (Rule "RRULE:FREQ=DAILY")
  else if (r =? "weekly")%string then Some (Rule "RRULE:FREQ=WEEKLY")
  else if (r =? "monthly")%string then Some (Rule "RRULE:FREQ=MONTHLY")
  else if (r =? "yearly")%string then Some (Rule "RRULE:FREQ=YEARLY")
  else if Chat.isOneOf r inheritedKeys then Some (InheritedMember r)
  else None.

Definition withRecurrence (r : option string) (e : GoogleEvent) : GoogleEvent :=
  if truthy r && negb (orEmpty r =? "none")%string then
    match recurrenceRule (orEmpty r) with
    | Some rule =>
        {| summary := summary e; e_description := e_description e;
           e_location := e_location e; start := start e; end_ := end_ e;
           e_recurrence := Some [rule] |}
    | None => e
    end
  else e.

(** The end of an all-day event: the day after [date], computed on a
    [Date] with the local [getDate]/[setDate] and rendered in UTC. *)
Definition allDayEnd (z : Zone) (date : string) : option string :=
  match parseDateOnly date with
  | Some endDate =>
      let endDate := setDate z endDate (getDate z endDate + 1) in
      Some (toISODate endDate)
  | None => None
  end.

(** The end of a timed event.  The hours and minutes of a time that
    matched the pattern are whole numbers below 100, and
    [hours * 60 + minutes] is exact; the sum with the duration and the
    quotient by 60 are rounded to doubles; [%], JavaScript's remainder, is
    exact.  With a part of the time that is no number, or a duration that
    is not finite, both remainders are [NaN].  [None] for a duration with
    a fractional part. *)
Definition endTimeOf (time : string) (eventDuration : JSNumber.Num)
  : option string :=
  let parts := map Number (split ":" time) in
  match nth 0 parts None, nth 1 parts None, eventDuration with
  | Some hours, Some minutes, JSNumber.Finite _ =>
      match JSNumber.wholeOf eventDuration with
      | Some d =>
          let totalMinutes := JSNumber.roundDouble (hours * 60 + minutes + d) in
          let endHours := Z.rem (JSNumber.floorOfQuotient totalMinutes 60) 24 in
          let endMinutes := Z.rem totalMinutes 60 in
          Some (padStart 2 "0" (numToString endHours) ++ ":"
                ++ padStart 2 "0" (numToString endMinutes))
      | None => None
      end
  | _, _, _ => Some "NaN:NaN"
  end.

Definition POST (z : Zone) (authError hasSession : bool)
           (providerToken : option string) (body : EventRequest) : Outcome :=
  if authError || negb hasSession then Rejected 401 "Unauthorized"
  else if negb (truthy providerToken) then
    Rejected 403 "No calendar access. Please sign out and sign in again to grant calendar permissions."
  else if negb (truthy (calendarId body)) || negb (truthy (title body))
          || negb (truthy (date body)) then
    Rejected 400 "Missing required fields: calendarId, title, date"
  else
    let date := orEmpty (date body) in
    if negb (isIsoDate date) then Rejected 400 "Invalid date format. Use YYYY-MM-DD"
    else if negb (allDay body) && negb (truthy (time body)) then
      Rejected 400 "Time is required for non-all-day events"
    else if truthy (time body) && negb (matchTime (orEmpty (time body))) then
      Rejected 400 "Invalid time format. Use HH:MM"
    else if allDay body then
      match allDayEnd z date with
      | None => Threw
      | Some endDateStr =>
          Submit (orEmpty (calendarId body))
            (withRecurrence (recurrence body)
               {| summary := orEmpty (title body);
                  e_description := orUndefined (description body);
                  e_location := orUndefined (location body);
                  start := {| g_dateTime := None; g_date := Some date;
                              g_timeZone := None |};
                  end_ := {| g_dateTime := None; g_date := Some endDateStr;
                             g_timeZone := None |};
                  e_recurrence := None |})
      end
    else
      let time := orEmpty (time body) in
      let startDateTime := date ++ "T" ++ time ++ ":00" in
      let eventDuration :=
        match duration body with
        | Some d => if JSNumber.falsy d then JSNumber.ofZ 60 else d
        | None => JSNumber.ofZ 60
        end in
      match endTimeOf time eventDuration with
      | None => SubmitFraction (orEmpty (calendarId body))
      | Some endTime =>
          let endDateTime := date ++ "T" ++ endTime ++ ":00" in
          Submit (orEmpty (calendarId body))
            (withRecurrence (recurrence body)
               {| summary := orEmpty (title body);
                  e_description := orUndefined (description body);
                  e_location := orUndefined (location body);
                  start := {| g_dateTime := Some startDateTime; g_date := None;
                              g_timeZone := Some "America/Los_Angeles" |};
                  end_ := {| g_dateTime := Some endDateTime; g_date := None;
                             g_timeZone := Some "America/Los_Angeles" |};
                  e_recurrence := None |})
      end.

End Events.

(* ================================================================== *)
(** ** The speech route: sanitising the text *)
(* ================================================================== *)

(** The regular expressions of this route have no [u] flag, so they see a
    text as its UTF-16 code units: here a text is a list of code units. *)

Module Speech.

Definition ustring := list Z.

Definition ofAscii (s : string) : ustring :=
  map (fun c => Z.of_N (N_of_ascii c)) (list_ascii_of_string s).

(** The character class of the first replacement, character by
    character as the source file has it: twenty-five characters, twelve
    different ones, each a single code unit (g with breve U+011F, Y with
    diaeresis U+0178, left double quotation mark U+201C, ellipsis U+2026,
    the ligatures U+0152 and U+0153, bullet U+2022, a with circumflex
    U+00E2, em dash U+2014, left single quotation mark U+2018, i with
    diaeresis U+00EF, cedilla U+00B8).  No emoji is among them. *)
Definition classUnits : list Z :=
  [0x011F; 0x0178; 0x201C; 0x2026;
   0x011F; 0x0178; 0x201C; 0x0152;
   0x011F; 0x0178; 0x2022;
   0x011F; 0x0178; 0x201C;
   0x00E2; 0x0153; 0x2026;
   0x00E2; 0x0152;
   0x011F; 0x0178; 0x2014; 0x2018;
   0x00EF; 0x00B8].

Definition isClassUnit (c : Z) : bool := existsb (Z.eqb c) classUnits.

(** [text.replace(/[...]/g, "")] *)
Definition stripClass (s : ustring) : ustring :=
  filter (fun c => negb (isClassUnit c)) s.

Definition LBRACKET : Z := 91.
Definition RBRACKET : Z := 93.
Definition LPAREN : Z := 40.
Definition RPAREN : Z := 41.
Definition STAR : Z := 42.
Definition NEWLINE : Z := 10.
Definition DOT : Z := 46.
Definition SPACE : Z := 32.

(** The longest prefix of units other than [stop], and the rest. *)
Fixpoint spanNot (stop : Z) (s : ustring) : ustring * ustring :=
  match s with
  | [] => ([], [])
  | c :: r =>
      if c =? stop then ([], s)
      else let '(run, rest) := spanNot stop r in (c :: run, rest)
  end.

(** A match of [\[([^\]]+)\]\([^)]+\)] at the head of [s]: the
    captured group and what follows the match. *)
Definition matchLink (s : ustring) : option (ustring * ustring) :=
  match s with
  | c :: r =>
      if c =? LBRACKET then
        match spanNot RBRACKET r with
        | (label, _ :: open :: r2) =>
            match label with
            | [] => None
            | _ =>
                if open =? LPAREN then
                  match spanNot RPAREN r2 with
                  | (target, _ :: r3) =>
                      match target with
                      | [] => None
                      | _ => Some (label, r3)
                      end
                  | _ => None
                  end
                else None
            end
        | _ => None
        end
      else None
  | [] => None
  end.

(** A match of [\*\*([^*]+)\*\*] at the head of [s]. *)
Definition matchBold (s : ustring) : option (ustring * ustring) :=
  match s with
  | c1 :: c2 :: r =>
      if (c1 =? STAR) && (c2 =? STAR) then
        match spanNot STAR r with
        | (inner, _ :: c4 :: r2) =>
            match inner with
            | [] => None
            | _ => if c4 =? STAR then Some (inner, r2) else None
            end
        | _ => None
        end
      else None
  | _ => None
  end.

(** [s.replace(/.../g, "$1")]: the matches are found from left to
    right and do not overlap.  The fuel bounds the number of steps; the
    length of the text plus one is enough. *)
Fixpoint replaceGroup (matchAt : ustring -> option (ustring * ustring))
         (fuel : nat) (s : ustring) : ustring :=
  match fuel with
  | O => s
  | S fuel' =>
      match matchAt s with
      | Some (group, rest) => (group ++ replaceGroup matchAt fuel' rest)%list
      | None =>
          match s with
          | [] => []
          | c :: r => c :: replaceGroup matchAt fuel' r
          end
      end
  end.

Definition stripLinks (s : ustring) : ustring :=
  replaceGroup matchLink (S (List.length s)) s.

Definition stripBold (s : ustring) : ustring :=
  replaceGroup matchBold (S (List.length s)) s.

(** [s.replace(/\n+/g, ". ")] *)
Fixpoint newlinesToPauses (s : ustring) : ustring :=
  match s with
  | [] => []
  | c :: r =>
      if c =? NEWLINE then
        match r with
        | c' :: _ => if c' =? NEWLINE then newlinesToPauses r
                     else DOT :: SPACE :: newlinesToPauses r
        | [] => [DOT; SPACE]
        end
      else c :: newlinesToPauses r
  end.

(** White space and line terminators of [String.prototype.trim]. *)
Definition isTrimUnit (c : Z) : bool :=
  ((9 <=? c) && (c <=? 13)) || (c =? 32) || (c =? 0xA0) || (c =? 0x1680)
  || ((0x2000 <=? c) && (c <=? 0x200A)) || (c =? 0x2028) || (c =? 0x2029)
  || (c =? 0x202F) || (c =? 0x205F) || (c =? 0x3000) || (c =? 0xFEFF).

Fixpoint trimStart (s : ustring) : ustring :=
  match s with
  | [] => []
  | c :: r => if isTrimUnit c then trimStart r else s
  end.

Definition trim (s : ustring) : ustring :=
  List.rev (trimStart (List.rev (trimStart s))).

Definition cleanTextOf (text : ustring) : ustring :=
  trim (newlinesToPauses (stripBold (stripLinks (stripClass text)))).

(** The [text] field of the body. *)
Inductive TextField :=
| Missing
| NotAString
| Text (s : ustring).

(** The body; an absent key is [None].  [speed] is the field as
    [Math.min] takes it, a number. *)
Record SpeechRequest := {
  text : TextField;
  voice : option ustring;
  speed : option JSNumber.Num
}.

(** The handler up to its call of the synthesis engine. *)
Inductive Outcome :=
| Rejected (status : Z) (error : string)
| Synthesize (input voice : ustring) (speed : JSNumber.Num).

Definition POST (body : option SpeechRequest) : Outcome :=
  match body with
  | None => Rejected 500 "Failed to generate speech"
  | Some req =>
      match text req with
      | Missing | NotAString | Text [] => Rejected 400 "Text is required"
      | Text t =>
          let cleanText := cleanTextOf t in
          match cleanText with
          | [] => Rejected 400 "No speakable text"
          | _ =>
              Synthesize cleanText
                (match voice req with Some v => v | None => ofAscii "nova" end)
                (JSNumber.Math_max (JSNumber.Finite (1 # 4))
                   (JSNumber.Math_min (JSNumber.Finite 4)
                      (match speed req with
                       | Some v => v
                       | None => JSNumber.Finite 1
                       end)))
          end
      end
  end.

End Speech.

(* ================================================================== *)
(** ** Reading the results back *)
(* ================================================================== *)

(** The properties below speak of the instants that the texts of a date
    range denote.  [readStamp] reads a text [<year>-MM-DDTHH:MM:SS+hh:mm]
    back: the civil day as a day number, the seconds into that day, and the
    offset from UTC in minutes. *)

Module Stamps.

Import Chat.

Definition readInt (s : string) : option Z :=
  option_map Z.of_int (NilZero.int_of_string s).

Definition readTwo (s : string) : option Z :=
  if (String.length s =? 2)%nat && allDigits s then Some (parseInt s) else None.

(** [<year>-MM-DD], for a date that exists, as its day number. *)
Definition readDay (s : string) : option Z :=
  let n := String.length s in
  let rest := substring (n - 6) 6 s in
  if (7 <=? n)%nat
     && (substring 0 1 rest =? "-")%string
     && (substring 3 1 rest =? "-")%string
  then
    match readInt (substring 0 (n - 6) s),
          readTwo (substring 1 2 rest), readTwo (substring 4 2 rest) with
    | Some y, Some m, Some d =>
        if validCivil y m d then Some (MakeDay y (m - 1) d) else None
    | _, _, _ => None
    end
  else None.

Record Stamp := {
  stampDay : Z;
  stampClock : Z;
  stampOffset : Z
}.

Definition readClock (s : string) : option Z :=
  if (substring 2 1 s =? ":")%string && (substring 5 1 s =? ":")%string then
    match readTwo (substring 0 2 s), readTwo (substring 3 2 s),
          readTwo (substring 6 2 s) with
    | Some hh, Some mm, Some ss =>
        if (hh <? 24) && (mm <? 60) && (ss <? 60)
        then Some (hh * 3600 + mm * 60 + ss) else None
    | _, _, _ => None
    end
  else None.

Definition readOffset (s : string) : option Z :=
  let sign := substring 0 1 s in
  if (substring 3 1 s =? ":")%string then
    match readTwo (substring 1 2 s), readTwo (substring 4 2 s) with
    | Some hh, Some mm =>
        if (sign =? "+")%string then Some (hh * 60 + mm)
        else if (sign =? "-")%string then Some (- (hh * 60 + mm))
        else None
    | _, _ => None
    end
  else None.

Definition readStamp (s : string) : option Stamp :=
  let n := String.length s in
  let rest := substring (n - 15) 15 s in
  if (15 <=? n)%nat && (substring 0 1 rest =? "T")%string then
    match readDay (substring 0 (n - 15) s),
          readClock (substring 1 8 rest), readOffset (substring 9 6 rest) with
    | Some d, Some c, Some o =>
        Some {| stampDay := d; stampClock := c; stampOffset := o |}
    | _, _, _ => None
    end
  else None.

(** The instant of a stamp, in seconds since the epoch. *)
Definition instantOf (s : Stamp) : Z :=
  stampDay s * 86400 + stampClock s - stampOffset s * 60.

(** The offset in minutes of the two offsets the handler writes. *)
Definition offsetMinutes (tz : string) : Z :=
  if (tz =? "-07:00")%string then -420 else -480.

(** The fixed vocabulary of range tokens. *)
Definition enumTokens : list string :=
  ["today"; "tomorrow"; "yesterday"; "this_week"; "next_week";
   "last_week"; "last_month"; "upcoming"].

(** A text [YYYY-MM-DD] that names a date of the calendar. *)
Definition isCivilDateText (s : string) : bool :=
  match Chat.matchIsoDate s with
  | Some (y, m, d) => validCivil (parseInt y) (parseInt m) (parseInt d)
  | None => false
  end.

Definition weekOfToken (dateText : string) : string := "week_of:" ++ dateText.

Inductive InVocabulary : string -> Prop :=
| voc_enum tok : In tok enumTokens -> InVocabulary tok
| voc_date tok : isCivilDateText tok = true -> InVocabulary tok
| voc_week_of d : isCivilDateText d = true -> InVocabulary (weekOfToken d).

(** Every local midnight is a time of the host zone: the local time
    [day * msPerDay] exists and reads back as itself. *)
Definition MidnightsExist (z : Zone) : Prop :=
  forall day, LocalTime z (UTC z (day * msPerDay)) = day * msPerDay.

(** The time value of the local midnight that starts day [D]. *)
Definition midnight (z : Zone) (D : Z) : Z := UTC z (D * msPerDay).

(** Today in Los Angeles, as a day number. *)
Definition laToday (h : Host) : Z :=
  MakeDay (fullYear (laYear h)) (laMonth h) (laDay h).

(** The first and last day that each case of the [switch] selects, from
    today's day number [T] (day 0 is a Thursday). *)
Definition switchDays (T : Z) (key : string) : Z * Z :=
  let dow := (T + 4) mod 7 in
  if isOneOf key ["today"] then (T, T)
  else if isOneOf key ["yesterday"] then (T - 1, T - 1)
  else if isOneOf key ["tomorrow"] then (T + 1, T + 1)
  else if isOneOf key ["last_week"; "last week"; "past week"] then (T - 7, T)
  else if isOneOf key ["this_week"; "this week"] then
    let monday := T - (if dow =? 0 then 6 else dow - 1) in (monday, monday + 6)
  else if isOneOf key ["next_week"; "next week"] then
    let monday := T + (if dow =? 0 then 1 else 8 - dow) in (monday, monday + 6)
  else if isOneOf key ["last_month"; "last month"; "past month"] then (T - 30, T)
  else (T, T + 7).

(** The labels of the [switch] that do not lead to the default window. *)
Definition otherLabels : list string :=
  ["today"; "yesterday"; "tomorrow"; "last_week"; "last week"; "past week";
   "this_week"; "this week"; "next_week"; "next week";
   "last_month"; "last month"; "past month"].

End Stamps.

Import Chat Stamps.

(* ================================================================== *)
(** ** Example hosts and requests *)
(* ================================================================== *)

Module Examples.

(** The parts of the Los Angeles formatter, in the order of [en-US]. *)
Definition laPartsOf (month day year hour minute second : string)
  : list (string * string) :=
  [("month", month); ("literal", "/"); ("day", day); ("literal", "/");
   ("year", year); ("literal", ", "); ("hour", hour); ("literal", ":");
   ("minute", minute); ("literal", ":"); ("second", second)].

(** 18 March 2026, 13:00 in Los Angeles, which is 20:00 UTC. *)
Definition march18 : Z := MakeDate (MakeDay 2026 2 18) (20 * msPerHour).

Definition hostPacific : Host :=
  {| zone := zonePacific; now := march18;
     laParts := laPartsOf "03" "18" "2026" "13" "00" "00" |}.

Definition hostUTC : Host :=
  {| zone := zoneUTC; now := march18;
     laParts := laPartsOf "03" "18" "2026" "13" "00" "00" |}.

(** Platform services for the examples: comparison of texts by code
    unit, the reading of the time stamps of the calendar service, a
    twelve-hour rendering of their clock, and [JSON.parse] as a table of
    the completions that the examples use, besides [null] and [{}] (every
    other text is a syntax error). *)
Definition codeUnitCompare (a b : string) : Z :=
  match String.compare a b with Lt => -1 | Eq => 0 | Gt => 1 end.

Definition parseStampOrDay (s : string) : option Z :=
  match readStamp s with
  | Some st => Some (instantOf st * 1000)
  | None => option_map (fun d => d * msPerDay) (readDay s)
  end.

Definition twelveHourClock (s : string) : string :=
  match readStamp s with
  | Some st =>
      let hh := stampClock st / 3600 in
      let mm := (stampClock st / 60) mod 60 in
      numToString ((hh + 11) mod 12 + 1) ++ ":" ++ padStart 2 "0" (numToString mm)
      ++ (if hh <? 12 then " AM" else " PM")
  | None => "Invalid Date"
  end.

Definition searchAfternoon : DeleteSearch :=
  {| searchTerm := Some "dentist"; searchDate := None;
     time := Some "14:00"; timeRangeStart := Some "12:00";
     timeRangeEnd := Some "17:00"; needsClarification := false;
     clarificationQuestion := None |}.

Definition searchByTitle : DeleteSearch :=
  {| searchTerm := Some "dentist"; searchDate := None; time := None;
     timeRangeStart := None; timeRangeEnd := None;
     needsClarification := false; clarificationQuestion := None |}.

Definition deleteDentist : ChatResponse :=
  {| message := "Looking..."; speech := None; action := "delete";
     appointment := None; readRange := None;
     deleteSearch := Some searchAfternoon |}.

Definition readTomorrow : ChatResponse :=
  {| message := "Checking..."; speech := None; action := "read";
     appointment := None; readRange := Some "tomorrow";
     deleteSearch := None |}.

Definition completions : list (string * ChatResponse) :=
  [("{delete the dentist}", deleteDentist); ("{what do i have tomorrow}", readTomorrow)].

Definition parseFromTable (s : string) : Parsed :=
  match find (fun p => (fst p =? s)%string) completions with
  | Some (_, r) => JsonObject r
  | None =>
      if (s =? "null")%string then JsonNull
      else if (s =? "{}")%string then JsonNoAction
      else SyntaxError
  end.

Definition item (i : string) (t : option string) (s : EventTime) : GoogleItem :=
  {| g_id := i; g_summary := t; g_start := s; g_end := s; g_location := None |}.

Definition workCalendar : CalendarInfo :=
  {| cal_id := "work"; cal_name := "Work"; cal_color := "#0b8043" |}.
Definition homeCalendar : CalendarInfo :=
  {| cal_id := "home"; cal_name := "Home"; cal_color := "#d50000" |}.
Definition sharedCalendar : CalendarInfo :=
  {| cal_id := "shared"; cal_name := "Shared"; cal_color := "#3f51b5" |}.

(** The calendar service: two calendars answer, the third fails. *)
Definition fetchFromTable (cal : CalendarInfo) (tMin tMax maxResults : string)
  : FetchOutcome :=
  if (cal_id cal =? "work")%string then
    FetchOk (Some [item "w1" (Some "Standup") (dateTime "2026-03-19T09:30:00-07:00");
                   item "w2" (Some "Dentist checkup") (dateTime "2026-03-19T14:15:00-07:00");
                   item "w3" None (date "2026-03-19")])
  else if (cal_id cal =? "home")%string then
    FetchOk (Some [item "h1" (Some "DENTIST for Sam") (dateTime "2026-03-19T08:00:00-07:00");
                   item "h2" (Some "Dentist") (date "2026-03-19")])
  else FetchNotOk.

(** A calendar with twelve dentist appointments. *)
Definition twelveItems : list GoogleItem :=
  map (fun n => item (numToString (Z.of_nat n)) (Some "Dentist") (date "2026-03-19"))
      (seq 1 12).

Definition fetchTwelve (cal : CalendarInfo) (tMin tMax maxResults : string)
  : FetchOutcome :=
  if (cal_id cal =? "work")%string then FetchOk (Some twelveItems) else FetchThrew.

Definition countMessage (events : list CalendarEvent) (range : string)
           (showNames : bool) : option string :=
  Some (numToString (Z.of_nat (List.length events)) ++ " appointments " ++ range).

Definition countSpeech (events : list CalendarEvent) (range : string)
  : option string :=
  Some (numToString (Z.of_nat (List.length events)) ++ " appointments " ++ range).

Definition threeCalendars : list CalendarInfo :=
  [workCalendar; homeCalendar; sharedCalendar].

Definition chatRequest (c : Completion) : Request :=
  {| authError := false; sessionUser := true;
     provider_token := Some "token";
     req_message := Some "delete the dentist";
     req_calendars := Some [workCalendar; homeCalendar; sharedCalendar];
     openaiKey := Some "key";
     completion := c |}.

(** A create request for a dentist appointment. *)
Definition createRequest (date : string) (time : option string)
           (duration : option JSNumber.Num) (allDay : bool) : Events.EventRequest :=
  {| Events.calendarId := Some "primary";
     Events.title := Some "Dentist";
     Events.description := None;
     Events.location := None;
     Events.date := Some date;
     Events.time := time;
     Events.duration := duration;
     Events.allDay := allDay;
     Events.recurrence := Some "none" |}.

End Examples.

Import Examples.

(* ================================================================== *)
(** ** Ranges read back, and requests without their optional parts *)
(* ================================================================== *)

(* ================================================================== *)
(** ** Further readings of a date range *)
(* ================================================================== *)

(** The range of token [tok] runs from 00:00:00 of day [s] to 23:59:59 of
    day [e], at the offset the handler chose. *)
Definition spans (h : Host) (tok : string) (s e : Z) : Prop :=
  let r := calculateDateRange h tok in
  readStamp (timeMin r)
  = Some {| stampDay := s; stampClock := 0;
            stampOffset := offsetMinutes (tzOffset h) |} /\
  readStamp (timeMax r)
  = Some {| stampDay := e; stampClock := 86399;
            stampOffset := offsetMinutes (tzOffset h) |}.

(** The first time value of 2007, and a host zone that is US Pacific time
    from then on: at every later time value, UTC or local, its offset is
    the offset of the rule of [zonePacific]. *)
Definition since2007 : Z := MakeDay 2007 0 1 * msPerDay.

Definition pacificSince2007 (z : Zone) : Prop :=
  forall t, since2007 <= t ->
    tzaAtUTC z t = tzaAtUTC zonePacific t /\
    tzaAtLocal z t = tzaAtLocal zonePacific t.

(** Every label of the [switch]. *)
Definition switchLabels : list string :=
  ["today"; "yesterday"; "tomorrow"; "last_week"; "last week"; "past week";
   "this_week"; "this week"; "next_week"; "next week";
   "last_month"; "last month"; "past month"; "upcoming"; "schedule"].

(** Whether the year of a rendered date is written as four digits that
    read back as the year. *)
Definition fourDigitYearOk (y : Z) : bool :=
  match readInt (isoYear y) with
  | Some v => v =? y
  | None => false
  end
  && (String.length (isoYear y) =? 4)%nat && allDigits (isoYear y).

(** A create request without its time and duration. *)
Definition withoutClock (b : Events.EventRequest) : Events.EventRequest :=
  {| Events.calendarId := Events.calendarId b;
     Events.title := Events.title b;
     Events.description := Events.description b;
     Events.location := Events.location b;
     Events.date := Events.date b;
     Events.time := None;
     Events.duration := None;
     Events.allDay := Events.allDay b;
     Events.recurrence := Events.recurrence b |}.

(** A create request with each optional field that JavaScript takes for
    false (the empty text, the duration 0 or [NaN]) left out, and with the
    recurrence "none" left out as well. *)
Definition withoutFalsy (b : Events.EventRequest) : Events.EventRequest :=
  {| Events.calendarId := Events.calendarId b;
     Events.title := Events.title b;
     Events.description := Events.orUndefined (Events.description b);
     Events.location := Events.orUndefined (Events.location b);
     Events.date := Events.date b;
     Events.time := Events.orUndefined (Events.time b);
     Events.duration :=
       match Events.duration b with
       | Some d => if JSNumber.falsy d then None else Some d
       | None => None
       end;
     Events.allDay := Events.allDay b;
     Events.recurrence :=
       match Events.recurrence b with
       | Some r => if (r =? "none")%string then None
                   else Events.orUndefined (Some r)
       | None => None
       end |}.

(* ================================================================== *)
(** ** The chat route: the messages sent to the completion service *)
(* ================================================================== *)

Module Conversation.

(** A message of the prompt, and an entry of [conversationHistory] as the
    request gives it: an object whose [role] is [None] when it is missing
    or not a string. *)
Record PromptMessage := { role : string; content : string }.

Record HistoryEntry := { h_role : option string; h_content : string }.

Definition keepsRole (msg : HistoryEntry) : bool :=
  match h_role msg with
  | Some r => (r =? "user")%string || (r =? "assistant")%string
  | None => false
  end.

(** The loop over [conversationHistory]: an entry whose role is "user" or
    "assistant" is pushed, any other is skipped. *)
Fixpoint pushHistory (messages : list PromptMessage) (history : list HistoryEntry)
  : list PromptMessage :=
  match history with
  | [] => messages
  | msg :: rest =>
      if keepsRole msg
      then pushHistory
             (messages ++ [{| role := match h_role msg with Some r => r | None => "" end;
                              content := h_content msg |}]) rest
      else pushHistory messages rest
  end.

(** The [messages] array of the request to the completion service;
    [conversationHistory] is [None] when it is not an array. *)
Definition promptMessages (systemPrompt : string)
           (conversationHistory : option (list HistoryEntry)) (message : string)
  : list PromptMessage :=
  let messages := [{| role := "system"; content := systemPrompt |}] in
  let messages :=
    match conversationHistory with
    | Some history => pushHistory messages history
    | None => messages
    end in
  messages ++ [{| role := "user"; content := message |}].

End Conversation.

(* ================================================================== *)
(** ** The chat page *)
(* ================================================================== *)

Module Client.

Record Calendar := {
  id : string;
  summary : string;
  primary : bool;
  backgroundColor : string
}.

(** A [Set] of strings, as the list of its members in insertion order. *)
Definition has (s : list string) (x : string) : bool :=
  existsb (fun y => (y =? x)%string) s.

Definition add (s : list string) (x : string) : list string :=
  if has s x then s else s ++ [x].


(** [new Set(array)] *)
Definition newSet (l : list string) : list string := fold_left add l [].

(** What [localStorage] holds for the active calendars: nothing (or the
    empty text), a text that [JSON.parse] rejects or that is not an array,
    or an array of texts. *)
Inductive SavedActive :=
| NoItem
| NotAnArray
| SavedIds (ids : list string).

(** [loadCalendarsOnMount], once the list route has answered with
    calendars: the active set. *)
Definition loadCalendarsOnMount (calendars : list Calendar) (savedActive : SavedActive)
  : list string :=
  match savedActive with
  | SavedIds savedIds =>
      let validIds :=
        filter (fun i => existsb (fun c => (id c =? i)%string) calendars) savedIds in
      newSet (if (0 <? Z.of_nat (List.length validIds)) then validIds
              else map id calendars)
  | _ => newSet (map id calendars)
  end.



Definition getPrimaryCalendar (calendars : list Calendar) : option Calendar :=
  match find primary calendars with
  | Some c => Some c
  | None => nth_error calendars 0
  end.

(** [getDefaultCalendarId]: last used, then primary, then first. *)
Definition getDefaultCalendarId (lastUsed : option string) (calendars : list Calendar)
  : string :=
  if truthy lastUsed
     && existsb (fun c => (id c =? Events.orEmpty lastUsed)%string) calendars
  then Events.orEmpty lastUsed
  else
    match find primary calendars with
    | Some primary => id primary
    | None =>
        match nth_error calendars 0 with
        | Some c => id c
        | None => ""
        end
    end.

(** The appointment of a chat reply, as the page reads it: a missing or
    [null] text is [None], a missing [allDay] is [false], a missing
    duration is [None]. *)
Record AppointmentData := {
  date : option string;
  time : option string;
  title : option string;
  description : option string;
  duration : option Z;
  needsClarification : bool;
  clarificationMessage : option string;
  allDay : bool;
  recurrence : option string
}.

Inductive CreateAttempt :=
| NoCalendarAvailable
| SendCreate (body : Events.EventRequest).

(** [createEvent] up to its request to the events route. *)
Definition createEvent (calendars : list Calendar) (appointment : AppointmentData)
           (calendarId : option string) : CreateAttempt :=
  let targetCalendarId :=
    if truthy calendarId then calendarId
    else option_map id (getPrimaryCalendar calendars) in
  if negb (truthy targetCalendarId) then NoCalendarAvailable
  else
    SendCreate
      {| Events.calendarId := targetCalendarId;
         Events.title := title appointment;
         Events.description := Events.orUndefined (description appointment);
         Events.location := None;
         Events.date := date appointment;
         Events.time := if allDay appointment then None else time appointment;
         Events.duration :=
           if allDay appointment then None
           else match duration appointment with
                | Some d => Some (JSNumber.ofZ (if d =? 0 then 60 else d))
                | None => Some (JSNumber.ofZ 60)
                end;
         Events.allDay := allDay appointment;
         Events.recurrence :=
           Some (if truthy (recurrence appointment)
                 then Events.orEmpty (recurrence appointment) else "none") |}.

(** [needsMoreInfo] of [handleSend] and [hasAllInfo] of the voice mode. *)
Definition needsMoreInfo (appt : AppointmentData) : bool :=
  negb (truthy (title appt)) || needsClarification appt
  || negb (truthy (date appt))
  || (negb (allDay appt) && negb (truthy (time appt))).

Definition hasAllInfo (appt : AppointmentData) : bool :=
  truthy (title appt) && truthy (date appt)
  && (allDay appt || truthy (time appt)).

(** A message of the page, and the history that [handleSend] puts into
    a chat request: [messages.slice(-4)] of the messages of the page as it
    stands when the message is sent.  (In voice mode the recogniser keeps
    the handler of the moment it was started, with the messages of that
    moment.) *)
Inductive Role := user | assistant.

Record Message := { m_id : string; m_role : Role; m_content : string }.

Definition roleText (r : Role) : string :=
  match r with user => "user" | assistant => "assistant" end.

Definition sliceLast {A} (n : nat) (l : list A) : list A :=
  skipn (List.length l - n) l.

Definition conversationHistory (messages : list Message)
  : list Conversation.HistoryEntry :=
  map (fun m => {| Conversation.h_role := Some (roleText (m_role m));
                   Conversation.h_content := m_content m |})
      (sliceLast 4 messages).

(** [parseInt(s)] without a radix, on texts of ASCII units: blanks are
    skipped, a sign and a prefix [0x] are read, and the value is that of
    the longest run of digits that follows; [None] is NaN.  (Values are
    exact integers here; [parseInt] rounds above 2^53.) *)
Definition isBlank (c : ascii) : bool :=
  let n := N_of_ascii c in ((9 <=? n) && (n <=? 13) || (n =? 32))%N.

Fixpoint skipBlanks (s : string) : string :=
  match s with
  | String c r => if isBlank c then skipBlanks r else s
  | EmptyString => s
  end.

Definition digitValue (radix : Z) (c : ascii) : option Z :=
  let n := Z.of_N (N_of_ascii c) in
  let v :=
    if (48 <=? n) && (n <=? 57) then n - 48
    else if (97 <=? n) && (n <=? 122) then n - 87
    else if (65 <=? n) && (n <=? 90) then n - 55
    else 36 in
  if v <? radix then Some v else None.

Fixpoint digitsPrefix (radix : Z) (s : string) (acc : option Z) : option Z :=
  match s with
  | String c r =>
      match digitValue radix c with
      | Some v =>
          digitsPrefix radix r
            (Some (radix * match acc with Some a => a | None => 0 end + v))
      | None => acc
      end
  | EmptyString => acc
  end.

Definition parseInt (s : string) : option Z :=
  let s := skipBlanks s in
  let '(sign, s) :=
    match s with
    | String "-" r => (-1, r)
    | String "+" r => (1, r)
    | _ => (1, s)
    end in
  let '(radix, s) :=
    match s with
    | String "0" (String "x" r) => (16, r)
    | String "0" (String "X" r) => (16, r)
    | _ => (10, s)
    end in
  option_map (Z.mul sign) (digitsPrefix radix s None).

(** [formatTimeDisplay]: a time of day on the 12-hour clock.  A time
    without a colon has no minutes, which the template prints as
    "undefined". *)
Definition formatTimeDisplay (time : string) : string :=
  let parts := split ":" time in
  let hours := nth 0 parts "" in
  let minutes := match nth_error parts 1 with Some m => m | None => "undefined" end in
  let hour := parseInt hours in
  let ampm :=
    match hour with
    | Some h => if 12 <=? h then "PM" else "AM"
    | None => "AM"
    end in
  let hour12 :=
    match hour with
    | Some h => if Z.rem h 12 =? 0 then 12 else Z.rem h 12
    | None => 12
    end in
  numToString hour12 ++ ":" ++ minutes ++ " " ++ ampm.

End Client.


(** Two calendars of a page, and an appointment with all its parts. *)
Definition pageWork : Client.Calendar :=
  {| Client.id := "work"; Client.summary := "Work";
     Client.primary := false; Client.backgroundColor := "#d50000" |}.

Definition pageHome : Client.Calendar :=
  {| Client.id := "home"; Client.summary := "Home";
     Client.primary := true; Client.backgroundColor := "#4285f4" |}.

Definition pageCalendars : list Client.Calendar := [pageWork; pageHome].

Definition dentistAt (time : option string) (allDay : bool) : Client.AppointmentData :=
  {| Client.date := Some "2026-03-18"; Client.time := time;
     Client.title := Some "Dentist"; Client.description := None;
     Client.duration := None; Client.needsClarification := false;
     Client.clarificationMessage := None; Client.allDay := allDay;
     Client.recurrence := None |}.

(* ================================================================== *)
(** ** The chat route: the wording of an event list *)
(* ================================================================== *)

Module Formatting.

Definition newline : string := String (ascii_of_nat 10) "".

(** The property names that every object inherits: [grouped[dateKey]]
    finds a value under them although nothing was stored. *)
Definition inheritedKeys : list string := JSText.inheritedKeys.

(** [event.start.split("T")[0] || event.start] *)
Definition dateKeyOf (event : CalendarEvent) : string :=
  let first := nth 0 (split "T" (start event)) "" in
  if truthy (Some first) then first else start event.

(** The object [grouped], as the list of its own keys with their values
    in the order in which the keys were added. *)
Fixpoint pushGrouped (grouped : list (string * list CalendarEvent))
         (dateKey : string) (event : CalendarEvent)
  : list (string * list CalendarEvent) :=
  match grouped with
  | [] => [(dateKey, [event])]
  | (k, es) :: r =>
      if (k =? dateKey)%string then (k, (es ++ [event])%list) :: r
      else (k, es) :: pushGrouped r dateKey event
  end.

(** The grouping loop; [None] when it throws, which it does on a key
    that the object inherits (the value found there has no [push]). *)
Fixpoint groupByDate (events : list CalendarEvent)
         (grouped : list (string * list CalendarEvent))
  : option (list (string * list CalendarEvent)) :=
  match events with
  | [] => Some grouped
  | event :: rest =>
      let dateKey := dateKeyOf event in
      if isOneOf dateKey inheritedKeys then None
      else groupByDate rest (pushGrouped grouped dateKey event)
  end.

(** [grouped[dateKey]] for a key of the object. *)
Fixpoint lookup (grouped : list (string * list CalendarEvent)) (dateKey : string)
  : list CalendarEvent :=
  match grouped with
  | [] => []
  | (k, es) :: r => if (k =? dateKey)%string then es else lookup r dateKey
  end.

Section Renderings.

(** Services of the platform: [localeCompare], the order of [sort()]
    without a comparator (by UTF-16 code units), [trim], and the Los
    Angeles renderings of a date (long, with the weekday), of a time of
    day and of the weekday alone. *)
Variable localeCompare : string -> string -> Z.
Variable compareUnits : string -> string -> Z.
Variable trim : string -> string.
Variable toLocaleDateString : string -> string.
Variable toLocaleTimeString : string -> string.
Variable weekdayOf : string -> string.

Fixpoint insertKey (a : string) (l : list string) : list string :=
  match l with
  | [] => [a]
  | b :: r => if compareUnits a b <=? 0 then a :: b :: r else b :: insertKey a r
  end.

(** [Object.keys(grouped).sort()] *)
Definition sortedKeys (grouped : list (string * list CalendarEvent)) : list string :=
  fold_right insertKey [] (map fst grouped).

Definition timeOf (event : CalendarEvent) (allDayText : string) : string :=
  if includesChar (start event) "T" then toLocaleTimeString (start event)
  else allDayText.

Definition eventBlock (dateFormatted : string) (showCalendarName : bool)
           (event : CalendarEvent) : string :=
  let timeStr := timeOf event "All day" in
  let calBadge :=
    if showCalendarName && truthy (calendarName event)
    then "[" ++ Events.orEmpty (calendarName event) ++ "] " else "" in
  let eventTitle := calBadge ++ title event in
  let locationStr :=
    if truthy (location event) then Events.orEmpty (location event) else "N/A" in
  "üìÖ DATE: " ++ dateFormatted ++ newline
  ++ "üìå EVENT: " ++ eventTitle ++ newline
  ++ "üïê TIME: " ++ timeStr ++ newline
  ++ "üìç LOCATION: " ++ locationStr.

(** The events of a day in the order in which they are shown. *)
Definition dayEventsOf (grouped : list (string * list CalendarEvent))
           (dateKey : string) : list CalendarEvent :=
  sortByStart localeCompare (lookup grouped dateKey).

Definition formatEventsMessage (events : list CalendarEvent)
           (rangeDescription : string) (showCalendarName : bool) : option string :=
  match events with
  | [] => Some ("You don't have any appointments " ++ rangeDescription ++ ".")
  | _ =>
      match groupByDate events [] with
      | None => None
      | Some grouped =>
          let sortedDates := sortedKeys grouped in
          let eventBlocks :=
            flat_map
              (fun dateKey =>
                 let dateFormatted := toLocaleDateString (dateKey ++ "T12:00:00") in
                 map (eventBlock dateFormatted showCalendarName)
                     (dayEventsOf grouped dateKey))
              sortedDates in
          Some ("Here are your appointments " ++ rangeDescription ++ ":"
                ++ newline ++ newline
                ++ String.concat (newline ++ newline) eventBlocks)
      end
  end.

Definition lengthText {A} (l : list A) : string :=
  numToString (Z.of_nat (List.length l)).

Definition formatEventsSpeech (events : list CalendarEvent)
           (rangeDescription : string) : option string :=
  match events with
  | [] => Some ("You have no appointments " ++ rangeDescription ++ ".")
  | [event] =>
      let timeStr := timeOf event "all day" in
      let shortLocation :=
        if truthy (location event)
        then Some (trim (nth 0 (split "," (Events.orEmpty (location event))) ""))
        else None in
      let locationPart :=
        if truthy shortLocation then " in " ++ Events.orEmpty shortLocation else "" in
      Some ("You have " ++ title event ++ " at " ++ timeStr ++ locationPart ++ ".")
  | _ =>
      match groupByDate events [] with
      | None => None
      | Some grouped =>
          let days := sortedKeys grouped in
          if (List.length days =? 1)%nat then
            let dayEvents := lookup grouped (nth 0 days "") in
            if (List.length dayEvents <=? 3)%nat then
              let parts :=
                map (fun e =>
                       let time := timeOf e "" in
                       if truthy (Some time) then title e ++ " at " ++ time
                       else title e)
                    dayEvents in
              Some ("You have " ++ lengthText dayEvents ++ " appointments "
                    ++ rangeDescription ++ ": "
                    ++ String.concat ", and " parts ++ ".")
            else
              Some ("You have " ++ lengthText dayEvents ++ " appointments "
                    ++ rangeDescription ++ ".")
          else if (List.length events <=? 5)%nat then
            let summaries :=
              map (fun day =>
                     let dayEvents := lookup grouped day in
                     let dayName := weekdayOf (day ++ "T12:00:00") in
                     match dayEvents with
                     | [only] => title only ++ " on " ++ dayName
                     | _ => lengthText dayEvents ++ " on " ++ dayName
                     end)
                  (firstn 3 days) in
            Some ("You have " ++ lengthText events ++ " appointments "
                  ++ rangeDescription ++ ": "
                  ++ String.concat ", " summaries ++ ".")
          else
            Some ("You have " ++ lengthText events ++ " appointments "
                  ++ rangeDescription ++ ".")
      end
  end.

End Renderings.

End Formatting.

(** What the grouping loop keeps true of the object [grouped] after the
    events [seen]: its keys are distinct, they are the date keys of the
    events seen, and the value under a key is the list of the events seen
    with that key, in their order. *)
Definition groupedFrom (seen : list CalendarEvent)
           (grouped : list (string * list CalendarEvent)) : Prop :=
  NoDup (map fst grouped) /\
  (forall k, In k (map fst grouped) <->
             exists e, In e seen /\ Formatting.dateKeyOf e = k) /\
  (forall k, Formatting.lookup grouped k
             = filter (fun e => (Formatting.dateKeyOf e =? k)%string) seen).

(** Events of two days, for the examples of the wording. *)
Definition shownEvent (title start : string) : CalendarEvent :=
  {| id := title; title := title; start := start; end_ := start;
     location := None; calendarId := None; calendarName := None;
     calendarColor := None |}.

Definition threeEvents : list CalendarEvent :=
  [shownEvent "Lunch" "2026-03-19T12:00:00-07:00";
   shownEvent "Holiday" "2026-03-18";
   shownEvent "Dentist" "2026-03-19T09:30:00-07:00"].

Definition sixEvents : list CalendarEvent :=
  (threeEvents ++ threeEvents)%list.

(* ================================================================== *)
(** ** The calendar list route *)
(* ================================================================== *)

Module CalendarList.

Record GoogleCalendar := {
  id : string;
  summary : string;
  primary : option bool;
  accessRole : string;
  backgroundColor : option string
}.

(** The request to the calendar service: it throws, answers with an
    error status, or answers with a body whose [items] may be absent. *)
Inductive Upstream :=
| UpstreamThrew
| UpstreamNotOk (status : Z)
| UpstreamOk (items : option (list GoogleCalendar)).

Inductive Reply :=
| ErrorReply (status : Z) (error : string)
| CalendarsReply (calendars : list Client.Calendar).

Definition canWrite (cal : GoogleCalendar) : bool :=
  (accessRole cal =? "owner")%string || (accessRole cal =? "writer")%string.

Definition listed (cal : GoogleCalendar) : Client.Calendar :=
  {| Client.id := id cal;
     Client.summary := summary cal;
     Client.primary := match primary cal with Some b => b | None => false end;
     Client.backgroundColor :=
       if truthy (backgroundColor cal) then Events.orEmpty (backgroundColor cal)
       else "#4285f4" |}.

Definition GET (authError hasSession : bool) (providerToken : option string)
           (upstream : Upstream) : Reply :=
  if authError || negb hasSession then ErrorReply 401 "Unauthorized"
  else if negb (truthy providerToken) then
    ErrorReply 403 "No calendar access. Please sign out and sign in again to grant calendar permissions."
  else
    match upstream with
    | UpstreamThrew => ErrorReply 500 "Failed to fetch calendars"
    | UpstreamNotOk status =>
        if status =? 401
        then ErrorReply 401 "Calendar access expired. Please sign out and sign in again."
        else ErrorReply 500 "Failed to fetch calendars"
    | UpstreamOk items =>
        CalendarsReply
          (map listed (filter canWrite (match items with Some l => l | None => [] end)))
    end.

End CalendarList.

(* ================================================================== *)
(** ** The event route: reading and deleting events *)
(* ================================================================== *)

Module EventsQuery.

(** The parameters of the request URL; [None] is a parameter that is
    not given. *)
Record ReadQuery := {
  timeMin : option string;
  timeMax : option string;
  calendarId : option string;
  maxResults : option string
}.

Record Times := { dateTime : option string; date : option string }.

Record CalendarEvent := {
  id : string;
  summary : option string;
  start : Times;
  end_ : Times;
  location : option string;
  description : option string
}.

Record ListedEvent := {
  l_id : string;
  l_title : string;
  l_start : option string;
  l_end : option string;
  l_location : option string;
  l_description : option string
}.

Inductive Upstream :=
| UpstreamThrew
| UpstreamNotOk (status : Z)
| UpstreamOk (items : option (list CalendarEvent)).

Inductive Reply :=
| ErrorReply (status : Z) (error : string)
| EventsReply (events : list ListedEvent).

Definition orElse (a b : option string) : option string :=
  if truthy a then a else b.

Definition listedEvent (event : CalendarEvent) : ListedEvent :=
  {| l_id := id event;
     l_title := if truthy (summary event) then Events.orEmpty (summary event)
                else "(No title)";
     l_start := orElse (dateTime (start event)) (date (start event));
     l_end := orElse (dateTime (end_ event)) (date (end_ event));
     l_location := location event;
     l_description := description event |}.

(** [upstream] is the calendar service, asked for the events of a
    calendar between two times, at most [maxResults] of them. *)
Definition GET (authError hasSession : bool) (providerToken : option string)
           (searchParams : ReadQuery)
           (upstream : string -> string -> string -> string -> Upstream) : Reply :=
  if authError || negb hasSession then ErrorReply 401 "Unauthorized"
  else if negb (truthy providerToken) then
    ErrorReply 403 "No calendar access. Please sign out and sign in again to grant calendar permissions."
  else
    let calendarId :=
      if truthy (calendarId searchParams)
      then Events.orEmpty (calendarId searchParams) else "primary" in
    let maxResults :=
      if truthy (maxResults searchParams)
      then Events.orEmpty (maxResults searchParams) else "2500" in
    if negb (truthy (timeMin searchParams)) || negb (truthy (timeMax searchParams))
    then ErrorReply 400 "Missing required parameters: timeMin, timeMax"
    else
      match upstream calendarId (Events.orEmpty (timeMin searchParams))
                     (Events.orEmpty (timeMax searchParams)) maxResults with
      | UpstreamThrew => ErrorReply 500 "Failed to fetch events"
      | UpstreamNotOk status =>
          if status =? 401
          then ErrorReply 401 "Calendar access expired. Please sign out and sign in again."
          else ErrorReply 500 "Failed to fetch events"
      | UpstreamOk items =>
          EventsReply (map listedEvent (match items with Some l => l | None => [] end))
      end.

Record DeleteQuery := { d_calendarId : option string; eventId : option string }.

Inductive DeleteUpstream :=
| DeleteThrew
| DeleteNotOk (status : Z)
| DeleteOk.

Inductive DeleteReply :=
| DeleteError (status : Z) (error : string)
| DeleteSuccess.

(** [upstream] is the calendar service, asked to delete an event of a
    calendar. *)
Definition DELETE (authError hasSession : bool) (providerToken : option string)
           (searchParams : DeleteQuery)
           (upstream : string -> string -> DeleteUpstream) : DeleteReply :=
  if authError || negb hasSession then DeleteError 401 "Unauthorized"
  else if negb (truthy providerToken) then
    DeleteError 403 "No calendar access. Please sign out and sign in again to grant calendar permissions."
  else
    let calendarId :=
      if truthy (d_calendarId searchParams)
      then Events.orEmpty (d_calendarId searchParams) else "primary" in
    if negb (truthy (eventId searchParams))
    then DeleteError 400 "Missing eventId parameter"
    else
      match upstream calendarId (Events.orEmpty (eventId searchParams)) with
      | DeleteThrew => DeleteError 500 "Failed to delete event"
      | DeleteNotOk status =>
          if status =? 401
          then DeleteError 401 "Calendar access expired. Please sign out and sign in again."
          else if status =? 404 then DeleteError 404 "Event not found"
          else DeleteError 500 "Failed to delete event"
      | DeleteOk => DeleteSuccess
      end.

End EventsQuery.

(* ================================================================== *)
(** ** The chat page: deleting the selected events *)
(* ================================================================== *)

Module Selection.

Record DeleteEventData := {
  id : string;
  title : string;
  start : string;
  end_ : string;
  calendarId : string;
  calendarName : option string
}.

(** The answer of the page's own server to a delete request: the
    request throws, or it is answered with a status that is ok or not. *)
Inductive Response :=
| FetchThrew
| Answered (ok : bool).

(** The loop of [handleDeleteSelected] over the selected events, from
    the counts so far. *)
Fixpoint countDeleted (fetch : DeleteEventData -> Response)
         (selectedEvents : list DeleteEventData) (successCount failCount : Z)
  : Z * Z :=
  match selectedEvents with
  | [] => (successCount, failCount)
  | event :: rest =>
      match fetch event with
      | Answered true => countDeleted fetch rest (successCount + 1) failCount
      | _ => countDeleted fetch rest successCount (failCount + 1)
      end
  end.

(** [handleDeleteSelected]: nothing when no event of the list is
    selected, else the two counts and the text of the message. *)
Definition handleDeleteSelected (fetch : DeleteEventData -> Response)
           (selectedEventIds : list string) (events : list DeleteEventData)
  : option (Z * Z * string) :=
  let selectedEvents := filter (fun e => Client.has selectedEventIds (id e)) events in
  if (List.length selectedEvents =? 0)%nat then None
  else
    let '(successCount, failCount) := countDeleted fetch selectedEvents 0 0 in
    Some (successCount, failCount,
          if failCount =? 0
          then "ðŸ—‘ï¸ " ++ numToString successCount ++ " event"
               ++ (if 1 <? successCount then "s" else "") ++ " deleted."
          else "ðŸ—‘ï¸ " ++ numToString successCount ++ " deleted, "
               ++ numToString failCount ++ " failed.").

(** The request of the page for one event, answered by the delete
    handler of the events route in front of the calendar service; the
    two parameters reach the handler as the page gave them. *)
Definition viaRoute (authError hasSession : bool) (providerToken : option string)
           (upstream : string -> string -> EventsQuery.DeleteUpstream)
           (event : DeleteEventData) : Response :=
  match EventsQuery.DELETE authError hasSession providerToken
          {| EventsQuery.d_calendarId := Some (calendarId event);
             EventsQuery.eventId := Some (id event) |} upstream with
  | EventsQuery.DeleteSuccess => Answered true
  | EventsQuery.DeleteError _ _ => Answered false
  end.

End Selection.

(** A chat request of a session that has no token for the calendar
    service, a read query for one day, and a calendar service with two
    events, one of them without a title. *)
Definition requestWithoutToken (c : Completion) : Request :=
  {| authError := false; sessionUser := true;
     provider_token := None;
     req_message := Some "what do i have tomorrow";
     req_calendars := Some [workCalendar; homeCalendar];
     openaiKey := Some "key";
     completion := c |}.



(* ================================================================== *)
(** * Properties *)
(* ================================================================== *)

(** ** The calendar *)

Ltac euclid := Z.to_euclidean_division_equations; lia.

Lemma step_div4 y :
  (y + 1 - 1969) / 4 = (y - 1969) / 4 + (if y mod 4 =? 0 then 1 else 0).
Proof. destruct (Z.eqb_spec (y mod 4) 0); euclid. Qed.

Lemma step_div100 y :
  (y + 1 - 1901) / 100 = (y - 1901) / 100 + (if y mod 100 =? 0 then 1 else 0).
Proof. destruct (Z.eqb_spec (y mod 100) 0); euclid. Qed.

Lemma step_div400 y :
  (y + 1 - 1601) / 400 = (y - 1601) / 400 + (if y mod 400 =? 0 then 1 else 0).
Proof. destruct (Z.eqb_spec (y mod 400) 0); euclid. Qed.

Lemma DayFromYear_succ y : DayFromYear (y + 1) = DayFromYear y + DaysInYear y.
Proof.
  unfold DayFromYear, DaysInYear.
  rewrite step_div4, step_div100, step_div400.
  assert (H1 : y mod 100 = 0 -> y mod 4 = 0) by (intros; euclid).
  assert (H2 : y mod 400 = 0 -> y mod 100 = 0) by (intros; euclid).
  destruct (Z.eqb_spec (y mod 4) 0), (Z.eqb_spec (y mod 100) 0),
    (Z.eqb_spec (y mod 400) 0); cbn [negb]; lia.
Qed.

Lemma DaysInYear_cases y : DaysInYear y = 365 \/ DaysInYear y = 366.
Proof.
  unfold DaysInYear.
  destruct (y mod 4 =? 0), (y mod 100 =? 0), (y mod 400 =? 0); simpl; auto.
Qed.

Lemma leapOfYear_eq y : leapOfYear y = DaysInYear y - 365.
Proof.
  unfold leapOfYear. destruct (DaysInYear_cases y) as [E|E]; rewrite E; reflexivity.
Qed.

Lemma DayFromYear_mono a b : a <= b -> DayFromYear a <= DayFromYear b.
Proof. unfold DayFromYear. intros. euclid. Qed.

Lemma YearFromDay_spec d :
  DayFromYear (YearFromDay d) <= d < DayFromYear (YearFromDay d + 1).
Proof.
  unfold YearFromDay.
  set (y := 1970 + 400 * d / 146097).
  destruct (Z.leb_spec (DayFromYear (y + 1)) d).
  - split; [lia|]. subst y. unfold DayFromYear in *. euclid.
  - destruct (Z.leb_spec (DayFromYear y) d).
    + lia.
    + replace (y - 1 + 1) with y by lia. split; [|lia].
      subst y. unfold DayFromYear in *. euclid.
Qed.

Lemma YearFromDay_unique d y :
  DayFromYear y <= d < DayFromYear (y + 1) -> YearFromDay d = y.
Proof.
  intros H. pose proof (YearFromDay_spec d) as S.
  destruct (Z.lt_trichotomy (YearFromDay d) y) as [L|[E|G]]; [|exact E|].
  - pose proof (DayFromYear_mono (YearFromDay d + 1) y ltac:(lia)). lia.
  - pose proof (DayFromYear_mono (y + 1) (YearFromDay d) ltac:(lia)). lia.
Qed.

Lemma Day_of_midnight D : Day (D * msPerDay) = D.
Proof. unfold Day, msPerDay. euclid. Qed.

Lemma TimeWithinDay_of_midnight D : TimeWithinDay (D * msPerDay) = 0.
Proof. unfold TimeWithinDay, msPerDay. euclid. Qed.

Lemma DayWithinYear_range t :
  0 <= DayWithinYear t < 365 + InLeapYear t.
Proof.
  unfold DayWithinYear, InLeapYear, YearFromTime.
  pose proof (YearFromDay_spec (Day t)) as S.
  rewrite DayFromYear_succ in S. rewrite leapOfYear_eq. lia.
Qed.

Lemma InLeapYear_cases t : InLeapYear t = 0 \/ InLeapYear t = 1.
Proof.
  unfold InLeapYear. rewrite leapOfYear_eq.
  destruct (DaysInYear_cases (YearFromTime t)); lia.
Qed.

Lemma MonthFromTime_range t : 0 <= MonthFromTime t <= 11.
Proof.
  unfold MonthFromTime.
  repeat match goal with
         | |- context [if ?c then _ else _] => destruct c
         end; lia.
Qed.

(** The fields of a time value give its day back, also after moving the day
    of the month: this is what [setDate(getDate() + k)] relies on. *)
Lemma MakeDay_of_fields t k :
  MakeDay (YearFromTime t) (MonthFromTime t) (DateFromTime t + k) = Day t + k.
Proof.
  pose proof (MonthFromTime_range t) as R.
  unfold MakeDay, DateFromTime.
  replace (MonthFromTime t / 12) with 0 by euclid.
  replace (MonthFromTime t mod 12) with (MonthFromTime t) by euclid.
  rewrite Z.add_0_r. fold (InLeapYear t). unfold DayWithinYear. lia.
Qed.

Lemma DateFromTime_range t :
  1 <= DateFromTime t <= daysInMonth (YearFromTime t) (MonthFromTime t + 1).
Proof.
  pose proof (DayWithinYear_range t) as R.
  unfold DateFromTime, daysInMonth, MonthFromTime.
  fold (InLeapYear t).
  destruct (InLeapYear_cases t) as [L|L]; rewrite L in *;
    repeat match goal with
           | |- context [if ?a <? ?b then _ else _] =>
               destruct (Z.ltb_spec a b)
           end; cbn; lia.
Qed.

Lemma fields_valid t :
  validCivil (YearFromTime t) (MonthFromTime t + 1) (DateFromTime t) = true.
Proof.
  pose proof (MonthFromTime_range t). pose proof (DateFromTime_range t).
  unfold validCivil. repeat rewrite andb_true_iff. repeat split; lia.
Qed.

Lemma MakeDay_reads_fields t :
  MakeDay (YearFromTime t) (MonthFromTime t + 1 - 1) (DateFromTime t) = Day t.
Proof.
  replace (MonthFromTime t + 1 - 1) with (MonthFromTime t) by lia.
  pose proof (MakeDay_of_fields t 0) as H. rewrite !Z.add_0_r in H. exact H.
Qed.

(** ** Local midnights *)

Section Midnights.

Variable z : Zone.
Hypothesis midnights : MidnightsExist z.

Lemma local_midnight D : LocalTime z (midnight z D) = D * msPerDay.
Proof. apply midnights. Qed.

Lemma newDateYMD_midnight y m d :
  newDateYMD z y m d = midnight z (MakeDay (fullYear y) m d).
Proof. unfold newDateYMD, midnight, MakeDate. f_equal. lia. Qed.

Lemma getDay_midnight D : getDay z (midnight z D) = (D + 4) mod 7.
Proof.
  unfold getDay, WeekDay. rewrite local_midnight, Day_of_midnight. reflexivity.
Qed.

Lemma setDate_midnight D k :
  setDate z (midnight z D) (getDate z (midnight z D) + k) = midnight z (D + k).
Proof.
  unfold setDate, getDate. rewrite local_midnight.
  rewrite MakeDay_of_fields, Day_of_midnight, TimeWithinDay_of_midnight.
  unfold midnight, MakeDate. f_equal. lia.
Qed.

Lemma setDate_midnight_back D k :
  setDate z (midnight z D) (getDate z (midnight z D) - k) = midnight z (D - k).
Proof. apply (setDate_midnight D (- k)). Qed.

End Midnights.

(** ** Texts *)

Lemma length_append a b :
  String.length (a ++ b) = (String.length a + String.length b)%nat.
Proof. induction a; simpl; congruence. Qed.

Lemma substring_0_0 s : substring 0 0 s = "".
Proof. destruct s; reflexivity. Qed.

Lemma substring_append_left a b : substring 0 (String.length a) (a ++ b) = a.
Proof.
  induction a as [|c a IH]; simpl.
  - apply substring_0_0.
  - now rewrite IH.
Qed.

Lemma substring_append_right a b n :
  substring (String.length a) n (a ++ b) = substring 0 n b.
Proof. induction a as [|c a IH]; simpl; auto. Qed.

Lemma length_two s :
  String.length s = 2%nat -> exists a b, s = String a (String b "").
Proof.
  destruct s as [|a [|b [|c s]]]; simpl; try discriminate. eauto.
Qed.

Lemma digit_is_not_minus a : isDigit a = true -> Ascii.eqb a "-" = false.
Proof.
  destruct a as [[] [] [] [] [] [] [] []]; try discriminate; reflexivity.
Qed.

Lemma digits_read s :
  allDigits s = true -> exists u, NilEmpty.uint_of_string s = Some u.
Proof.
  induction s as [|a s IH]; simpl.
  - eauto.
  - rewrite andb_true_iff. intros [Ha Hs]. destruct (IH Hs) as [u ->].
    destruct a as [[] [] [] [] [] [] [] []]; try discriminate; simpl; eauto.
Qed.

Lemma readInt_digits a s :
  allDigits (String a s) = true ->
  readInt (String a s) = Some (parseInt (String a s)).
Proof.
  intros H. destruct (digits_read _ H) as [u Hu].
  unfold readInt, parseInt. rewrite Hu.
  unfold NilZero.int_of_string, NilZero.uint_of_string.
  simpl in H. apply andb_true_iff in H as [Ha _].
  rewrite (digit_is_not_minus _ Ha), Hu. reflexivity.
Qed.

Lemma readInt_numToString y : readInt (numToString y) = Some y.
Proof.
  unfold readInt, numToString.
  rewrite NilZero.isi.
  - simpl. now rewrite DecimalZ.of_to.
  - destruct y; simpl; try discriminate.
    intros [= E]. now apply (DecimalPos.Unsigned.to_uint_nonnil p).
  - destruct y; simpl; try discriminate.
    intros [= E]. now apply (DecimalPos.Unsigned.to_uint_nonnil p).
Qed.

Lemma readInt_nonempty s y : readInt s = Some y -> 1 <= Z.of_nat (String.length s).
Proof. destruct s; simpl; [discriminate | lia]. Qed.

Lemma readTwo_length s n : readTwo s = Some n -> String.length s = 2%nat.
Proof.
  unfold readTwo. destruct (Nat.eqb_spec (String.length s) 2); simpl; [auto | discriminate].
Qed.

Lemma pad2_reads n :
  0 <= n <= 99 -> readTwo (padStart 2 "0" (numToString n)) = Some n.
Proof.
  intros H. rewrite <- (Z2Nat.id n) by lia.
  assert (K : (Z.to_nat n < 100)%nat) by lia.
  generalize dependent (Z.to_nat n). clear. intros k K.
  do 100 (destruct k as [|k]; [reflexivity|]). lia.
Qed.

(** A rendered date reads back as the day number of its fields. *)
Lemma readDay_text ytxt mm dd y m d :
  readInt ytxt = Some y -> readTwo mm = Some m -> readTwo dd = Some d ->
  validCivil y m d = true ->
  readDay (ytxt ++ "-" ++ mm ++ "-" ++ dd) = Some (MakeDay y (m - 1) d).
Proof.
  intros Hy Hm Hd Hv.
  pose proof (readInt_nonempty _ _ Hy) as Ly.
  destruct (length_two _ (readTwo_length _ _ Hm)) as (a & b & ->).
  destruct (length_two _ (readTwo_length _ _ Hd)) as (a' & b' & ->).
  unfold readDay. rewrite length_append. cbn [String.length append].
  replace (String.length ytxt + 6 - 6)%nat with (String.length ytxt) by lia.
  rewrite substring_append_right, substring_append_left.
  replace (7 <=? String.length ytxt + 6)%nat with true
    by (symmetry; apply Nat.leb_le; lia).
  cbn [substring andb String.eqb Ascii.eqb Bool.eqb].
  rewrite Hy, Hm, Hd, Hv. reflexivity.
Qed.

Lemma readStamp_startOfDay txt tz D :
  readDay txt = Some D -> tz = "-07:00" \/ tz = "-08:00" ->
  readStamp (startOfDay txt tz)
  = Some {| stampDay := D; stampClock := 0; stampOffset := offsetMinutes tz |}.
Proof.
  intros Hd Htz. unfold readStamp, startOfDay. rewrite length_append.
  destruct Htz as [-> | ->]; cbn [String.length append];
    replace (String.length txt + 15 - 15)%nat with (String.length txt) by lia;
    rewrite substring_append_right, substring_append_left;
    replace (15 <=? String.length txt + 15)%nat with true
      by (symmetry; apply Nat.leb_le; lia);
    rewrite Hd; reflexivity.
Qed.

Lemma readStamp_endOfDay txt tz D :
  readDay txt = Some D -> tz = "-07:00" \/ tz = "-08:00" ->
  readStamp (endOfDay txt tz)
  = Some {| stampDay := D; stampClock := 86399; stampOffset := offsetMinutes tz |}.
Proof.
  intros Hd Htz. unfold readStamp, endOfDay. rewrite length_append.
  destruct Htz as [-> | ->]; cbn [String.length append];
    replace (String.length txt + 15 - 15)%nat with (String.length txt) by lia;
    rewrite substring_append_right, substring_append_left;
    replace (15 <=? String.length txt + 15)%nat with true
      by (symmetry; apply Nat.leb_le; lia);
    rewrite Hd; reflexivity.
Qed.

Lemma tzOffsetFor_cases z y t :
  tzOffsetFor z y t = "-07:00" \/ tzOffsetFor z y t = "-08:00".
Proof. unfold tzOffsetFor. destruct (_ <? _); auto. Qed.

Section MidnightTexts.

Variable z : Zone.
Hypothesis midnights : MidnightsExist z.

Lemma readDay_formatDate D : readDay (formatDate z (midnight z D)) = Some D.
Proof.
  unfold formatDate, getFullYear, getMonth, getDate.
  rewrite (local_midnight z midnights).
  set (t := D * msPerDay).
  pose proof (MonthFromTime_range t) as Rm.
  pose proof (DateFromTime_range t) as Rd.
  pose proof (fields_valid t) as V.
  assert (Hdim : daysInMonth (YearFromTime t) (MonthFromTime t + 1) <= 31).
  { unfold daysInMonth, leapOfYear.
    repeat match goal with |- context [if ?c then _ else _] => destruct c end; lia. }
  rewrite (readDay_text _ _ _ (YearFromTime t) (MonthFromTime t + 1) (DateFromTime t)).
  - rewrite MakeDay_reads_fields. subst t. now rewrite Day_of_midnight.
  - apply readInt_numToString.
  - apply pad2_reads. lia.
  - apply pad2_reads. lia.
  - exact V.
Qed.

End MidnightTexts.

(** ** Date ranges *)

Lemma tzOffset_cases h : tzOffset h = "-07:00" \/ tzOffset h = "-08:00".
Proof. apply tzOffsetFor_cases. Qed.

Lemma weekday_range D : 0 <= (D + 4) mod 7 <= 6.
Proof. euclid. Qed.

Lemma switchDays_ordered T key : fst (switchDays T key) <= snd (switchDays T key).
Proof.
  pose proof (weekday_range T) as R. unfold switchDays.
  repeat match goal with
         | |- context [if isOneOf ?k ?l then _ else _] => destruct (isOneOf k l)
         | |- context [if ?a =? ?b then _ else _] => destruct (Z.eqb_spec a b)
         end; cbn [fst snd]; lia.
Qed.

Section Ranges.

Variable h : Host.
Hypothesis midnights : MidnightsExist (zone h).

Lemma todayLA_midnight : todayLA h = midnight (zone h) (laToday h).
Proof. unfold todayLA. apply newDateYMD_midnight. Qed.

(** The [switch]: for a token that matches neither pattern, the bounds
    are the renderings of the days of [switchDays]. *)
Lemma switch_range_with (lower : string -> string) tok :
  matchWeekOf tok = None -> matchIsoDate tok = None ->
  calculateDateRangeWith lower h tok
  = {| timeMin := startOfDay
         (formatDate (zone h) (midnight (zone h) (fst (switchDays (laToday h) (lower tok)))))
         (tzOffset h);
       timeMax := endOfDay
         (formatDate (zone h) (midnight (zone h) (snd (switchDays (laToday h) (lower tok)))))
         (tzOffset h) |}.
Proof.
  intros Hw Hi. unfold calculateDateRangeWith, switchDays. rewrite Hw, Hi.
  rewrite todayLA_midnight.
  repeat match goal with
         | |- context [if isOneOf ?k ?l then _ else _] => destruct (isOneOf k l)
         end;
    rewrite ?(getDay_midnight (zone h) midnights);
    repeat match goal with
           | |- context [if ?a =? ?b then _ else _] => destruct (Z.eqb_spec a b)
           end;
    cbn [fst snd];
    rewrite ?(setDate_midnight (zone h) midnights), ?(setDate_midnight_back (zone h) midnights);
    rewrite ?(setDate_midnight (zone h) midnights), ?(setDate_midnight_back (zone h) midnights);
    try reflexivity.
Qed.

Lemma switch_range tok :
  matchWeekOf tok = None -> matchIsoDate tok = None ->
  calculateDateRange h tok
  = {| timeMin := startOfDay
         (formatDate (zone h) (midnight (zone h) (fst (switchDays (laToday h) (toLowerCase tok)))))
         (tzOffset h);
       timeMax := endOfDay
         (formatDate (zone h) (midnight (zone h) (snd (switchDays (laToday h) (toLowerCase tok)))))
         (tzOffset h) |}.
Proof. apply switch_range_with. Qed.

End Ranges.

Lemma prefix_head c s a r : prefix (String c s) (String a r) = true -> a = c.
Proof.
  simpl. destruct (ascii_dec c a) as [E|E]; [now intros _ | discriminate].
Qed.

Lemma length_ten s :
  String.length s = 10%nat ->
  exists c0 c1 c2 c3 c4 c5 c6 c7 c8 c9,
    s = String c0 (String c1 (String c2 (String c3 (String c4 (String c5
          (String c6 (String c7 (String c8 (String c9 ""))))))))).
Proof.
  intros H.
  do 10 (destruct s as [|? s]; [discriminate|]).
  destruct s; [|discriminate]. do 10 eexists. reflexivity.
Qed.

Lemma one_char_eqb c d : (String c "" =? String d "")%string = true -> c = d.
Proof. intros H. apply String.eqb_eq in H. congruence. Qed.

(** A text that matches the date pattern: ten characters, digits around
    two hyphens, and the three captures. *)
Lemma matchIsoDate_shape s y m d :
  matchIsoDate s = Some (y, m, d) ->
  exists c0 c1 c2 c3 c5 c6 c8 c9,
    s = String c0 (String c1 (String c2 (String c3 (String "-" (String c5
          (String c6 (String "-" (String c8 (String c9 "")))))))))
    /\ y = String c0 (String c1 (String c2 (String c3 "")))
    /\ m = String c5 (String c6 "") /\ d = String c8 (String c9 "")
    /\ allDigits y = true /\ allDigits m = true /\ allDigits d = true.
Proof.
  unfold matchIsoDate.
  destruct (Nat.eqb_spec (String.length s) 10) as [L|L]; [|discriminate].
  destruct (length_ten s L) as (c0&c1&c2&c3&c4&c5&c6&c7&c8&c9&->).
  cbn [substring andb].
  destruct (allDigits (String c0 (String c1 (String c2 (String c3 ""))))) eqn:Y;
    [|discriminate].
  destruct (String c4 "" =? "-")%string eqn:E4; [|discriminate].
  destruct (allDigits (String c5 (String c6 ""))) eqn:M; [|discriminate].
  destruct (String c7 "" =? "-")%string eqn:E7; [|discriminate].
  destruct (allDigits (String c8 (String c9 ""))) eqn:Dd; [|discriminate].
  cbn [andb]. intros [= <- <- <-].
  apply one_char_eqb in E4, E7. subst c4 c7.
  exists c0, c1, c2, c3, c5, c6, c8, c9. repeat split; auto.
Qed.

Lemma readTwo_digits a b :
  allDigits (String a (String b "")) = true ->
  readTwo (String a (String b "")) = Some (parseInt (String a (String b ""))).
Proof. intros H. unfold readTwo. rewrite H. reflexivity. Qed.

(** A date text that names a date of the calendar reads as its day. *)
Lemma readDay_civil s y m d :
  matchIsoDate s = Some (y, m, d) ->
  validCivil (parseInt y) (parseInt m) (parseInt d) = true ->
  readDay s = Some (MakeDay (parseInt y) (parseInt m - 1) (parseInt d)).
Proof.
  intros H V.
  destruct (matchIsoDate_shape _ _ _ _ H)
    as (c0&c1&c2&c3&c5&c6&c8&c9&->&->&->&->&Y&M&Dd).
  apply (readDay_text (String c0 (String c1 (String c2 (String c3 ""))))
                      (String c5 (String c6 "")) (String c8 (String c9 ""))).
  - now apply readInt_digits.
  - now apply readTwo_digits.
  - now apply readTwo_digits.
  - exact V.
Qed.

Lemma iso_is_not_weekOf s y m d :
  matchIsoDate s = Some (y, m, d) -> matchWeekOf s = None.
Proof.
  intros H.
  destruct (matchIsoDate_shape _ _ _ _ H)
    as (c0&c1&c2&c3&c5&c6&c8&c9&->&_&_&_&Y&_&_).
  unfold matchWeekOf.
  destruct (prefix "week_of:" _) eqn:P; [|reflexivity].
  apply prefix_head in P. subst c0. discriminate.
Qed.

Lemma matchWeekOf_token d : matchWeekOf (weekOfToken d) = matchIsoDate d.
Proof.
  unfold matchWeekOf, weekOfToken.
  change (prefix "week_of:" ("week_of:" ++ d)) with (prefix "" d).
  replace (prefix "" d) with true by (destruct d; reflexivity).
  rewrite length_append. cbn [String.length].
  replace (8 + String.length d - 8)%nat with (String.length d) by lia.
  change (substring 8 (String.length d) ("week_of:" ++ d))
    with (substring 0 (String.length d) d).
  replace (substring 0 (String.length d) d) with d; [reflexivity|].
  rewrite <- (substring_append_left d "") at 1.
  f_equal. induction d; simpl; congruence.
Qed.

Section WeekOf.

Variable h : Host.
Hypothesis midnights : MidnightsExist (zone h).

(** The [week_of] branch: the bounds are the renderings of the Sunday on
    or before the target day and of the Saturday six days later. *)
Lemma weekOf_range d ys ms ds :
  matchIsoDate d = Some (ys, ms, ds) ->
  let target := MakeDay (fullYear (parseInt ys)) (parseInt ms - 1) (parseInt ds) in
  let sunday := target - (target + 4) mod 7 in
  calculateDateRange h (weekOfToken d)
  = {| timeMin := startOfDay (formatDate (zone h) (midnight (zone h) sunday)) (tzOffset h);
       timeMax := endOfDay (formatDate (zone h) (midnight (zone h) (sunday + 6))) (tzOffset h) |}.
Proof.
  intros H target sunday. unfold calculateDateRange, calculateDateRangeWith.
  rewrite matchWeekOf_token, H.
  rewrite (newDateYMD_midnight (zone h)). fold target.
  rewrite (getDay_midnight (zone h) midnights).
  rewrite (setDate_midnight_back (zone h) midnights). fold sunday.
  rewrite (setDate_midnight (zone h) midnights). reflexivity.
Qed.

End WeekOf.

(** ** The two example zones keep their midnights *)

Lemma midnights_UTC : MidnightsExist zoneUTC.
Proof. intros D. unfold LocalTime, UTC, zoneUTC. cbn. lia. Qed.

Lemma firstSundayFrom_bounds d : d <= firstSundayFrom d <= d + 6.
Proof. unfold firstSundayFrom. euclid. Qed.

Lemma leapOfYear_cases y : leapOfYear y = 0 \/ leapOfYear y = 1.
Proof. rewrite leapOfYear_eq. destruct (DaysInYear_cases y); lia. Qed.

Lemma pacificDstStartDay_bounds y :
  DayFromYear y + 59 <= pacificDstStartDay y.
Proof.
  unfold pacificDstStartDay, MakeDay.
  change (2 / 12) with 0. change (2 mod 12) with 2. rewrite Z.add_0_r.
  change (monthStart 2 (leapOfYear y)) with (59 + leapOfYear y).
  pose proof (firstSundayFrom_bounds (DayFromYear y + (59 + leapOfYear y) + 1 - 1)).
  pose proof (leapOfYear_cases y). lia.
Qed.

Lemma midnights_Pacific : MidnightsExist zonePacific.
Proof.
  intros D. unfold LocalTime, UTC, zonePacific. cbn [tzaAtUTC tzaAtLocal].
  set (y := YearFromDay D).
  assert (Y : YearFromTime (D * msPerDay) = y)
    by (unfold YearFromTime; now rewrite Day_of_midnight).
  rewrite !Y.
  pose proof (YearFromDay_spec D) as Sy. fold y in Sy.
  pose proof (pacificDstStartDay_bounds y) as Sb.
  set (S := pacificDstStartDay y) in *. set (E := pacificDstEndDay y) in *.
  destruct ((S * msPerDay + 3 * msPerHour <=? D * msPerDay)
            && (D * msPerDay <? E * msPerDay + 2 * msPerHour)) eqn:C.
  - apply andb_true_iff in C as [C1 C2].
    apply Z.leb_le in C1. apply Z.ltb_lt in C2.
    assert (Hy : YearFromTime (D * msPerDay - - (7 * msPerHour) - 8 * msPerHour) = y).
    { unfold YearFromTime.
      replace (Day (D * msPerDay - - (7 * msPerHour) - 8 * msPerHour)) with (D - 1)
        by (unfold Day, msPerDay, msPerHour; euclid).
      apply YearFromDay_unique. unfold msPerDay, msPerHour in *. lia. }
    rewrite !Hy. fold S E.
    replace ((S * msPerDay + 10 * msPerHour <=? D * msPerDay - - (7 * msPerHour))
             && (D * msPerDay - - (7 * msPerHour) <? E * msPerDay + 9 * msPerHour))
      with true; [lia|].
    symmetry. apply andb_true_iff. split; [apply Z.leb_le | apply Z.ltb_lt];
      unfold msPerDay, msPerHour in *; lia.
  - assert (Hy : YearFromTime (D * msPerDay - - (8 * msPerHour) - 8 * msPerHour) = y).
    { rewrite <- Y. f_equal. lia. }
    rewrite !Hy. fold S E.
    replace ((S * msPerDay + 10 * msPerHour <=? D * msPerDay - - (8 * msPerHour))
             && (D * msPerDay - - (8 * msPerHour) <? E * msPerDay + 9 * msPerHour))
      with false; [lia|].
    symmetry. apply andb_false_iff. apply andb_false_iff in C.
    destruct C as [C|C]; [left; apply Z.leb_gt in C; apply Z.leb_gt
                         | right; apply Z.ltb_ge in C; apply Z.ltb_ge];
      unfold msPerDay, msPerHour in *; lia.
Qed.

(** ** The date range resolver *)

Lemma switchDays_default T key :
  isOneOf key otherLabels = false -> switchDays T key = (T, T + 7).
Proof.
  unfold otherLabels, isOneOf. cbn [existsb].
  repeat rewrite orb_false_iff.
  intros (H1&H2&H3&H4&H5&H6&H7&H8&H9&H10&H11&H12&H13&_).
  unfold switchDays, isOneOf. cbn [existsb].
  rewrite H1, H2, H3, H4, H5, H6, H7, H8, H9, H10, H11, H12, H13. reflexivity.
Qed.

(** X7.  The week of a date whose year is written with a year of 100 or
    later: the bounds are the Sunday on or before the date and the Saturday
    after it, at 00:00:00 and 23:59:59. *)
Lemma week_of_contains_date (h : Host) (d ys ms ds : string) :
  MidnightsExist (zone h) ->
  matchIsoDate d = Some (ys, ms, ds) ->
  validCivil (parseInt ys) (parseInt ms) (parseInt ds) = true ->
  100 <= parseInt ys ->
  exists D,
    readDay d = Some D /\
    let sunday := D - (D + 4) mod 7 in
    let r := calculateDateRange h (weekOfToken d) in
    readStamp (timeMin r)
    = Some {| stampDay := sunday; stampClock := 0;
              stampOffset := offsetMinutes (tzOffset h) |} /\
    readStamp (timeMax r)
    = Some {| stampDay := sunday + 6; stampClock := 86399;
              stampOffset := offsetMinutes (tzOffset h) |} /\
    (sunday + 4) mod 7 = 0 /\ (sunday + 6 + 4) mod 7 = 6 /\
    sunday <= D <= sunday + 6.
Proof.
  intros M H V Y.
  exists (MakeDay (parseInt ys) (parseInt ms - 1) (parseInt ds)).
  split; [now apply readDay_civil|].
  cbv zeta. rewrite (weekOf_range h M d ys ms ds H).
  replace (fullYear (parseInt ys)) with (parseInt ys)
    by (unfold fullYear; destruct (Z.leb_spec (parseInt ys) 99);
        [lia | now rewrite andb_false_r]).
  cbn [timeMin timeMax].
  rewrite (readStamp_startOfDay _ _ _ (readDay_formatDate _ M _) (tzOffset_cases h)).
  rewrite (readStamp_endOfDay _ _ _ (readDay_formatDate _ M _) (tzOffset_cases h)).
  repeat split; euclid.
Qed.

(** C1.  The week of a date written with a year before 100: the handler
    reads the year 50 of ["week_of:0050-03-18"] as 1950 and returns the week
    of 12 to 18 March 1950, which does not contain the date of the token;
    the token of the example, ["week_of:2026-03-18"], gives 15 to 21 March
    2026. *)
Theorem week_of_year_below_100 :
  let r := calculateDateRange hostPacific "week_of:0050-03-18" in
  timeMin r = "1950-03-12T00:00:00-07:00" /\
  timeMax r = "1950-03-18T23:59:59-07:00" /\
  readDay "0050-03-18" = Some (-701189) /\
  option_map stampDay (readStamp (timeMin r)) = Some (-7235) /\
  option_map stampDay (readStamp (timeMax r)) = Some (-7229) /\
  calculateDateRange hostPacific "week_of:2026-03-18"
  = {| timeMin := "2026-03-15T00:00:00-07:00";
       timeMax := "2026-03-21T23:59:59-07:00" |}.
Proof.
  cbv zeta. repeat split; vm_compute; reflexivity.
Qed.

(** X30.  For every token of the vocabulary, on a host on which every
    day starts at midnight, the two bounds read as a start at 00:00:00 of
    a day [s] and an end at 23:59:59 of a day [e] with [s <= e], both with
    the offset the handler chose, so that the start instant is before the
    end instant. *)
Theorem range_start_before_end (h : Host) (tok : string) :
  MidnightsExist (zone h) ->
  InVocabulary tok ->
  let r := calculateDateRange h tok in
  exists s e start stop,
    readStamp (timeMin r) = Some start /\
    readStamp (timeMax r) = Some stop /\
    start = {| stampDay := s; stampClock := 0;
               stampOffset := offsetMinutes (tzOffset h) |} /\
    stop = {| stampDay := e; stampClock := 86399;
              stampOffset := offsetMinutes (tzOffset h) |} /\
    s <= e /\ instantOf start < instantOf stop.
Proof.
  intros M V. cbv zeta.
  assert (G : forall s e txt1 txt2,
             readDay txt1 = Some s -> readDay txt2 = Some e -> s <= e ->
             calculateDateRange h tok
             = {| timeMin := startOfDay txt1 (tzOffset h);
                  timeMax := endOfDay txt2 (tzOffset h) |} ->
             exists s e start stop,
               readStamp (timeMin (calculateDateRange h tok)) = Some start /\
               readStamp (timeMax (calculateDateRange h tok)) = Some stop /\
               start = {| stampDay := s; stampClock := 0;
                          stampOffset := offsetMinutes (tzOffset h) |} /\
               stop = {| stampDay := e; stampClock := 86399;
                         stampOffset := offsetMinutes (tzOffset h) |} /\
               s <= e /\ instantOf start < instantOf stop).
  { intros s e txt1 txt2 H1 H2 L ->. cbn [timeMin timeMax].
    rewrite (readStamp_startOfDay _ _ _ H1 (tzOffset_cases h)).
    rewrite (readStamp_endOfDay _ _ _ H2 (tzOffset_cases h)).
    eexists s, e, _, _. repeat split; eauto.
    unfold instantOf; cbn [stampDay stampClock stampOffset]; lia. }
  destruct V as [tok Hin | tok Hd | d Hd].
  - assert (W : matchWeekOf tok = None /\ matchIsoDate tok = None).
    { cbn in Hin. repeat destruct Hin as [<- | Hin]; try (split; reflexivity).
      destruct Hin. }
    destruct W as [W I].
    eapply G; [apply (readDay_formatDate _ M) | apply (readDay_formatDate _ M)
               | apply switchDays_ordered | apply (switch_range h M tok W I)].
  - unfold isCivilDateText in Hd.
    destruct (matchIsoDate tok) as [[[ys ms] ds]|] eqn:I; [|discriminate].
    eapply (G _ _ tok tok);
      [apply (readDay_civil _ _ _ _ I Hd) | apply (readDay_civil _ _ _ _ I Hd)
       | lia |].
    unfold calculateDateRange, calculateDateRangeWith. rewrite (iso_is_not_weekOf _ _ _ _ I), I. reflexivity.
  - unfold isCivilDateText in Hd.
    destruct (matchIsoDate d) as [[[ys ms] ds]|] eqn:I; [|discriminate].
    eapply G; [apply (readDay_formatDate _ M) | apply (readDay_formatDate _ M)
               | | apply (weekOf_range h M d ys ms ds I)].
    lia.
Qed.

Lemma range_start_before_end_witness :
  exists s e start stop,
    readStamp (timeMin (calculateDateRange hostPacific "this_week")) = Some start /\
    readStamp (timeMax (calculateDateRange hostPacific "this_week")) = Some stop /\
    start = {| stampDay := s; stampClock := 0;
               stampOffset := offsetMinutes (tzOffset hostPacific) |} /\
    stop = {| stampDay := e; stampClock := 86399;
              stampOffset := offsetMinutes (tzOffset hostPacific) |} /\
    s <= e /\ instantOf start < instantOf stop.
Proof.
  apply (range_start_before_end hostPacific "this_week" midnights_Pacific).
  apply voc_enum. simpl. tauto.
Defined.

(** C2.  The bounds carry an offset that the resolver derives from the
    time of the request and from the zone of its host, not the offset of
    Los Angeles on their own days.  On a host in Los Angeles, on 18 March
    2026 at 13:00 (daylight time, seven hours behind UTC), the range of
    ["last_month"] starts with 2026-02-16T00:00:00-07:00.  On 16 February
    Los Angeles is on standard time, eight hours behind UTC: the instant of
    that text is 23:00:00 of 15 February there, an hour before the day
    starts.  The end, on the day of the request, is 23:59:59 of that day
    in Los Angeles.  On a host on UTC the offset is -08:00 at all times: at
    the same time of request the range of ["today"] starts at 01:00:00 of
    18 March in Los Angeles and ends at 00:59:59 of 19 March. *)
Theorem bounds_carry_the_offset_of_now :
  (let r := calculateDateRange hostPacific "last_month" in
   timeMin r = "2026-02-16T00:00:00-07:00" /\
   timeMax r = "2026-03-18T23:59:59-07:00" /\
   exists start stop,
     readStamp (timeMin r) = Some start /\
     readStamp (timeMax r) = Some stop /\
     instantOf start < instantOf stop /\
     tzaAtUTC zonePacific (instantOf start * 1000) = - (8 * msPerHour) /\
     LocalTime zonePacific (instantOf start * 1000)
     = MakeDate (MakeDay 2026 1 15) (23 * msPerHour) /\
     LocalTime zonePacific (instantOf stop * 1000)
     = MakeDate (MakeDay 2026 2 18)
                (23 * msPerHour + 59 * msPerMinute + 59 * 1000)) /\
  (let r := calculateDateRange hostUTC "today" in
   timeMin r = "2026-03-18T00:00:00-08:00" /\
   timeMax r = "2026-03-18T23:59:59-08:00" /\
   exists start stop,
     readStamp (timeMin r) = Some start /\
     readStamp (timeMax r) = Some stop /\
     tzaAtUTC zonePacific (instantOf start * 1000) = - (7 * msPerHour) /\
     LocalTime zonePacific (instantOf start * 1000)
     = MakeDate (MakeDay 2026 2 18) (1 * msPerHour) /\
     LocalTime zonePacific (instantOf stop * 1000)
     = MakeDate (MakeDay 2026 2 19) (59 * msPerMinute + 59 * 1000)).
Proof.
  cbv zeta. split.
  - split; [vm_compute; reflexivity|]. split; [vm_compute; reflexivity|].
    eexists _, _. split; [vm_compute; reflexivity|].
    split; [vm_compute; reflexivity|]. repeat split; vm_compute; reflexivity.
  - split; [vm_compute; reflexivity|]. split; [vm_compute; reflexivity|].
    eexists _, _. split; [vm_compute; reflexivity|].
    split; [vm_compute; reflexivity|]. repeat split; vm_compute; reflexivity.
Qed.

(** The default case of the [switch]. *)
Lemma default_range (lower : string -> string) (h : Host) (tok : string) :
  matchWeekOf tok = None ->
  matchIsoDate tok = None ->
  isOneOf (lower tok) otherLabels = false ->
  calculateDateRangeWith lower h tok
  = {| timeMin := startOfDay (formatDate (zone h) (todayLA h)) (tzOffset h);
       timeMax :=
         endOfDay
           (formatDate (zone h)
              (setDate (zone h) (todayLA h) (getDate (zone h) (todayLA h) + 7)))
           (tzOffset h) |}.
Proof.
  intros W I. unfold otherLabels, isOneOf. cbn [existsb].
  repeat rewrite orb_false_iff.
  intros (H1&H2&H3&H4&H5&H6&H7&H8&H9&H10&H11&H12&H13&_).
  unfold calculateDateRangeWith, isOneOf. rewrite W, I. cbn [existsb].
  rewrite H1, H2, H3, H4, H5, H6, H7, H8, H9, H10, H11, H12, H13. reflexivity.
Qed.

(** C9.  A token that matches neither pattern and whose lower case,
    whatever the lower case of the platform makes of it, is none of the
    labels of the other cases of the [switch] gets the window of
    ["upcoming"]: on a host on which every day starts at midnight, it
    starts today at 00:00:00 and ends seven days later at 23:59:59, both
    written with the offset that the resolver chose. *)
Theorem unknown_token_is_upcoming (lower : string -> string) (h : Host)
        (tok : string) :
  matchWeekOf tok = None ->
  matchIsoDate tok = None ->
  isOneOf (lower tok) otherLabels = false ->
  let r := calculateDateRangeWith lower h tok in
  r = calculateDateRange h "upcoming" /\
  (MidnightsExist (zone h) ->
   readStamp (timeMin r)
   = Some {| stampDay := laToday h; stampClock := 0;
             stampOffset := offsetMinutes (tzOffset h) |} /\
   readStamp (timeMax r)
   = Some {| stampDay := laToday h + 7; stampClock := 86399;
             stampOffset := offsetMinutes (tzOffset h) |}).
Proof.
  intros W I N. cbv zeta. split.
  - rewrite (default_range lower h tok W I N). symmetry.
    apply (default_range toLowerCase h "upcoming"); reflexivity.
  - intros M. rewrite (switch_range_with h M lower tok W I).
    rewrite (switchDays_default _ _ N).
    cbn [fst snd timeMin timeMax].
    rewrite (readStamp_startOfDay _ _ _ (readDay_formatDate _ M _) (tzOffset_cases h)).
    rewrite (readStamp_endOfDay _ _ _ (readDay_formatDate _ M _) (tzOffset_cases h)).
    auto.
Qed.

Lemma unknown_token_is_upcoming_witness :
  let r := calculateDateRange hostPacific "Whenever" in
  r = calculateDateRange hostPacific "upcoming" /\
  readStamp (timeMin r)
  = Some {| stampDay := laToday hostPacific; stampClock := 0;
            stampOffset := offsetMinutes (tzOffset hostPacific) |} /\
  readStamp (timeMax r)
  = Some {| stampDay := laToday hostPacific + 7; stampClock := 86399;
            stampOffset := offsetMinutes (tzOffset hostPacific) |}.
Proof.
  destruct (unknown_token_is_upcoming toLowerCase hostPacific "Whenever"
              eq_refl eq_refl eq_refl) as [E R].
  exact (conj E (R midnights_Pacific)).
Defined.

(** C9 does not extend to every token outside the patterns and the
    vocabulary: the [switch] compares the lower case of the token, and
    it has a second spelling for some of its cases.  ["this week"] and
    ["TODAY"] are no tokens of the vocabulary, and they get the windows of
    ["this_week"] and of ["today"]. *)
Lemma other_spellings_are_not_upcoming :
  let upcoming := calculateDateRange hostPacific "upcoming" in
  upcoming = {| timeMin := "2026-03-18T00:00:00-07:00";
                timeMax := "2026-03-25T23:59:59-07:00" |} /\
  (matchWeekOf "this week" = None /\ matchIsoDate "this week" = None /\
   ~ In "this week" enumTokens /\
   calculateDateRange hostPacific "this week"
   = {| timeMin := "2026-03-16T00:00:00-07:00";
        timeMax := "2026-03-22T23:59:59-07:00" |} /\
   calculateDateRange hostPacific "this week" <> upcoming) /\
  (matchWeekOf "TODAY" = None /\ matchIsoDate "TODAY" = None /\
   ~ In "TODAY" enumTokens /\
   calculateDateRange hostPacific "TODAY"
   = {| timeMin := "2026-03-18T00:00:00-07:00";
        timeMax := "2026-03-18T23:59:59-07:00" |} /\
   calculateDateRange hostPacific "TODAY" <> upcoming).
Proof.
  cbv zeta.
  assert (N : forall tok, (tok = "this week" \/ tok = "TODAY") -> ~ In tok enumTokens).
  { intros tok [-> | ->] H; cbn in H;
      repeat destruct H as [H | H]; try discriminate H; exact H. }
  repeat split; try (vm_compute; reflexivity); try (apply N; auto);
    vm_compute; discriminate.
Qed.

(** ** Creating an event *)

Lemma withRecurrence_start r e :
  Events.start (Events.withRecurrence r e) = Events.start e.
Proof.
  unfold Events.withRecurrence.
  destruct (truthy r && _); [|reflexivity].
  destruct (Events.recurrenceRule _); reflexivity.
Qed.

Lemma withRecurrence_end r e :
  Events.end_ (Events.withRecurrence r e) = Events.end_ e.
Proof.
  unfold Events.withRecurrence.
  destruct (truthy r && _); [|reflexivity].
  destruct (Events.recurrenceRule _); reflexivity.
Qed.

Lemma digit_is_not_colon a : isDigit a = true -> Ascii.eqb a ":" = false.
Proof.
  destruct a as [[] [] [] [] [] [] [] []]; try discriminate; reflexivity.
Qed.

Lemma length_five s :
  String.length s = 5%nat ->
  exists c0 c1 c2 c3 c4,
    s = String c0 (String c1 (String c2 (String c3 (String c4 "")))).
Proof.
  intros H. do 5 (destruct s as [|? s]; [discriminate|]).
  destruct s; [|discriminate]. do 5 eexists. reflexivity.
Qed.

(** A text that matches the time pattern splits at its colon into two
    pairs of digits. *)
Lemma matchTime_shape t :
  Events.matchTime t = true ->
  let hh := substring 0 2 t in
  let mm := substring 3 2 t in
  map Number (split ":" t) = [Some (parseInt hh); Some (parseInt mm)]
  /\ 0 <= parseInt hh /\ 0 <= parseInt mm.
Proof.
  unfold Events.matchTime. rewrite !andb_true_iff.
  intros [[[L H] C] M]. apply Nat.eqb_eq in L.
  destruct (length_five t L) as (c0&c1&c2&c3&c4&->).
  cbn [substring] in *. apply one_char_eqb in C. subst c2.
  pose proof H as H'. pose proof M as M'.
  cbn [allDigits] in H', M'. rewrite !andb_true_iff in H', M'.
  destruct H' as (D0 & D1 & _). destruct M' as (D3 & D4 & _).
  unfold split. cbn [splitAux].
  rewrite (digit_is_not_colon _ D0), (digit_is_not_colon _ D1),
    (digit_is_not_colon _ D3), (digit_is_not_colon _ D4).
  cbn [Ascii.eqb Bool.eqb append map].
  unfold Number. rewrite H, M.
  repeat split; unfold parseInt;
    match goal with
    | |- context [NilEmpty.uint_of_string ?s] =>
        destruct (NilEmpty.uint_of_string s) as [u|]; [|lia];
        unfold Z.of_uint; lia
    end.
Qed.

(** *** The numbers of a timed event *)

Lemma wholeOf_ofZ z : JSNumber.wholeOf (JSNumber.ofZ z) = Some z.
Proof.
  unfold JSNumber.wholeOf, JSNumber.ofZ, inject_Z, Qred. cbv zeta.
  pose proof (Z.ggcd_gcd z 1) as G. pose proof (Z.ggcd_correct_divisors z 1) as D.
  destruct (Z.ggcd z 1) as [g [a b]]. cbn [fst snd] in *.
  rewrite Z.gcd_1_r in G. subst g. destruct D as [D1 D2].
  cbn [Qnum Qden]. assert (b = 1) by lia. subst b. cbn. f_equal. lia.
Qed.

Lemma wholeOf_truthy n d :
  JSNumber.wholeOf n = Some d -> d <> 0 -> JSNumber.falsy n = false.
Proof.
  destruct n as [| |q]; try discriminate.
  unfold JSNumber.wholeOf, JSNumber.falsy. cbv zeta.
  destruct (Qden (Qred q) =? 1)%positive; [|discriminate].
  intros [= <-] N. apply Z.eqb_neq. intros Z0. apply N.
  pose proof (Qred_correct q) as C. unfold Qeq in C. rewrite Z0 in C.
  lia.
Qed.

Lemma roundDouble_exact z : Z.abs z <= 2 ^ 53 -> JSNumber.roundDouble z = z.
Proof.
  intros B. unfold JSNumber.roundDouble. cbv zeta.
  destruct (Z.leb_spec (Z.log2 (Z.abs z) - 52) 0) as [|L]; [reflexivity|].
  assert (P : 0 < Z.abs z).
  { destruct (Z.eq_dec (Z.abs z) 0) as [E|]; [rewrite E in L; cbn in L|]; lia. }
  pose proof (Z.log2_spec _ P) as [S _].
  pose proof (Z.pow_le_mono_r 2 53 (Z.log2 (Z.abs z)) ltac:(lia) ltac:(lia)) as M.
  assert (E : Z.abs z = 2 ^ 53) by lia.
  assert (C : z = 2 ^ 53 \/ z = - 2 ^ 53) by lia.
  destruct C as [-> | ->]; reflexivity.
Qed.

Lemma roundHalfEven_floor (t s : Z) :
  30 < s -> 0 <= t ->
  JSNumber.roundHalfEven (t * s) 60 / s = t / 60.
Proof.
  intros S T. unfold JSNumber.roundHalfEven. cbv zeta.
  pose proof (Z.div_mod t 60 ltac:(lia)) as Dt.
  pose proof (Z.mod_pos_bound t 60 ltac:(lia)) as Bt.
  set (n := t / 60) in *. set (k := t mod 60) in *.
  pose proof (Z.div_mod (t * s) 60 ltac:(lia)) as Da.
  pose proof (Z.mod_pos_bound (t * s) 60 ltac:(lia)) as Ba.
  set (q := t * s / 60) in *. set (r := (t * s) mod 60) in *.
  assert (A : t * s = 60 * (n * s) + k * s) by (rewrite Dt at 1; ring).
  assert (KS : 0 <= k * s <= 59 * s) by nia.
  clearbody n k q r.
  assert (R : forall res, q <= res -> (res = q \/ (res = q + 1 /\ 60 <= 2 * r)) ->
                          res / s = n).
  { intros res L C. symmetry. apply (Z.div_unique res s n (res - n * s)); [|ring].
    left. generalize dependent (n * s). generalize dependent (k * s).
    intros ks KS ns A. lia. }
  destruct (Z.ltb_spec (2 * r) 60); [apply R; lia|].
  destruct (Z.ltb_spec 60 (2 * r)); [apply R; lia|].
  destruct (Z.even q); apply R; lia.
Qed.

Lemma floorOfQuotient_exact t :
  0 <= t < 60 * 2 ^ 48 -> JSNumber.floorOfQuotient t 60 = t / 60.
Proof.
  intros B. unfold JSNumber.floorOfQuotient. cbv zeta.
  rewrite (Z.abs_eq t) by lia.
  destruct (Z.eqb_spec (t / 60) 0) as [|N]; [reflexivity|].
  assert (P : 0 < t / 60) by (pose proof (Z.div_pos t 60); lia).
  assert (U : t / 60 < 2 ^ 48) by (apply Z.div_lt_upper_bound; lia).
  assert (L : Z.log2 (t / 60) < 48) by (apply Z.log2_lt_pow2; lia).
  pose proof (Z.log2_nonneg (t / 60)) as L0.
  destruct (Z.leb_spec 0 (Z.log2 (t / 60) - 52)); [lia|].
  assert (S : 30 < 2 ^ (- (Z.log2 (t / 60) - 52))).
  { pose proof (Z.pow_le_mono_r 2 5 (- (Z.log2 (t / 60) - 52)) ltac:(lia) ltac:(lia)).
    change (2 ^ 5) with 32 in *. lia. }
  replace (Z.sgn t) with 1 by (symmetry; apply Z.sgn_pos; euclid).
  rewrite Z.mul_1_l. now apply roundHalfEven_floor.
Qed.

(** C3.  A timed create request with a time [HH:MM] and a duration that is
    a positive whole number of minutes, where the minutes of the start
    plus the duration come to 2^53 at most: the event starts at
    [date]T[time]:00 and ends, on the same [date], at the time of day that
    is [duration] minutes later, taken modulo 24 hours. *)
Theorem timed_event_end (z : Zone) (token cal ttl d t : string)
        (desc loc rec : option string) (duration : JSNumber.Num) (dur : Z) :
  truthy (Some token) = true ->
  truthy (Some cal) = true ->
  truthy (Some ttl) = true ->
  Events.isIsoDate d = true ->
  Events.matchTime t = true ->
  JSNumber.wholeOf duration = Some dur ->
  0 < dur ->
  parseInt (substring 0 2 t) * 60 + parseInt (substring 3 2 t) + dur <= 2 ^ 53 ->
  let body :=
    {| Events.calendarId := Some cal; Events.title := Some ttl;
       Events.description := desc; Events.location := loc;
       Events.date := Some d; Events.time := Some t;
       Events.duration := Some duration; Events.allDay := false;
       Events.recurrence := rec |} in
  let total := parseInt (substring 0 2 t) * 60 + parseInt (substring 3 2 t) + dur in
  let endHours := (total / 60) mod 24 in
  let endMinutes := total mod 60 in
  let endTime := padStart 2 "0" (numToString endHours) ++ ":"
                 ++ padStart 2 "0" (numToString endMinutes) in
  exists ev,
    Events.POST z false true (Some token) body = Events.Submit cal ev /\
    Events.g_dateTime (Events.start ev) = Some (d ++ "T" ++ t ++ ":00") /\
    Events.g_dateTime (Events.end_ ev) = Some (d ++ "T" ++ endTime ++ ":00") /\
    0 <= endHours < 24 /\ 0 <= endMinutes < 60 /\
    endHours * 60 + endMinutes = total mod 1440.
Proof.
  intros Htok Hcal Httl Hd Ht Hwhole Hdur Hbound body total endHours endMinutes endTime.
  destruct (matchTime_shape t Ht) as (Hsplit & Hh & Hm).
  assert (Tt : truthy (Some t) = true).
  { unfold Events.matchTime in Ht. destruct t; [discriminate | reflexivity]. }
  assert (Td : truthy (Some d) = true).
  { destruct d; [vm_compute in Hd; discriminate | reflexivity]. }
  unfold Events.POST. subst body. cbn [Events.calendarId Events.title Events.date
    Events.time Events.duration Events.allDay Events.recurrence
    Events.description Events.location Events.orEmpty].
  rewrite Htok, Hcal, Httl, Td, Hd, Tt, Ht. cbn [negb orb andb].
  rewrite (wholeOf_truthy _ _ Hwhole) by lia.
  assert (T0 : 0 <= total) by (subst total; lia).
  assert (E : Events.endTimeOf t duration = Some endTime).
  { unfold Events.endTimeOf. rewrite Hsplit. cbn [nth].
    destruct duration as [| |q]; try discriminate Hwhole.
    rewrite Hwhole. cbv zeta. fold total.
    rewrite roundDouble_exact by (rewrite Z.abs_eq; assumption).
    rewrite floorOfQuotient_exact
      by (split; [assumption|]; apply (Z.le_lt_trans _ (2 ^ 53)); [assumption|reflexivity]).
    rewrite (Z.rem_mod_nonneg (total / 60) 24) by (try apply Z.div_pos; lia).
    rewrite (Z.rem_mod_nonneg total 60) by lia.
    reflexivity. }
  rewrite E. cbv zeta.
  eexists. split; [reflexivity|].
  rewrite withRecurrence_start, withRecurrence_end.
  cbn [Events.start Events.end_ Events.g_dateTime].
  repeat split; try reflexivity; subst endHours endMinutes; clearbody total;
    euclid.
Qed.

Lemma timed_event_end_witness :
  exists ev,
    Events.POST zonePacific false true (Some "token")
      (createRequest "2026-03-15" (Some "23:30") (Some (JSNumber.ofZ 60)) false)
    = Events.Submit "primary" ev /\
    Events.g_dateTime (Events.start ev) = Some "2026-03-15T23:30:00" /\
    Events.g_dateTime (Events.end_ ev) = Some "2026-03-15T00:30:00".
Proof.
  destruct (timed_event_end zonePacific "token" "primary" "Dentist" "2026-03-15"
              "23:30" None None (Some "none") (JSNumber.ofZ 60) 60
              eq_refl eq_refl eq_refl eq_refl eq_refl eq_refl eq_refl
              ltac:(vm_compute; discriminate))
    as (ev & P & S & E & _).
  exists ev. repeat split; assumption.
Defined.

(** C3 does not extend to every positive duration.  A duration is a
    double, and so is the sum of the minutes: for the time 00:01 and the
    duration 2^53 the sum 2^53 + 1 is no double and is rounded to 2^53,
    and the event ends at 00:32, where 2^53 + 1 minutes after 00:00 is
    00:33. *)
Lemma timed_event_end_is_rounded :
  let dur := 2 ^ 53 in
  let total := 0 * 60 + 1 + dur in
  JSNumber.wholeOf (JSNumber.ofZ dur) = Some dur /\ 0 < dur /\
  JSNumber.roundDouble dur = dur /\
  (total / 60) mod 24 = 0 /\ total mod 60 = 33 /\
  exists ev,
    Events.POST zonePacific false true (Some "token")
      (createRequest "2026-03-15" (Some "00:01") (Some (JSNumber.ofZ dur)) false)
    = Events.Submit "primary" ev /\
    Events.g_dateTime (Events.end_ ev) = Some "2026-03-15T00:32:00" /\
    Events.g_dateTime (Events.end_ ev) <> Some "2026-03-15T00:33:00".
Proof.
  cbv zeta. repeat (split; [reflexivity|]).
  eexists. split; [vm_compute; reflexivity|]. split; [reflexivity|discriminate].
Qed.

Lemma daysInMonth_le_31 y m : daysInMonth y m <= 31.
Proof.
  unfold daysInMonth. pose proof (leapOfYear_cases y).
  repeat match goal with |- context [if ?c then _ else _] => destruct c end; lia.
Qed.

Lemma parseDateOnly_civil d ys ms ds :
  matchIsoDate d = Some (ys, ms, ds) ->
  validCivil (parseInt ys) (parseInt ms) (parseInt ds) = true ->
  Events.parseDateOnly d
  = Some (MakeDay (parseInt ys) (parseInt ms - 1) (parseInt ds) * msPerDay).
Proof.
  intros H V. unfold Events.parseDateOnly. rewrite H.
  pose proof (daysInMonth_le_31 (parseInt ys) (parseInt ms)) as L.
  unfold validCivil in V. rewrite !andb_true_iff in V.
  destruct V as [[[V1 V2] V3] V4].
  apply Z.leb_le in V1, V2, V3, V4.
  replace ((1 <=? parseInt ms) && (parseInt ms <=? 12) && (1 <=? parseInt ds)
           && (parseInt ds <=? 31)) with true.
  - unfold MakeDate. f_equal. lia.
  - symmetry. rewrite !andb_true_iff. repeat split; apply Z.leb_le; lia.
Qed.

(** On a host whose offset from UTC never changes, the end of an all-day
    event is the day after its date. *)
Lemma all_day_end_constant_offset (z : Zone) (c : Z) (d ys ms ds : string) :
  (forall t, tzaAtUTC z t = c) -> (forall t, tzaAtLocal z t = c) ->
  matchIsoDate d = Some (ys, ms, ds) ->
  validCivil (parseInt ys) (parseInt ms) (parseInt ds) = true ->
  Events.allDayEnd z d
  = Some (toISODate
            ((MakeDay (parseInt ys) (parseInt ms - 1) (parseInt ds) + 1) * msPerDay)).
Proof.
  intros Hu Hl H V. unfold Events.allDayEnd.
  rewrite (parseDateOnly_civil _ _ _ _ H V).
  set (t := MakeDay (parseInt ys) (parseInt ms - 1) (parseInt ds) * msPerDay).
  do 2 f_equal.
  unfold setDate, getDate, LocalTime, UTC. rewrite Hu, Hl.
  rewrite MakeDay_of_fields. unfold MakeDate, Day, TimeWithinDay.
  pose proof (Z.div_mod (t + c) msPerDay ltac:(discriminate)) as E.
  subst t. lia.
Qed.

(** C8.  An all-day create request on a host in US Pacific time, for the
    day on which daylight time starts: the date is read as UTC midnight,
    which is 16:00 of the day before in local time; one local day later it
    is 16:00 daylight time, 23:00 UTC of the same date, and the end date is
    the date itself.  The date of the example, 15 March 2026, gets the next
    day on the same host, and the day of the change gets it on a UTC host. *)
Theorem all_day_end_on_dst_change :
  Events.allDayEnd zonePacific "2026-03-08" = Some "2026-03-08" /\
  (exists ev,
      Events.POST zonePacific false true (Some "token")
        (createRequest "2026-03-08" None None true)
      = Events.Submit "primary" ev /\
      Events.g_date (Events.start ev) = Some "2026-03-08" /\
      Events.g_date (Events.end_ ev) = Some "2026-03-08") /\
  Events.allDayEnd zonePacific "2026-03-15" = Some "2026-03-16" /\
  Events.allDayEnd zoneUTC "2026-03-08" = Some "2026-03-09".
Proof.
  repeat split; try (vm_compute; reflexivity).
  eexists. split; [vm_compute; reflexivity|]. split; reflexivity.
Qed.

(** ** The chat handler *)

Lemma concat_skips_nil {A B} (f : A -> list B) (keep : A -> bool) (l : list A) :
  (forall a, In a l -> keep a = false -> f a = []) ->
  List.concat (map f l) = List.concat (map f (filter keep l)).
Proof.
  induction l as [|a l IH]; intros H; [reflexivity|].
  cbn [map List.concat filter].
  rewrite IH by (intros; apply H; [now right | assumption]).
  destruct (keep a) eqn:K.
  - reflexivity.
  - rewrite (H a (or_introl eq_refl) K). reflexivity.
Qed.

Section ChatProperties.

Variable localeCompare : string -> string -> Z.
Variable Date_parse : string -> option Z.
Variable toLocaleTimeString : string -> string.
Variable JSON_parse : string -> Parsed.
Variable fetchEvents : CalendarInfo -> string -> string -> string -> FetchOutcome.
Variable rangeDescriptionOf : string -> string.
Variable formatEventsMessage : list CalendarEvent -> string -> bool -> option string.
Variable formatEventsSpeech : list CalendarEvent -> string -> option string.

(** *** Sorting by start *)

Lemma insertSorted_perm a l :
  Permutation (insertSorted localeCompare a l) (a :: l).
Proof.
  induction l as [|b l IH]; cbn [insertSorted]; [reflexivity|].
  destruct (localeCompare (start a) (start b) <=? 0); [reflexivity|].
  rewrite IH. apply perm_swap.
Qed.

Lemma sortByStart_perm l : Permutation (sortByStart localeCompare l) l.
Proof.
  induction l as [|a l IH]; cbn [sortByStart fold_right]; [reflexivity|].
  fold (sortByStart localeCompare l).
  rewrite insertSorted_perm. now constructor.
Qed.

Section Consistent.

(** [localeCompare] is a consistent comparison: any two texts are
    comparable, and the order is transitive. *)
Hypothesis compare_total :
  forall a b, localeCompare a b <= 0 \/ localeCompare b a <= 0.
Hypothesis compare_trans :
  forall a b c, localeCompare a b <= 0 -> localeCompare b c <= 0 ->
                localeCompare a c <= 0.

Lemma insertSorted_sorted a l :
  StronglySorted (startsInOrder localeCompare) l ->
  StronglySorted (startsInOrder localeCompare) (insertSorted localeCompare a l).
Proof.
  induction 1 as [|b l Hs IH Hb]; cbn [insertSorted].
  - repeat constructor.
  - destruct (Z.leb_spec (localeCompare (start a) (start b)) 0) as [L|G].
    + constructor; [now constructor|].
      constructor; [exact L|].
      rewrite Forall_forall in *. intros c Hc.
      unfold startsInOrder in *. eauto.
    + constructor; [exact IH|].
      rewrite Forall_forall in *. intros c Hc.
      apply (Permutation_in _ (insertSorted_perm a l)) in Hc.
      destruct Hc as [<- | Hc]; [|auto].
      unfold startsInOrder. destruct (compare_total (start b) (start a)); lia.
Qed.

Lemma sortByStart_sorted l :
  StronglySorted (startsInOrder localeCompare) (sortByStart localeCompare l).
Proof.
  induction l as [|a l IH]; cbn [sortByStart fold_right]; [constructor|].
  now apply insertSorted_sorted.
Qed.

(** C6.  A read over several calendars.  A calendar whose request
    throws or is answered with an error status gives no events and the
    read goes on: the events of the read are those that the calendars
    which answered returned, one calendar after the other, sorted in
    ascending order of [start]; the reply is what it would be had every
    failed request been answered with an empty list.  It is never an
    error: it carries the events, unless one of the two renderings
    throws, which is answered with the reply of the [catch]. *)
Theorem read_merges_calendars (h : Host) (rangeType : string)
        (activeCalendars : list CalendarInfo) :
  let r := calculateDateRange h rangeType in
  let outcome cal := fetchEvents cal (timeMin r) (timeMax r) "2500" in
  let answered cal :=
    match outcome cal with FetchOk _ => true | _ => false end in
  let returned cal :=
    match outcome cal with
    | FetchOk (Some items) => map (eventOfItem cal true) items
    | _ => []
    end in
  let withoutFailures cal tMin tMax maxResults :=
    match fetchEvents cal tMin tMax maxResults with
    | FetchOk items => FetchOk items
    | _ => FetchOk (Some [])
    end in
  let events := readEvents localeCompare fetchEvents h rangeType activeCalendars in
  let reply :=
    readReply localeCompare fetchEvents rangeDescriptionOf
              formatEventsMessage formatEventsSpeech h rangeType activeCalendars in
  let merged :=
    List.concat (map returned (filter answered (calendarsToSearch activeCalendars))) in
  events = sortByStart localeCompare merged /\
  Permutation events merged /\
  StronglySorted (startsInOrder localeCompare) events /\
  reply = readReply localeCompare withoutFailures rangeDescriptionOf
                    formatEventsMessage formatEventsSpeech h rangeType activeCalendars /\
  (forall status error, reply <> ErrorReply status error) /\
  match formatEventsMessage events (rangeDescriptionOf rangeType)
          (1 <? Z.of_nat (List.length (calendarsToSearch activeCalendars))),
        formatEventsSpeech events (rangeDescriptionOf rangeType) with
  | Some eventsMessage, Some eventsSpeech =>
      exists body,
        reply = JsonReply body /\ r_events body = Some events /\
        r_message body = eventsMessage /\ r_speech body = Some eventsSpeech /\
        r_action body = "none"
  | _, _ => reply = troubleReply
  end.
Proof.
  intros r outcome answered returned withoutFailures events reply merged.
  assert (E : events = sortByStart localeCompare merged).
  { subst events merged. unfold readEvents. fold r. fold outcome. f_equal.
    rewrite (concat_skips_nil
               (fun cal => fetchCalendar true cal (outcome cal)) answered).
    - reflexivity.
    - intros cal _. subst answered. cbv beta.
      destruct (outcome cal); [reflexivity | reflexivity | discriminate]. }
  assert (W : readEvents localeCompare withoutFailures h rangeType activeCalendars
              = events).
  { subst events withoutFailures. unfold readEvents. do 2 f_equal.
    apply map_ext. intros cal.
    destruct (fetchEvents cal _ _ _) as [| |[items|]]; reflexivity. }
  split; [exact E|]. split; [rewrite E; apply sortByStart_perm|].
  split; [rewrite E; apply sortByStart_sorted|].
  split; [subst reply; unfold readReply; now rewrite W|].
  subst reply. unfold readReply. fold events.
  cbv zeta.
  destruct (formatEventsMessage events (rangeDescriptionOf rangeType)
              (1 <? Z.of_nat (List.length (calendarsToSearch activeCalendars))))
    as [m|];
    [destruct (formatEventsSpeech events (rangeDescriptionOf rangeType)) as [sp|]|].
  - split; [discriminate|]. eexists. split; [reflexivity|]. repeat split.
  - split; [discriminate | reflexivity].
  - split; [discriminate|].
    destruct (formatEventsSpeech events (rangeDescriptionOf rangeType)); reflexivity.
Qed.

End Consistent.

(** *** The delete search *)

Lemma filter_incl {A} (p : A -> bool) (l : list A) : incl (filter p l) l.
Proof. intros a H. apply filter_In in H. exact (proj1 H). Qed.

Lemma filter_length_le' {A} (p : A -> bool) (l : list A) :
  (List.length (filter p l) <= List.length l)%nat.
Proof.
  induction l as [|a l IH]; cbn [filter List.length]; [lia|].
  destruct (p a); cbn [List.length]; lia.
Qed.

Lemma stageSearchTerm_incl ds l : incl (stageSearchTerm ds l) l.
Proof.
  unfold stageSearchTerm, bySearchTerm.
  destruct (truthy _); [apply filter_incl | apply incl_refl].
Qed.

Lemma stageTime_incl z ds l : incl (stageTime Date_parse z ds l) l.
Proof.
  unfold stageTime, byTime.
  destruct (truthy _); [apply filter_incl | apply incl_refl].
Qed.

Lemma stageTimeRange_incl z ds l : incl (stageTimeRange Date_parse z ds l) l.
Proof.
  unfold stageTimeRange, byTimeRange.
  destruct (_ && _); [apply filter_incl | apply incl_refl].
Qed.

Lemma timeMatches_inv z t e :
  timeMatches Date_parse z t e = true ->
  isAllDay e = false /\
  exists tv fh fm,
    Date_parse (start e) = Some tv /\ hourMinute t = (Some fh, Some fm) /\
    getHours z tv = fh /\ Z.abs (getMinutes z tv - fm) <= 30.
Proof.
  unfold timeMatches. destruct (hourMinute t) as [fh fm].
  destruct (isAllDay e); [discriminate|].
  destruct (Date_parse (start e)) as [tv|]; [|discriminate].
  destruct fh as [fh|]; [|discriminate]. destruct fm as [fm|]; [|discriminate].
  rewrite andb_true_iff, Z.eqb_eq, Z.leb_le. intros [H1 H2].
  split; [reflexivity|]. exists tv, fh, fm. auto.
Qed.

Lemma rangeMatches_inv z a b e :
  rangeMatches Date_parse z a b e = true ->
  isAllDay e = false /\
  exists tv lo hi,
    Date_parse (start e) = Some tv /\
    minutesOfDay (hourMinute a) = Some lo /\
    minutesOfDay (hourMinute b) = Some hi /\
    lo <= getHours z tv * 60 + getMinutes z tv <= hi.
Proof.
  unfold rangeMatches.
  destruct (isAllDay e); [discriminate|].
  destruct (Date_parse (start e)) as [tv|]; [|discriminate].
  destruct (minutesOfDay (hourMinute a)) as [lo|]; [|discriminate].
  destruct (minutesOfDay (hourMinute b)) as [hi|]; [|discriminate].
  rewrite andb_true_iff, !Z.leb_le. intros [H1 H2].
  split; [reflexivity|]. exists tv, lo, hi. auto.
Qed.

Lemma truthy_some s : s <> "" -> truthy (Some s) = true.
Proof. destruct s; [congruence | reflexivity]. Qed.

(** The filter cascade on a host whose zone is [z]: each stage keeps a
    part of what it is given, and an event that survives the three
    stages passed every filter whose field is present.  The hour and the
    minute of an event are those of [getHours] and [getMinutes], in the
    zone of the host; the times of the search are read by [Number]. *)
Lemma cascade_keeps_matching (z : Zone) (ds : DeleteSearch)
        (events : list CalendarEvent) :
  let byTerm := stageSearchTerm ds events in
  let byClock := stageTime Date_parse z ds byTerm in
  let byRange := stageTimeRange Date_parse z ds byClock in
  filterCascade Date_parse z ds events = byRange /\
  incl byTerm events /\ incl byClock byTerm /\ incl byRange byClock /\
  forall e, In e byRange ->
    In e events /\
    (forall term, searchTerm ds = Some term -> term <> "" ->
       includes (toLowerCase (title e)) (toLowerCase term) = true) /\
    (forall t, time ds = Some t -> t <> "" ->
       isAllDay e = false /\
       exists tv fh fm,
         Date_parse (start e) = Some tv /\ hourMinute t = (Some fh, Some fm) /\
         getHours z tv = fh /\ Z.abs (getMinutes z tv - fm) <= 30) /\
    (forall a b, timeRangeStart ds = Some a -> timeRangeEnd ds = Some b ->
       a <> "" -> b <> "" ->
       isAllDay e = false /\
       exists tv lo hi,
         Date_parse (start e) = Some tv /\
         minutesOfDay (hourMinute a) = Some lo /\
         minutesOfDay (hourMinute b) = Some hi /\
         lo <= getHours z tv * 60 + getMinutes z tv <= hi).
Proof using Date_parse.
  clear localeCompare toLocaleTimeString JSON_parse fetchEvents
    rangeDescriptionOf formatEventsMessage formatEventsSpeech.
  intros byTerm byClock byRange.
  pose proof (stageSearchTerm_incl ds events) as I1.
  pose proof (stageTime_incl z ds byTerm) as I2.
  pose proof (stageTimeRange_incl z ds byClock) as I3.
  fold byTerm in I1. fold byClock in I2. fold byRange in I3.
  split; [reflexivity|]. do 3 (split; [assumption|]).
  intros e He.
  assert (H2 : In e byClock) by auto.
  assert (H1 : In e byTerm) by auto.
  split; [auto|]. split; [|split].
  - intros term E N. unfold byTerm, stageSearchTerm in H1.
    rewrite E, (truthy_some _ N) in H1. cbn [orEmpty] in H1.
    unfold bySearchTerm in H1. apply filter_In in H1. tauto.
  - intros t E N. unfold byClock, stageTime in H2.
    rewrite E, (truthy_some _ N) in H2. cbn [orEmpty] in H2.
    unfold byTime in H2. apply filter_In in H2.
    apply timeMatches_inv. tauto.
  - intros a b Ea Eb Na Nb. unfold byRange, stageTimeRange in He.
    rewrite Ea, Eb, (truthy_some _ Na), (truthy_some _ Nb) in He.
    cbn [orEmpty andb] in He.
    unfold byTimeRange in He. apply filter_In in He.
    apply rangeMatches_inv. tauto.
Qed.


(** C7.  What the handler does with the text of the completion.  A text
    that is not empty and that [JSON.parse] rejects gets the reply that
    asks to rephrase, with [message] and [speech] set, the action "none"
    and nothing else.  A completion without text, or with the empty text,
    is not parsed: it is answered with the error 500 "No response from
    AI".  A text that [JSON.parse] reads as [null] is answered with the
    error 500 "Failed to process request", and one that it reads as a
    value without [action] is passed back. *)
Theorem unparseable_completion_asks_to_rephrase (h : Host) (req : Request)
        (content : option string) :
  authError req = false -> sessionUser req = true ->
  truthy (req_message req) = true -> truthy (openaiKey req) = true ->
  completion req = CompletionOk content ->
  let reply :=
    Chat.POST localeCompare Date_parse toLocaleTimeString JSON_parse fetchEvents
              rangeDescriptionOf formatEventsMessage formatEventsSpeech h req in
  (content = None \/ content = Some "" ->
   reply = ErrorReply 500 "No response from AI") /\
  (forall text, content = Some text -> text <> "" ->
     (JSON_parse text = SyntaxError ->
      reply
      = JsonReply
          {| r_message := "I had trouble understanding that. Could you rephrase?";
             r_speech := Some "I had trouble understanding that. Could you rephrase?";
             r_action := "none"; r_appointment := None; r_readRange := None;
             r_deleteSearch := None; r_events := None; r_deleteEvent := None;
             r_multipleEvents := None |}) /\
     (JSON_parse text = JsonNull ->
      reply = ErrorReply 500 "Failed to process request") /\
     (JSON_parse text = JsonNoAction -> reply = ValueReply)).
Proof.
  intros A S M K C reply. subst reply. unfold Chat.POST, respond.
  rewrite A, S, M, K, C. cbn [orb negb]. split.
  - intros [-> | ->]; reflexivity.
  - intros text -> N. rewrite (truthy_some _ N). cbn [negb orEmpty].
    repeat split; intros ->; reflexivity.
Qed.

End ChatProperties.

(** *** The example services *)

Lemma codeUnitCompare_total a b :
  codeUnitCompare a b <= 0 \/ codeUnitCompare b a <= 0.
Proof.
  unfold codeUnitCompare. rewrite (String.compare_antisym b a).
  destruct (String.compare a b); cbn [CompOpp]; lia.
Qed.

Lemma string_compare_trans a :
  forall b c, String.compare a b <> Gt -> String.compare b c <> Gt ->
              String.compare a c <> Gt.
Proof.
  induction a as [|x a IH]; intros [|y b] [|w c]; cbn; try congruence.
  unfold Ascii.compare.
  destruct (N.compare_spec (N_of_ascii x) (N_of_ascii y)) as [E1|L1|G1],
           (N.compare_spec (N_of_ascii y) (N_of_ascii w)) as [E2|L2|G2],
           (N.compare_spec (N_of_ascii x) (N_of_ascii w)) as [E3|L3|G3];
    try congruence; try lia.
  apply IH.
Qed.

Lemma codeUnitCompare_trans a b c :
  codeUnitCompare a b <= 0 -> codeUnitCompare b c <= 0 -> codeUnitCompare a c <= 0.
Proof.
  unfold codeUnitCompare. intros H1 H2.
  pose proof (string_compare_trans a b c) as T.
  destruct (String.compare a b), (String.compare b c), (String.compare a c);
    try lia; exfalso; apply T; congruence.
Qed.

Lemma read_merges_calendars_witness :
  let events :=
    readEvents codeUnitCompare fetchFromTable hostPacific "tomorrow"
               [workCalendar; homeCalendar; sharedCalendar] in
  fetchFromTable sharedCalendar "2026-03-19T00:00:00-07:00"
                 "2026-03-19T23:59:59-07:00" "2500" = FetchNotOk /\
  map id events = ["w3"; "h2"; "h1"; "w1"; "w2"] /\
  StronglySorted (startsInOrder codeUnitCompare) events /\
  exists body,
    readReply codeUnitCompare fetchFromTable (fun s => s) countMessage countSpeech
              hostPacific "tomorrow" [workCalendar; homeCalendar; sharedCalendar]
    = JsonReply body
    /\ r_events body = Some events /\ r_action body = "none".
Proof.
  destruct (read_merges_calendars codeUnitCompare fetchFromTable (fun s => s)
              countMessage countSpeech codeUnitCompare_total codeUnitCompare_trans
              hostPacific "tomorrow" [workCalendar; homeCalendar; sharedCalendar])
    as (_ & _ & S & _ & _ & body & R & Ev & _ & _ & A).
  cbv zeta. split; [reflexivity|]. split; [vm_compute; reflexivity|].
  split; [exact S|]. exists body. repeat split; assumption.
Defined.

Example delete_single_match :
  Chat.POST codeUnitCompare parseStampOrDay twelveHourClock parseFromTable
            fetchFromTable (fun s => s) countMessage countSpeech hostPacific
            (chatRequest (CompletionOk (Some "{delete the dentist}")))
  = JsonReply
      {| r_message := "Looking...";
         r_speech := Some "Delete Dentist checkup at 2:15 PM?";
         r_action := "delete"; r_appointment := None; r_readRange := None;
         r_deleteSearch := None; r_events := None;
         r_deleteEvent :=
           Some {| id := "w2"; title := "Dentist checkup";
                   start := "2026-03-19T14:15:00-07:00";
                   end_ := "2026-03-19T14:15:00-07:00";
                   location := None; calendarId := Some "work";
                   calendarName := Some "Work"; calendarColor := None |};
         r_multipleEvents := None |}.
Proof. vm_compute. reflexivity. Qed.

(** C5.  The time filters compare the hour of the event in the zone of
    the host, where every other path of the route renders times in Los
    Angeles.  A search for the time 14:00, among an appointment at 14:15
    in Los Angeles and one at 07:15 in Los Angeles (14:15 UTC): on a host
    in Los Angeles the first is kept, on a host on UTC the second, and the
    same with the range from 12:00 to 17:00.  The delete request of the
    example, which on a host in Los Angeles finds the dentist checkup of
    14:15, finds nothing on a host on UTC. *)
Theorem time_filter_reads_the_hour_of_the_host :
  let checkup :=
    {| id := "w2"; title := "Dentist checkup";
       start := "2026-03-19T14:15:00-07:00"; end_ := "2026-03-19T15:00:00-07:00";
       location := None; calendarId := Some "work";
       calendarName := Some "Work"; calendarColor := None |} in
  let early :=
    {| id := "w0"; title := "Dentist, the early slot";
       start := "2026-03-19T07:15:00-07:00"; end_ := "2026-03-19T08:00:00-07:00";
       location := None; calendarId := Some "work";
       calendarName := Some "Work"; calendarColor := None |} in
  let atTwo :=
    {| searchTerm := Some "dentist"; searchDate := None; time := Some "14:00";
       timeRangeStart := None; timeRangeEnd := None;
       needsClarification := false; clarificationQuestion := None |} in
  let afternoon :=
    {| searchTerm := Some "dentist"; searchDate := None; time := None;
       timeRangeStart := Some "12:00"; timeRangeEnd := Some "17:00";
       needsClarification := false; clarificationQuestion := None |} in
  (exists tv,
      parseStampOrDay (start checkup) = Some tv /\
      getHours zonePacific tv = 14 /\ getMinutes zonePacific tv = 15 /\
      getHours zoneUTC tv = 21 /\ getMinutes zoneUTC tv = 15) /\
  (exists tv,
      parseStampOrDay (start early) = Some tv /\
      getHours zonePacific tv = 7 /\ getMinutes zonePacific tv = 15 /\
      getHours zoneUTC tv = 14 /\ getMinutes zoneUTC tv = 15) /\
  filterCascade parseStampOrDay zonePacific atTwo [checkup; early] = [checkup] /\
  filterCascade parseStampOrDay zoneUTC atTwo [checkup; early] = [early] /\
  filterCascade parseStampOrDay zonePacific afternoon [checkup; early] = [checkup] /\
  filterCascade parseStampOrDay zoneUTC afternoon [checkup; early] = [early] /\
  (exists body,
      Chat.POST codeUnitCompare parseStampOrDay twelveHourClock parseFromTable
                fetchFromTable (fun s => s) countMessage countSpeech hostPacific
                (chatRequest (CompletionOk (Some "{delete the dentist}")))
      = JsonReply body /\
      r_action body = "delete" /\ option_map id (r_deleteEvent body) = Some "w2") /\
  Chat.POST codeUnitCompare parseStampOrDay twelveHourClock parseFromTable
            fetchFromTable (fun s => s) countMessage countSpeech hostUTC
            (chatRequest (CompletionOk (Some "{delete the dentist}")))
  = noMatchReply.
Proof.
  cbv zeta.
  split; [eexists; split; [vm_compute; reflexivity|]; repeat split; vm_compute; reflexivity|].
  split; [eexists; split; [vm_compute; reflexivity|]; repeat split; vm_compute; reflexivity|].
  do 4 (split; [vm_compute; reflexivity|]).
  split; [|vm_compute; reflexivity].
  eexists. split; [vm_compute; reflexivity|]. split; reflexivity.
Qed.

Lemma cascade_keeps_matching_witness :
  Forall
    (fun e =>
       includes (toLowerCase (title e)) "dentist" = true /\
       isAllDay e = false /\
       exists tv, parseStampOrDay (start e) = Some tv /\
                  getHours zonePacific tv = 14 /\
                  Z.abs (getMinutes zonePacific tv - 0) <= 30 /\
                  720 <= getHours zonePacific tv * 60 + getMinutes zonePacific tv <= 1020)
    (filterCascade parseStampOrDay zonePacific searchAfternoon
       (fetchedForDelete fetchFromTable hostPacific None threeCalendars)).
Proof.
  apply Forall_forall. intros e He.
  destruct (cascade_keeps_matching parseStampOrDay zonePacific searchAfternoon
              (fetchedForDelete fetchFromTable hostPacific None threeCalendars))
    as (E & _ & _ & _ & K).
  rewrite E in He. destruct (K e He) as (_ & T & C & R).
  split; [apply (T "dentist" eq_refl); discriminate|].
  destruct (C "14:00" eq_refl ltac:(discriminate))
    as (A & tv & fh & fm & P & HM & Hh & Hmin).
  destruct (R "12:00" "17:00" eq_refl eq_refl ltac:(discriminate) ltac:(discriminate))
    as (_ & tv' & lo & hi & P' & Lo & Hi & Rg).
  split; [exact A|]. exists tv.
  rewrite P in P'. injection P' as <-.
  vm_compute in HM. injection HM as <- <-.
  vm_compute in Lo. injection Lo as <-. vm_compute in Hi. injection Hi as <-.
  exact (conj P (conj Hh (conj Hmin Rg))).
Defined.


Example delete_several_matches :
  exists body,
    deleteReply parseStampOrDay twelveHourClock fetchFromTable hostPacific
      (Some "token") deleteDentist searchByTitle threeCalendars
    = JsonReply body /\
    r_action body = "delete_multiple" /\
    option_map (map id) (r_multipleEvents body) = Some ["w2"; "h1"; "h2"] /\
    r_message body
    = "I found 3 appointments matching your request. Select which ones to delete:".
Proof. eexists. repeat split; vm_compute; reflexivity. Qed.

Lemma unparseable_completion_asks_to_rephrase_witness :
  Chat.POST codeUnitCompare parseStampOrDay twelveHourClock parseFromTable
            fetchFromTable (fun s => s) countMessage countSpeech hostPacific
            (chatRequest (CompletionOk (Some "{action: rea")))
  = JsonReply
      {| r_message := "I had trouble understanding that. Could you rephrase?";
         r_speech := Some "I had trouble understanding that. Could you rephrase?";
         r_action := "none"; r_appointment := None; r_readRange := None;
         r_deleteSearch := None; r_events := None; r_deleteEvent := None;
         r_multipleEvents := None |} /\
  Chat.POST codeUnitCompare parseStampOrDay twelveHourClock parseFromTable
            fetchFromTable (fun s => s) countMessage countSpeech hostPacific
            (chatRequest (CompletionOk None))
  = ErrorReply 500 "No response from AI".
Proof.
  split.
  - destruct (unparseable_completion_asks_to_rephrase codeUnitCompare parseStampOrDay
                twelveHourClock parseFromTable fetchFromTable (fun s => s)
                countMessage countSpeech hostPacific
                (chatRequest (CompletionOk (Some "{action: rea")))
                (Some "{action: rea") eq_refl eq_refl eq_refl eq_refl eq_refl)
      as [_ H].
    destruct (H "{action: rea" eq_refl ltac:(discriminate)) as [R _].
    exact (R eq_refl).
  - destruct (unparseable_completion_asks_to_rephrase codeUnitCompare parseStampOrDay
                twelveHourClock parseFromTable fetchFromTable (fun s => s)
                countMessage countSpeech hostPacific
                (chatRequest (CompletionOk None))
                None eq_refl eq_refl eq_refl eq_refl eq_refl) as [H _].
    exact (H (or_introl eq_refl)).
Defined.

(** C7 does not extend to every completion that has not the expected
    shape.  The empty text is no JSON, and the handler answers it with an
    error 500; [null] and [{}] are JSON of another shape: the first is
    answered with an error 500, the second is passed back. *)
Lemma completions_without_rephrase :
  let replyTo text :=
    Chat.POST codeUnitCompare parseStampOrDay twelveHourClock parseFromTable
              fetchFromTable (fun s => s) countMessage countSpeech hostPacific
              (chatRequest (CompletionOk (Some text))) in
  (parseFromTable "" = SyntaxError /\
   replyTo "" = ErrorReply 500 "No response from AI" /\
   replyTo "" <> rephraseReply) /\
  (parseFromTable "null" = JsonNull /\
   replyTo "null" = ErrorReply 500 "Failed to process request" /\
   replyTo "null" <> rephraseReply) /\
  (parseFromTable "{}" = JsonNoAction /\
   replyTo "{}" = ValueReply /\
   replyTo "{}" <> rephraseReply).
Proof. cbv zeta. repeat split; discriminate. Qed.

(** ** The speech route *)

Lemma spanNot_length stop s :
  (List.length (fst (Speech.spanNot stop s)) + List.length (snd (Speech.spanNot stop s))
   = List.length s)%nat.
Proof.
  induction s as [|c s IH]; cbn [Speech.spanNot]; [reflexivity|].
  destruct (c =? stop); [reflexivity|].
  destruct (Speech.spanNot stop s) as [run rest]. cbn [fst snd List.length] in *. lia.
Qed.

Lemma matchLink_shorter s g r :
  Speech.matchLink s = Some (g, r) -> (List.length r < List.length s)%nat.
Proof.
  unfold Speech.matchLink. destruct s as [|c s]; [discriminate|].
  destruct (c =? Speech.LBRACKET); [|discriminate].
  pose proof (spanNot_length Speech.RBRACKET s) as L1.
  destruct (Speech.spanNot Speech.RBRACKET s) as [label rest1].
  destruct rest1 as [|c1 [|open r2]]; try discriminate.
  destruct label; [discriminate|].
  destruct (open =? Speech.LPAREN); [|discriminate].
  pose proof (spanNot_length Speech.RPAREN r2) as L2.
  destruct (Speech.spanNot Speech.RPAREN r2) as [target rest2].
  destruct rest2 as [|c3 r3]; [discriminate|].
  destruct target; [discriminate|].
  intros [= <- <-]. cbn [fst snd List.length] in *. lia.
Qed.

Lemma matchBold_shorter s g r :
  Speech.matchBold s = Some (g, r) -> (List.length r < List.length s)%nat.
Proof.
  unfold Speech.matchBold. destruct s as [|c1 [|c2 s]]; try discriminate.
  destruct ((c1 =? Speech.STAR) && (c2 =? Speech.STAR)); [|discriminate].
  pose proof (spanNot_length Speech.STAR s) as L.
  destruct (Speech.spanNot Speech.STAR s) as [inner rest].
  destruct rest as [|c3 [|c4 r2]]; try discriminate.
  destruct inner; [discriminate|].
  destruct (c4 =? Speech.STAR); [|discriminate].
  intros [= <- <-]. cbn [fst snd List.length] in *. lia.
Qed.

(** The replacement has enough fuel: more fuel than the length of the
    text changes nothing. *)
Lemma replaceGroup_enough_fuel matchAt :
  (forall s g r, matchAt s = Some (g, r) -> (List.length r < List.length s)%nat) ->
  forall fuel s, (List.length s < fuel)%nat ->
    Speech.replaceGroup matchAt (S fuel) s = Speech.replaceGroup matchAt fuel s.
Proof.
  intros Hm. induction fuel as [|fuel IH]; intros s L; [lia|].
  cbn [Speech.replaceGroup].
  destruct (matchAt s) as [[g r]|] eqn:E.
  - f_equal. apply IH. apply Hm in E. lia.
  - destruct s as [|c s]; [reflexivity|]. f_equal. apply IH. cbn in L. lia.
Qed.

Lemma stripLinks_fuel s extra :
  Speech.replaceGroup Speech.matchLink (S (List.length s) + extra) s
  = Speech.stripLinks s.
Proof.
  unfold Speech.stripLinks. induction extra as [|k IH].
  - now rewrite Nat.add_0_r.
  - rewrite <- IH. rewrite Nat.add_succ_r.
    apply (replaceGroup_enough_fuel _ matchLink_shorter). lia.
Qed.

Lemma stripBold_fuel s extra :
  Speech.replaceGroup Speech.matchBold (S (List.length s) + extra) s
  = Speech.stripBold s.
Proof.
  unfold Speech.stripBold. induction extra as [|k IH].
  - now rewrite Nat.add_0_r.
  - rewrite <- IH. rewrite Nat.add_succ_r.
    apply (replaceGroup_enough_fuel _ matchBold_shorter). lia.
Qed.

Example sanitised_text :
  Speech.cleanTextOf
    (Speech.ofAscii "See [the docs](http://x.y) and **bold**" ++ [10; 10; 0x2026]
     ++ Speech.ofAscii " done ")%list
  = Speech.ofAscii "See the docs and bold.  done".
Proof. reflexivity. Qed.

(** The comment above the clean-up announces the removal of emojis; the
    character class of the source holds none, and a check mark goes to the
    synthesis engine as it came. *)
Example check_mark_is_spoken :
  Speech.cleanTextOf [0x2705] = [0x2705] /\
  Speech.POST (Some {| Speech.text := Speech.Text [0x2705];
                       Speech.voice := None; Speech.speed := None |})
  = Speech.Synthesize [0x2705] (Speech.ofAscii "nova") (JSNumber.Finite 1).
Proof. split; reflexivity. Qed.

(** C10.  A request whose [text] is missing, is not a string
    or is the empty string is rejected with "Text is required"; a request
    whose text is not empty but is empty after the clean-up of the handler
    (the characters of its class removed, links and bold reduced to their
    text, runs of line breaks replaced by ". ", blanks trimmed) is
    rejected with "No speakable text".  Both are answered with status 400,
    and the synthesis engine is not called. *)
Theorem unspeakable_text_is_rejected (req : Speech.SpeechRequest) :
  (Speech.text req = Speech.Missing \/ Speech.text req = Speech.NotAString \/ Speech.text req = Speech.Text [] ->
   Speech.POST (Some req) = Speech.Rejected 400 "Text is required") /\
  (forall t, Speech.text req = Speech.Text t -> t <> [] -> Speech.cleanTextOf t = [] ->
   Speech.POST (Some req) = Speech.Rejected 400 "No speakable text").
Proof.
  split.
  - intros [H | [H | H]]; unfold Speech.POST; rewrite H; reflexivity.
  - intros t H N C. unfold Speech.POST. rewrite H.
    destruct t as [|c t]; [congruence|]. rewrite C. reflexivity.
Qed.

Lemma unspeakable_text_is_rejected_witness :
  Speech.cleanTextOf [32; 0x2026; 9; 0x011F; 10] = [46] /\
  Speech.cleanTextOf [32; 0x2026; 9; 0x011F] = [] /\
  Speech.POST (Some {| Speech.text := Speech.Text [32; 0x2026; 9; 0x011F];
                       Speech.voice := None; Speech.speed := None |})
  = Speech.Rejected 400 "No speakable text" /\
  Speech.POST (Some {| Speech.text := Speech.NotAString;
                       Speech.voice := None; Speech.speed := None |})
  = Speech.Rejected 400 "Text is required".
Proof.
  split; [reflexivity|]. split; [reflexivity|].
  destruct (unspeakable_text_is_rejected
              {| Speech.text := Speech.Text [32; 0x2026; 9; 0x011F];
                 Speech.voice := None; Speech.speed := None |}) as [_ H].
  destruct (unspeakable_text_is_rejected
              {| Speech.text := Speech.NotAString; Speech.voice := None; Speech.speed := None |}) as [H' _].
  split.
  - apply (H [32; 0x2026; 9; 0x011F] eq_refl); [discriminate | reflexivity].
  - apply H'. right. left. reflexivity.
Defined.

(** C10 does not extend to the empty text: sanitised it is empty, and
    the error is "Text is required". *)
Lemma empty_text_is_required :
  let reply := Speech.POST (Some {| Speech.text := Speech.Text []; Speech.voice := None; Speech.speed := None |}) in
  Speech.cleanTextOf [] = [] /\
  reply = Speech.Rejected 400 "Text is required" /\
  reply <> Speech.Rejected 400 "No speakable text".
Proof. cbv zeta. repeat split. discriminate. Qed.

(* ================================================================== *)
(** * Further properties *)
(* ================================================================== *)

(** ** Labels and patterns of the date range resolver *)

Lemma toLowerCase_append a b :
  toLowerCase (a ++ b) = toLowerCase a ++ toLowerCase b.
Proof. induction a as [|c a IH]; cbn; [reflexivity | now rewrite IH]. Qed.

Lemma lowerChar_digit c : isDigit c = true -> lowerChar c = c.
Proof.
  destruct c as [[] [] [] [] [] [] [] []]; try discriminate; reflexivity.
Qed.

Lemma toLowerCase_digits s : allDigits s = true -> toLowerCase s = s.
Proof.
  induction s as [|c s IH]; cbn; [reflexivity|].
  rewrite andb_true_iff. intros [C S]. now rewrite (lowerChar_digit _ C), IH.
Qed.

Lemma toLowerCase_isoDate s y m d :
  matchIsoDate s = Some (y, m, d) -> toLowerCase s = s.
Proof.
  intros H.
  destruct (matchIsoDate_shape _ _ _ _ H)
    as (c0&c1&c2&c3&c5&c6&c8&c9&->&->&->&->&Y&M&D).
  cbn [allDigits] in Y, M, D.
  repeat match goal with
         | H : (_ && _)%bool = true |- _ => apply andb_prop in H; destruct H
         end.
  cbn [toLowerCase].
  rewrite (lowerChar_digit c0), (lowerChar_digit c1), (lowerChar_digit c2),
    (lowerChar_digit c3), (lowerChar_digit c5), (lowerChar_digit c6),
    (lowerChar_digit c8), (lowerChar_digit c9) by assumption.
  reflexivity.
Qed.

Lemma prefix_split p :
  forall s, prefix p s = true ->
            s = p ++ substring (String.length p) (String.length s - String.length p) s.
Proof.
  induction p as [|c p IH]; intros s H.
  - cbn. rewrite Nat.sub_0_r.
    clear H. induction s as [|a s IHs]; cbn; [reflexivity | now rewrite <- IHs].
  - destruct s as [|a s]; [discriminate|].
    pose proof (prefix_head _ _ _ _ H) as ->.
    cbn in H. destruct (ascii_dec c c) as [_|N]; [|congruence].
    cbn. f_equal. now apply IH.
Qed.

Lemma toLowerCase_weekOf s y m d :
  matchWeekOf s = Some (y, m, d) -> toLowerCase s = s.
Proof.
  unfold matchWeekOf. destruct (prefix "week_of:" s) eqn:P; [|discriminate].
  intros H. rewrite (prefix_split _ _ P) at 1 2.
  rewrite toLowerCase_append.
  cbn [String.length] in *. rewrite (toLowerCase_isoDate _ _ _ _ H). reflexivity.
Qed.

(** A token that lower-cases to a text matching neither pattern matches
    neither pattern itself. *)
Lemma lowered_matches_no_pattern tok L :
  toLowerCase tok = L -> matchWeekOf L = None -> matchIsoDate L = None ->
  matchWeekOf tok = None /\ matchIsoDate tok = None.
Proof.
  intros E W I. split.
  - destruct (matchWeekOf tok) as [[[y m] d]|] eqn:H; [|reflexivity].
    rewrite (toLowerCase_weekOf _ _ _ _ H) in E. congruence.
  - destruct (matchIsoDate tok) as [[[y m] d]|] eqn:H; [|reflexivity].
    rewrite (toLowerCase_isoDate _ _ _ _ H) in E. congruence.
Qed.

Lemma switchLabels_plain L :
  In L switchLabels ->
  matchWeekOf L = None /\ matchIsoDate L = None /\ toLowerCase L = L.
Proof.
  cbn. intros H.
  repeat destruct H as [<- | H]; try (repeat split; reflexivity).
  destruct H.
Qed.

(** X1.  The labels of the resolver are matched without regard to case:
    a token that lower-cases to a label gets the range of that label. *)
Theorem labels_ignore_case (h : Host) (tok L : string) :
  In L switchLabels -> toLowerCase tok = L ->
  calculateDateRange h tok = calculateDateRange h L.
Proof.
  intros HL E. destruct (switchLabels_plain L HL) as (W & I & Low).
  destruct (lowered_matches_no_pattern tok L E W I) as (W' & I').
  unfold calculateDateRange, calculateDateRangeWith. rewrite W, I, W', I', E, Low. reflexivity.
Qed.

Lemma labels_ignore_case_witness :
  calculateDateRange hostPacific "Next_Week" = calculateDateRange hostPacific "next_week".
Proof.
  apply (labels_ignore_case hostPacific "Next_Week" "next_week").
  - cbn. tauto.
  - reflexivity.
Defined.

Lemma switchDays_this_week T key :
  key = "this_week" \/ key = "this week" ->
  switchDays T key
  = (T - (if (T + 4) mod 7 =? 0 then 6 else (T + 4) mod 7 - 1),
     T - (if (T + 4) mod 7 =? 0 then 6 else (T + 4) mod 7 - 1) + 6).
Proof. intros [-> | ->]; reflexivity. Qed.

Lemma switchDays_next_week T key :
  key = "next_week" \/ key = "next week" ->
  switchDays T key
  = (T + (if (T + 4) mod 7 =? 0 then 1 else 8 - (T + 4) mod 7),
     T + (if (T + 4) mod 7 =? 0 then 1 else 8 - (T + 4) mod 7) + 6).
Proof. intros [-> | ->]; reflexivity. Qed.

Lemma switchDays_rolling T :
  switchDays T "today" = (T, T) /\
  switchDays T "yesterday" = (T - 1, T - 1) /\
  switchDays T "tomorrow" = (T + 1, T + 1) /\
  switchDays T "last_week" = (T - 7, T) /\
  switchDays T "last_month" = (T - 30, T).
Proof. repeat split. Qed.

Section Windows.

Variable h : Host.
Hypothesis midnights : MidnightsExist (zone h).

(** The range of a token that goes through the [switch], read back. *)
Lemma switch_spans tok s e :
  matchWeekOf tok = None -> matchIsoDate tok = None ->
  switchDays (laToday h) (toLowerCase tok) = (s, e) ->
  spans h tok s e.
Proof.
  intros W I D. unfold spans. cbv zeta. rewrite (switch_range h midnights tok W I).
  rewrite D. cbn [timeMin timeMax fst snd].
  rewrite (readStamp_startOfDay _ _ _ (readDay_formatDate _ midnights _) (tzOffset_cases h)).
  rewrite (readStamp_endOfDay _ _ _ (readDay_formatDate _ midnights _) (tzOffset_cases h)).
  split; reflexivity.
Qed.

End Windows.

(** X2.  "this_week" is the week from Monday to Sunday that contains
    today, whatever day today is. *)
Theorem this_week_is_monday_to_sunday (h : Host) (tok : string) :
  MidnightsExist (zone h) ->
  toLowerCase tok = "this_week" \/ toLowerCase tok = "this week" ->
  exists monday,
    spans h tok monday (monday + 6) /\
    (monday + 4) mod 7 = 1 /\
    monday <= laToday h <= monday + 6.
Proof.
  intros M E.
  assert (P : matchWeekOf tok = None /\ matchIsoDate tok = None).
  { destruct E as [E|E];
      apply (lowered_matches_no_pattern tok _ E); reflexivity. }
  destruct P as [W I].
  pose proof (switch_spans h M tok _ _ W I (switchDays_this_week _ _ E)) as S.
  revert S. generalize (laToday h). intros T S.
  eexists. split; [exact S|].
  destruct (Z.eqb_spec ((T + 4) mod 7) 0); split; euclid.
Qed.

Lemma this_week_is_monday_to_sunday_witness :
  exists monday,
    spans hostPacific "This Week" monday (monday + 6) /\
    (monday + 4) mod 7 = 1 /\
    monday <= laToday hostPacific <= monday + 6.
Proof.
  apply (this_week_is_monday_to_sunday hostPacific "This Week" midnights_Pacific).
  right. reflexivity.
Defined.

(** X3.  "next_week" starts on the first Monday after today, which is
    the day after "this_week" ends, and lasts to the Sunday after it. *)
Theorem next_week_follows_this_week (h : Host) (tok : string) :
  MidnightsExist (zone h) ->
  toLowerCase tok = "next_week" \/ toLowerCase tok = "next week" ->
  exists monday,
    spans h tok monday (monday + 6) /\
    spans h "this_week" (monday - 7) (monday - 1) /\
    (monday + 4) mod 7 = 1 /\
    laToday h < monday <= laToday h + 7.
Proof.
  intros M E.
  assert (P : matchWeekOf tok = None /\ matchIsoDate tok = None).
  { destruct E as [E|E];
      apply (lowered_matches_no_pattern tok _ E); reflexivity. }
  destruct P as [W I].
  pose proof (switch_spans h M tok _ _ W I (switchDays_next_week _ _ E)) as S.
  pose proof (switch_spans h M "this_week" _ _ eq_refl eq_refl
                (switchDays_this_week _ _ (or_introl eq_refl))) as S'.
  revert S S'. generalize (laToday h). intros T S S'.
  eexists. split; [exact S|].
  destruct (Z.eqb_spec ((T + 4) mod 7) 0) as [Z0|NZ].
  - replace (T + 1 - 7) with (T - 6) by lia.
    replace (T + 1 - 1) with (T - 6 + 6) by lia.
    split; [exact S'|]. split; euclid.
  - replace (T + (8 - (T + 4) mod 7) - 7) with (T - ((T + 4) mod 7 - 1)) by lia.
    replace (T + (8 - (T + 4) mod 7) - 1) with (T - ((T + 4) mod 7 - 1) + 6) by lia.
    split; [exact S'|]. split; euclid.
Qed.

Lemma next_week_follows_this_week_witness :
  exists monday,
    spans hostPacific "next_week" monday (monday + 6) /\
    spans hostPacific "this_week" (monday - 7) (monday - 1) /\
    (monday + 4) mod 7 = 1 /\
    laToday hostPacific < monday <= laToday hostPacific + 7.
Proof.
  apply (next_week_follows_this_week hostPacific "next_week" midnights_Pacific).
  left. reflexivity.
Defined.

(** X4.  The windows counted from today: "yesterday" and "tomorrow" are
    the single days next to today, "last_week" and "last_month" end today
    and start 7 and 30 days before it, across the ends of months and
    years. *)
Theorem windows_count_days_from_today (h : Host) :
  MidnightsExist (zone h) ->
  spans h "today" (laToday h) (laToday h) /\
  spans h "yesterday" (laToday h - 1) (laToday h - 1) /\
  spans h "tomorrow" (laToday h + 1) (laToday h + 1) /\
  spans h "last_week" (laToday h - 7) (laToday h) /\
  spans h "last_month" (laToday h - 30) (laToday h).
Proof.
  intros M.
  destruct (switchDays_rolling (laToday h)) as (D1 & D2 & D3 & D4 & D5).
  exact (conj (switch_spans h M "today" _ _ eq_refl eq_refl D1)
        (conj (switch_spans h M "yesterday" _ _ eq_refl eq_refl D2)
        (conj (switch_spans h M "tomorrow" _ _ eq_refl eq_refl D3)
        (conj (switch_spans h M "last_week" _ _ eq_refl eq_refl D4)
              (switch_spans h M "last_month" _ _ eq_refl eq_refl D5))))).
Qed.

Lemma windows_count_days_from_today_witness :
  spans hostPacific "today" (laToday hostPacific) (laToday hostPacific) /\
  spans hostPacific "yesterday" (laToday hostPacific - 1) (laToday hostPacific - 1) /\
  spans hostPacific "tomorrow" (laToday hostPacific + 1) (laToday hostPacific + 1) /\
  spans hostPacific "last_week" (laToday hostPacific - 7) (laToday hostPacific) /\
  spans hostPacific "last_month" (laToday hostPacific - 30) (laToday hostPacific).
Proof. apply (windows_count_days_from_today hostPacific midnights_Pacific). Defined.

Lemma week_of_contains_date_witness :
  exists D,
    readDay "2026-03-18" = Some D /\
    let sunday := D - (D + 4) mod 7 in
    let r := calculateDateRange hostPacific (weekOfToken "2026-03-18") in
    readStamp (timeMin r)
    = Some {| stampDay := sunday; stampClock := 0;
              stampOffset := offsetMinutes (tzOffset hostPacific) |} /\
    readStamp (timeMax r)
    = Some {| stampDay := sunday + 6; stampClock := 86399;
              stampOffset := offsetMinutes (tzOffset hostPacific) |} /\
    (sunday + 4) mod 7 = 0 /\ (sunday + 6 + 4) mod 7 = 6 /\
    sunday <= D <= sunday + 6.
Proof.
  apply (week_of_contains_date hostPacific "2026-03-18" "2026" "03" "18"
           midnights_Pacific eq_refl eq_refl).
  vm_compute. discriminate.
Defined.

(** ** The offset text of the date range resolver *)

Lemma tzOffsetFor_constant (z : Zone) (c year t : Z) :
  (forall t, tzaAtUTC z t = c) -> tzOffsetFor z year t = "-08:00".
Proof.
  intros Hu. unfold tzOffsetFor, getTimezoneOffset, LocalTime.
  rewrite !Hu.
  replace (newDateYMD z year 0 1 - (newDateYMD z year 0 1 + c)) with (- c) by lia.
  replace (newDateYMD z year 6 1 - (newDateYMD z year 6 1 + c)) with (- c) by lia.
  replace (t - (t + c)) with (- c) by lia.
  rewrite Z.max_id, Z.ltb_irrefl. reflexivity.
Qed.

(** X5.  On a host whose offset from UTC never changes (a server that
    runs in UTC, say), the offset written into every bound is "-08:00",
    at any time of the year. *)
Theorem offset_text_on_constant_offset_host (h : Host) (c : Z) :
  (forall t, tzaAtUTC (zone h) t = c) ->
  tzOffset h = "-08:00".
Proof. intros Hu. exact (tzOffsetFor_constant (zone h) c (laYear h) (now h) Hu). Qed.

Lemma offset_text_on_constant_offset_host_witness :
  tzOffset hostUTC = "-08:00".
Proof.
  apply (offset_text_on_constant_offset_host hostUTC 0). intros t. reflexivity.
Defined.

Lemma MakeDay_jan1 y : MakeDay y 0 1 = DayFromYear y.
Proof.
  unfold MakeDay. change (0 / 12) with 0. change (0 mod 12) with 0.
  change (monthStart 0 (leapOfYear (y + 0))) with 0. rewrite !Z.add_0_r. lia.
Qed.

Lemma pacific_local_offset_cases t :
  tzaAtLocal zonePacific t = - (7 * msPerHour) \/
  tzaAtLocal zonePacific t = - (8 * msPerHour).
Proof. cbn [zonePacific tzaAtLocal]. destruct (_ && _); [left | right]; reflexivity. Qed.

Lemma pacific_offset_cases t :
  tzaAtUTC zonePacific t = - (7 * msPerHour) \/
  tzaAtUTC zonePacific t = - (8 * msPerHour).
Proof. cbn [zonePacific tzaAtUTC]. destruct (_ && _); [left | right]; reflexivity. Qed.

Lemma pacific_january_offset y :
  getTimezoneOffset zonePacific (newDateYMD zonePacific y 0 1) = 480.
Proof.
  rewrite (newDateYMD_midnight zonePacific).
  unfold getTimezoneOffset. rewrite (local_midnight _ midnights_Pacific).
  unfold midnight, UTC. rewrite MakeDay_jan1.
  set (Y := fullYear y).
  assert (E : tzaAtLocal zonePacific (DayFromYear Y * msPerDay) = - (8 * msPerHour)).
  { cbn [zonePacific tzaAtLocal].
    assert (YY : YearFromTime (DayFromYear Y * msPerDay) = Y).
    { unfold YearFromTime. rewrite Day_of_midnight. apply YearFromDay_unique.
      pose proof (DaysInYear_cases Y). pose proof (DayFromYear_succ Y). lia. }
    rewrite !YY. pose proof (pacificDstStartDay_bounds Y) as B.
    replace (pacificDstStartDay Y * msPerDay + 3 * msPerHour <=? DayFromYear Y * msPerDay)
      with false; [reflexivity|].
    symmetry. apply Z.leb_gt. unfold msPerDay, msPerHour. lia. }
  rewrite E. unfold msPerDay, msPerHour, msPerMinute. euclid.
Qed.

Lemma pacific_july_offset y :
  getTimezoneOffset zonePacific (newDateYMD zonePacific y 6 1) <= 480.
Proof.
  rewrite (newDateYMD_midnight zonePacific).
  unfold getTimezoneOffset. rewrite (local_midnight _ midnights_Pacific).
  unfold midnight, UTC.
  destruct (pacific_local_offset_cases (MakeDay (fullYear y) 6 1 * msPerDay)) as [E|E];
    rewrite E; unfold msPerDay, msPerHour, msPerMinute; euclid.
Qed.

Lemma agreed_month_offset z y m :
  pacificSince2007 z -> 2007 <= y -> 0 <= m < 12 ->
  getTimezoneOffset z (newDateYMD z y m 1)
  = getTimezoneOffset zonePacific (newDateYMD zonePacific y m 1).
Proof.
  intros A Y M. unfold newDateYMD, UTC, getTimezoneOffset, LocalTime.
  set (L := MakeDate (MakeDay (fullYear y) m 1) 0).
  assert (B : since2007 <= L).
  { subst L. unfold since2007, MakeDate, fullYear.
    replace ((0 <=? y) && (y <=? 99)) with false
      by (symmetry; apply andb_false_iff; right; apply Z.leb_gt; lia).
    rewrite MakeDay_jan1. unfold MakeDay.
    replace (m / 12) with 0 by euclid. replace (m mod 12) with m by euclid.
    rewrite !Z.add_0_r. pose proof (DayFromYear_mono 2007 y Y).
    pose proof (leapOfYear_cases y) as C.
    assert (0 <= monthStart m (leapOfYear y)).
    { unfold monthStart.
      repeat match goal with |- context [if ?c then _ else _] => destruct c end; lia. }
    unfold msPerDay. lia. }
  destruct (A L B) as [_ ->].
  assert (B' : since2007 <= L - tzaAtLocal zonePacific L).
  { destruct (pacific_local_offset_cases L) as [E|E]; rewrite E; unfold msPerHour; lia. }
  destruct (A _ B') as [-> _]. reflexivity.
Qed.

(** X6.  On a host in US Pacific time, in the years of the present United
    States rule (from 2007 on), the offset written into the bounds is the
    offset from UTC that is in force on the host at the time of the
    request: "-07:00" during daylight time and "-08:00" otherwise. *)
Theorem offset_text_on_pacific_host (h : Host) :
  pacificSince2007 (zone h) ->
  2007 <= laYear h ->
  since2007 <= now h ->
  (tzOffset h = "-07:00" \/ tzOffset h = "-08:00") /\
  offsetMinutes (tzOffset h) * msPerMinute = tzaAtUTC (zone h) (now h).
Proof.
  intros A Y N. split; [apply tzOffset_cases|].
  unfold tzOffset, tzOffsetFor.
  rewrite !(agreed_month_offset (zone h)) by (assumption || lia).
  rewrite pacific_january_offset.
  rewrite (Z.max_l _ _ (pacific_july_offset (laYear h))).
  unfold getTimezoneOffset, LocalTime.
  destruct (A _ N) as [-> _].
  replace (now h - (now h + tzaAtUTC zonePacific (now h)))
    with (- tzaAtUTC zonePacific (now h)) by lia.
  destruct (pacific_offset_cases (now h)) as [E|E]; rewrite E; reflexivity.
Qed.

Lemma offset_text_on_pacific_host_witness :
  (tzOffset hostPacific = "-07:00" \/ tzOffset hostPacific = "-08:00") /\
  offsetMinutes (tzOffset hostPacific) * msPerMinute
  = tzaAtUTC (zone hostPacific) (now hostPacific).
Proof.
  apply (offset_text_on_pacific_host hostPacific).
  - intros t _. split; reflexivity.
  - vm_compute. discriminate.
  - vm_compute. discriminate.
Defined.

(** ** Rendered dates *)

Lemma MakeDay_civil_bounds y m d :
  validCivil y m d = true ->
  DayFromYear y <= MakeDay y (m - 1) d < DayFromYear (y + 1).
Proof.
  unfold validCivil. rewrite !andb_true_iff.
  intros [[[M1 M2] D1] D2]. apply Z.leb_le in M1, M2, D1, D2.
  rewrite DayFromYear_succ. pose proof (leapOfYear_eq y) as L.
  pose proof (leapOfYear_cases y) as C.
  unfold MakeDay.
  replace ((m - 1) / 12) with 0 by euclid.
  replace ((m - 1) mod 12) with (m - 1) by euclid.
  rewrite Z.add_0_r.
  assert (K : m = 1 \/ m = 2 \/ m = 3 \/ m = 4 \/ m = 5 \/ m = 6 \/ m = 7 \/
              m = 8 \/ m = 9 \/ m = 10 \/ m = 11 \/ m = 12) by lia.
  unfold daysInMonth in D2.
  generalize dependent (leapOfYear y). intros lp D2 L C.
  generalize (DayFromYear y) (DaysInYear y) L. clear L. intros dfy diy L.
  repeat destruct K as [-> | K]; try subst m;
    match goal with
    | |- context [monthStart ?a lp] =>
        let v := eval vm_compute in a in change a with v
    end;
    unfold monthStart; cbv beta iota delta [Z.eqb Pos.eqb orb] in D2 |- *; lia.
Qed.

Lemma isoYear_reads y :
  0 <= y <= 9999 ->
  readInt (isoYear y) = Some y /\ String.length (isoYear y) = 4%nat
  /\ allDigits (isoYear y) = true.
Proof.
  intros R.
  assert (A : forallb (fun k => fourDigitYearOk (Z.of_nat k)) (seq 0 (Z.to_nat 10000)) = true)
    by (vm_compute; reflexivity).
  rewrite forallb_forall in A.
  specialize (A (Z.to_nat y)). rewrite Z2Nat.id in A by lia.
  assert (I : In (Z.to_nat y) (seq 0 (Z.to_nat 10000))) by (apply in_seq; lia).
  specialize (A I). unfold fourDigitYearOk in A. rewrite !andb_true_iff in A.
  destruct A as [[A1 A2] A3].
  destruct (readInt (isoYear y)) as [v|]; [|discriminate].
  apply Z.eqb_eq in A1. apply Nat.eqb_eq in A2. subst v. auto.
Qed.

Lemma length_four s :
  String.length s = 4%nat ->
  exists c0 c1 c2 c3, s = String c0 (String c1 (String c2 (String c3 ""))).
Proof.
  intros H. do 4 (destruct s as [|? s]; [discriminate|]).
  destruct s; [|discriminate]. do 4 eexists. reflexivity.
Qed.

Lemma readTwo_shape s n :
  readTwo s = Some n -> String.length s = 2%nat /\ allDigits s = true.
Proof.
  unfold readTwo.
  destruct (Nat.eqb_spec (String.length s) 2) as [L|L]; [|discriminate].
  destruct (allDigits s); [auto | discriminate].
Qed.

(** A text made of four digits, two digits and two digits, with hyphens
    between them, matches the date pattern. *)
Lemma matchIsoDate_of_parts y m d :
  String.length y = 4%nat -> allDigits y = true ->
  String.length m = 2%nat -> allDigits m = true ->
  String.length d = 2%nat -> allDigits d = true ->
  matchIsoDate (y ++ "-" ++ m ++ "-" ++ d) = Some (y, m, d).
Proof.
  intros Ly Dy Lm Dm Ld Dd.
  destruct (length_four _ Ly) as (c0&c1&c2&c3&->).
  destruct (length_two _ Lm) as (c5&c6&->).
  destruct (length_two _ Ld) as (c8&c9&->).
  unfold matchIsoDate. cbn [append String.length substring Nat.eqb andb].
  rewrite Dy, Dm, Dd. reflexivity.
Qed.

(** The UTC rendering of a midnight in the years 0 to 9999 matches the
    date pattern and reads back as its day. *)
Lemma toISODate_reads D :
  DayFromYear 0 <= D < DayFromYear 10000 ->
  readDay (toISODate (D * msPerDay)) = Some D /\
  Events.isIsoDate (toISODate (D * msPerDay)) = true.
Proof.
  intros R. set (t := D * msPerDay).
  assert (Y : 0 <= YearFromTime t <= 9999).
  { unfold YearFromTime, t. rewrite Day_of_midnight.
    pose proof (YearFromDay_spec D) as S.
    destruct (Z_lt_le_dec (YearFromDay D) 0) as [N|N].
    - pose proof (DayFromYear_mono (YearFromDay D + 1) 0 ltac:(lia)). lia.
    - destruct (Z_lt_le_dec 9999 (YearFromDay D)) as [G|G]; [|lia].
      pose proof (DayFromYear_mono 10000 (YearFromDay D) ltac:(lia)). lia. }
  destruct (isoYear_reads _ Y) as (Ry & Ly & Dy).
  pose proof (MonthFromTime_range t) as Rm.
  pose proof (DateFromTime_range t) as Rd.
  pose proof (daysInMonth_le_31 (YearFromTime t) (MonthFromTime t + 1)) as R31.
  pose proof (pad2_reads (MonthFromTime t + 1) ltac:(lia)) as Pm.
  pose proof (pad2_reads (DateFromTime t) ltac:(lia)) as Pd.
  destruct (readTwo_shape _ _ Pm) as [Lm Dm].
  destruct (readTwo_shape _ _ Pd) as [Ld Dd].
  unfold toISODate. fold t. split.
  - rewrite (readDay_text _ _ _ _ _ _ Ry Pm Pd (fields_valid t)).
    rewrite MakeDay_reads_fields. unfold t. now rewrite Day_of_midnight.
  - unfold Events.isIsoDate.
    now rewrite (matchIsoDate_of_parts _ _ _ Ly Dy Lm Dm Ld Dd).
Qed.

Lemma parseInt_digits_nonneg s : 0 <= parseInt s.
Proof.
  unfold parseInt. destruct (NilEmpty.uint_of_string s) as [u|]; [|lia].
  unfold Z.of_uint. lia.
Qed.

(** X8.  On a host whose offset from UTC never changes, the end of an
    all-day event on an existing date before the year 9999 is the text of
    the day after it, across the ends of months and years and on 29
    February. *)
Theorem all_day_end_is_next_day (z : Zone) (c : Z) (d ys ms ds : string) :
  (forall t, tzaAtUTC z t = c) -> (forall t, tzaAtLocal z t = c) ->
  matchIsoDate d = Some (ys, ms, ds) ->
  validCivil (parseInt ys) (parseInt ms) (parseInt ds) = true ->
  parseInt ys < 9999 ->
  exists D e,
    readDay d = Some D /\
    Events.allDayEnd z d = Some e /\
    Events.isIsoDate e = true /\
    readDay e = Some (D + 1).
Proof.
  intros Hu Hl H V Y.
  exists (MakeDay (parseInt ys) (parseInt ms - 1) (parseInt ds)).
  eexists. split; [now apply readDay_civil|].
  split; [exact (all_day_end_constant_offset z c d ys ms ds Hu Hl H V)|].
  pose proof (MakeDay_civil_bounds _ _ _ V) as B.
  pose proof (parseInt_digits_nonneg ys) as N.
  pose proof (DayFromYear_mono 0 (parseInt ys) N).
  pose proof (DayFromYear_mono (parseInt ys + 1) 9999 ltac:(lia)).
  pose proof (DayFromYear_succ 9999). pose proof (DaysInYear_cases 9999).
  change (9999 + 1) with 10000 in *.
  destruct (toISODate_reads
              (MakeDay (parseInt ys) (parseInt ms - 1) (parseInt ds) + 1)) as [R I];
    [lia | auto].
Qed.

Lemma all_day_end_is_next_day_witness :
  exists D e,
    readDay "2024-02-29" = Some D /\
    Events.allDayEnd zoneUTC "2024-02-29" = Some e /\
    Events.isIsoDate e = true /\
    readDay e = Some (D + 1).
Proof.
  apply (all_day_end_is_next_day zoneUTC 0 "2024-02-29" "2024" "02" "29");
    try reflexivity.
Defined.

(** ** The create handler of the events route *)

Lemma truthy_nonempty o : truthy o = true -> exists c r, o = Some (String c r).
Proof. destruct o as [[|c r]|]; try discriminate. eauto. Qed.

Lemma orUndefined_nonempty o : Events.orUndefined o <> Some "".
Proof. destruct o as [[|c r]|]; cbn; congruence. Qed.

Lemma withRecurrence_fields r e :
  Events.summary (Events.withRecurrence r e) = Events.summary e /\
  Events.e_description (Events.withRecurrence r e) = Events.e_description e /\
  Events.e_location (Events.withRecurrence r e) = Events.e_location e.
Proof.
  unfold Events.withRecurrence.
  destruct (_ && _); [|auto]. destruct (Events.recurrenceRule _); cbn; auto.
Qed.

(** X9.  Whatever the create handler submits to the calendar service
    passed every check: the caller has a session and a token, the calendar
    and the title are not empty, the date matches the date pattern, a timed
    event has a time that matches the time pattern and carries the Los
    Angeles zone, an all-day event carries dates only, and a description or
    location that is sent is not empty. *)
Theorem submitted_event_passed_validation (z : Zone) (authError hasSession : bool)
        (providerToken : option string) (body : Events.EventRequest)
        (cal : string) (ev : Events.GoogleEvent) :
  Events.POST z authError hasSession providerToken body = Events.Submit cal ev ->
  authError = false /\ hasSession = true /\ truthy providerToken = true /\
  Events.calendarId body = Some cal /\ cal <> "" /\
  Events.title body = Some (Events.summary ev) /\ Events.summary ev <> "" /\
  Events.e_description ev <> Some "" /\ Events.e_location ev <> Some "" /\
  exists d,
    Events.date body = Some d /\ Events.isIsoDate d = true /\
    if Events.allDay body then
      Events.start ev
      = {| Events.g_dateTime := None; Events.g_date := Some d;
           Events.g_timeZone := None |} /\
      Events.g_dateTime (Events.end_ ev) = None /\
      Events.g_timeZone (Events.end_ ev) = None /\
      Events.allDayEnd z d = Events.g_date (Events.end_ ev)
    else
      exists t,
        Events.time body = Some t /\ Events.matchTime t = true /\
        Events.start ev
        = {| Events.g_dateTime := Some (d ++ "T" ++ t ++ ":00");
             Events.g_date := None;
             Events.g_timeZone := Some "America/Los_Angeles" |} /\
        Events.g_date (Events.end_ ev) = None /\
        Events.g_timeZone (Events.end_ ev) = Some "America/Los_Angeles".
Proof.
  unfold Events.POST.
  destruct authError; [discriminate|]. destruct hasSession; [|discriminate].
  cbn [orb negb].
  destruct (truthy providerToken) eqn:Tk; [|discriminate]. cbn [negb].
  destruct (truthy (Events.calendarId body)) eqn:Tc; [|discriminate].
  destruct (truthy (Events.title body)) eqn:Tt; [|discriminate].
  destruct (truthy (Events.date body)) eqn:Td; [|discriminate].
  cbn [orb negb].
  destruct (truthy_nonempty _ Tc) as (c1 & r1 & Ec).
  destruct (truthy_nonempty _ Tt) as (c2 & r2 & Et).
  destruct (truthy_nonempty _ Td) as (c3 & r3 & Ed).
  rewrite Ec, Et, Ed. cbn [Events.orEmpty].
  destruct (Events.isIsoDate (String c3 r3)) eqn:Iso; [|discriminate]. cbn [negb].
  destruct (Events.allDay body) eqn:AD; cbn [negb andb].
  - destruct (truthy (Events.time body) && _); [discriminate|].
    destruct (Events.allDayEnd z (String c3 r3)) as [e|] eqn:AE; [|discriminate].
    intros [= <- <-].
    destruct (withRecurrence_fields (Events.recurrence body)
      {| Events.summary := String c2 r2;
         Events.e_description := Events.orUndefined (Events.description body);
         Events.e_location := Events.orUndefined (Events.location body);
         Events.start := {| Events.g_dateTime := None;
                            Events.g_date := Some (String c3 r3);
                            Events.g_timeZone := None |};
         Events.end_ := {| Events.g_dateTime := None; Events.g_date := Some e;
                           Events.g_timeZone := None |};
         Events.e_recurrence := None |}) as (F1 & F2 & F3).
    rewrite F1, F2, F3, withRecurrence_start, withRecurrence_end.
    cbn [Events.summary Events.e_description Events.e_location
         Events.start Events.end_ Events.g_dateTime Events.g_date Events.g_timeZone].
    repeat split; try congruence; try apply orUndefined_nonempty.
    exists (String c3 r3). repeat split; assumption.
  - destruct (truthy (Events.time body)) eqn:Tm; [|discriminate]. cbn [negb andb].
    destruct (truthy_nonempty _ Tm) as (c4 & r4 & Em). rewrite Em.
    cbn [Events.orEmpty].
    destruct (Events.matchTime (String c4 r4)) eqn:MT; [|discriminate]. cbn [negb].
    cbv zeta. destruct (Events.endTimeOf _ _) as [endTime|]; [|discriminate].
    intros [= <- <-].
    match goal with
    | |- context [Events.withRecurrence ?r ?e] =>
        destruct (withRecurrence_fields r e) as (F1 & F2 & F3)
    end.
    rewrite F1, F2, F3, withRecurrence_start, withRecurrence_end.
    cbn [Events.summary Events.e_description Events.e_location
         Events.start Events.end_ Events.g_dateTime Events.g_date Events.g_timeZone].
    repeat split; try congruence; try apply orUndefined_nonempty.
    exists (String c3 r3). repeat split; try assumption.
    exists (String c4 r4). repeat split; assumption.
Qed.

Lemma submitted_event_passed_validation_witness :
  exists ev,
    Events.POST zoneUTC false true (Some "token")
      (createRequest "2026-03-18" (Some "09:30") None false)
    = Events.Submit "primary" ev /\
    Events.summary ev <> "" /\ Events.e_description ev <> Some "".
Proof.
  eexists. split; [reflexivity|].
  pose proof (submitted_event_passed_validation zoneUTC false true (Some "token")
                (createRequest "2026-03-18" (Some "09:30") None false)
                "primary" _ eq_refl) as H.
  destruct H as (_ & _ & _ & _ & _ & _ & H7 & H8 & _).
  exact (conj H7 H8).
Defined.

(** X10.  An all-day create request is answered as if it had no time and
    no duration, except that a time given in a form other than HH:MM is
    still refused, once the checks before it have passed. *)
Theorem all_day_request_ignores_clock (z : Zone) (authError hasSession : bool)
        (providerToken : option string) (body : Events.EventRequest) :
  Events.allDay body = true ->
  Events.POST z authError hasSession providerToken body
  = if truthy (Events.time body)
       && negb (Events.matchTime (Events.orEmpty (Events.time body)))
    then
      match Events.POST z authError hasSession providerToken (withoutClock body) with
      | Events.Rejected status error => Events.Rejected status error
      | _ => Events.Rejected 400 "Invalid time format. Use HH:MM"
      end
    else Events.POST z authError hasSession providerToken (withoutClock body).
Proof.
  intros AD. unfold Events.POST, withoutClock.
  cbn [Events.calendarId Events.title Events.description Events.location
       Events.date Events.time Events.duration Events.allDay Events.recurrence].
  rewrite AD. cbn [truthy negb andb].
  destruct (truthy (Events.time body)
            && negb (Events.matchTime (Events.orEmpty (Events.time body))));
    destruct (authError || negb hasSession); try reflexivity;
    destruct (negb (truthy providerToken)); try reflexivity;
    destruct (_ || _); try reflexivity;
    destruct (negb (Events.isIsoDate _)); try reflexivity;
    destruct (Events.allDayEnd z _); reflexivity.
Qed.

Lemma all_day_request_ignores_clock_witness :
  Events.POST zoneUTC false true (Some "token")
    (createRequest "2026-03-18" (Some "9am") (Some (JSNumber.ofZ 45)) true)
  = Events.Rejected 400 "Invalid time format. Use HH:MM" /\
  Events.POST zoneUTC false true (Some "token")
    (createRequest "2026-03-18" (Some "09:00") (Some (JSNumber.ofZ 45)) true)
  = Events.POST zoneUTC false true (Some "token")
      (createRequest "2026-03-18" None None true).
Proof.
  split.
  - rewrite (all_day_request_ignores_clock zoneUTC false true (Some "token")
               (createRequest "2026-03-18" (Some "9am") (Some (JSNumber.ofZ 45)) true) eq_refl).
    reflexivity.
  - exact (all_day_request_ignores_clock zoneUTC false true (Some "token")
               (createRequest "2026-03-18" (Some "09:00") (Some (JSNumber.ofZ 45)) true) eq_refl).
Defined.

Lemma truthy_orUndefined o : truthy (Events.orUndefined o) = truthy o.
Proof. destruct o as [[|c r]|]; reflexivity. Qed.

Lemma orEmpty_orUndefined o :
  Events.orEmpty (Events.orUndefined o) = Events.orEmpty o.
Proof. destruct o as [[|c r]|]; reflexivity. Qed.

Lemma orUndefined_idem o :
  Events.orUndefined (Events.orUndefined o) = Events.orUndefined o.
Proof. destruct o as [[|c r]|]; reflexivity. Qed.

(** X11.  For the create handler an optional field with a value that
    JavaScript takes for false is the same as a field left out: an empty
    description, location or time, a duration of 0 or [NaN] (which gets
    the default of 60 minutes), an empty recurrence; the recurrence "none"
    is the same as none given. *)
Theorem falsy_fields_are_absent (z : Zone) (authError hasSession : bool)
        (providerToken : option string) (body : Events.EventRequest) :
  Events.POST z authError hasSession providerToken body
  = Events.POST z authError hasSession providerToken (withoutFalsy body).
Proof.
  unfold Events.POST, withoutFalsy.
  cbn [Events.calendarId Events.title Events.description Events.location
       Events.date Events.time Events.duration Events.allDay Events.recurrence].
  rewrite !truthy_orUndefined, !orEmpty_orUndefined, !orUndefined_idem.
  assert (R : forall e,
             Events.withRecurrence
               match Events.recurrence body with
               | Some r => if (r =? "none")%string then None
                           else Events.orUndefined (Some r)
               | None => None
               end e
             = Events.withRecurrence (Events.recurrence body) e).
  { intros e. destruct (Events.recurrence body) as [[|c r]|]; try reflexivity.
    destruct (String c r =? "none")%string eqn:E; [|reflexivity].
    unfold Events.withRecurrence. cbn [truthy Events.orEmpty andb].
    rewrite E. reflexivity. }
  assert (D : match match Events.duration body with
                    | Some d => if JSNumber.falsy d then None else Some d
                    | None => None
                    end with
              | Some d => if JSNumber.falsy d then JSNumber.ofZ 60 else d
              | None => JSNumber.ofZ 60
              end
              = match Events.duration body with
                | Some d => if JSNumber.falsy d then JSNumber.ofZ 60 else d
                | None => JSNumber.ofZ 60
                end).
  { destruct (Events.duration body) as [d|]; [|reflexivity].
    destruct (JSNumber.falsy d) eqn:E; [reflexivity | now rewrite E]. }
  cbv zeta. rewrite D.
  destruct (authError || negb hasSession); [reflexivity|].
  destruct (negb (truthy providerToken)); [reflexivity|].
  destruct (_ || _); [reflexivity|].
  destruct (negb (Events.isIsoDate _)); [reflexivity|].
  destruct (negb (Events.allDay body) && _); [reflexivity|].
  destruct (truthy (Events.time body) && _); [reflexivity|].
  destruct (Events.allDay body).
  - destruct (Events.allDayEnd z _); [|reflexivity]. now rewrite R.
  - destruct (Events.endTimeOf _ _); [|reflexivity]. now rewrite R.
Qed.

(** ** The messages sent to the completion service *)

Lemma pushHistory_app messages history :
  Conversation.pushHistory messages history
  = (messages ++ Conversation.pushHistory [] history)%list.
Proof.
  revert messages. induction history as [|msg rest IH]; intros messages; cbn.
  - now rewrite app_nil_r.
  - destruct (Conversation.keepsRole msg).
    + rewrite IH. rewrite (IH [_]). now rewrite <- app_assoc.
    + apply IH.
Qed.

Lemma pushHistory_roles history :
  Forall (fun m => Conversation.role m = "user" \/ Conversation.role m = "assistant")
         (Conversation.pushHistory [] history).
Proof.
  induction history as [|msg rest IH]; cbn; [constructor|].
  destruct (Conversation.keepsRole msg) eqn:K; [|exact IH].
  rewrite pushHistory_app. constructor; [|exact IH].
  unfold Conversation.keepsRole in K. cbn [Conversation.role].
  destruct (Conversation.h_role msg) as [r|]; [|discriminate].
  apply orb_true_iff in K as [K|K]; apply String.eqb_eq in K; auto.
Qed.

Lemma pushHistory_length history :
  (List.length (Conversation.pushHistory [] history) <= List.length history)%nat.
Proof.
  induction history as [|msg rest IH]; cbn; [lia|].
  destruct (Conversation.keepsRole msg); [|lia].
  rewrite pushHistory_app, length_app. cbn. lia.
Qed.

(** X12.  Whatever history a chat request carries, the prompt starts with
    the handler's own system message and ends with the current message of
    the user; every message between them has the role "user" or
    "assistant", so an entry of the request with the role "system" never
    reaches the completion service. *)
Theorem prompt_has_one_system_message (systemPrompt message : string)
        (history : option (list Conversation.HistoryEntry)) :
  exists middle,
    Conversation.promptMessages systemPrompt history message
    = ({| Conversation.role := "system"; Conversation.content := systemPrompt |}
       :: middle
       ++ [{| Conversation.role := "user"; Conversation.content := message |}])%list /\
    Forall (fun m => Conversation.role m = "user" \/ Conversation.role m = "assistant")
           middle /\
    (List.length middle
     <= List.length match history with Some l => l | None => [] end)%nat.
Proof.
  unfold Conversation.promptMessages. destruct history as [l|].
  - exists (Conversation.pushHistory [] l). rewrite pushHistory_app.
    split; [reflexivity|]. split; [apply pushHistory_roles | apply pushHistory_length].
  - exists []. split; [reflexivity|]. split; [constructor | cbn; lia].
Qed.



Lemma sliceLast_suffix {A} n (l : list A) :
  exists older, l = (older ++ Client.sliceLast n l)%list.
Proof.
  unfold Client.sliceLast. exists (firstn (List.length l - n) l).
  now rewrite firstn_skipn.
Qed.


(** ** The active calendars of the chat page *)

Lemma has_In s x : Client.has s x = true <-> In x s.
Proof.
  unfold Client.has. rewrite existsb_exists. split.
  - intros (y & I & E). apply String.eqb_eq in E. now subst.
  - intros I. exists x. split; [exact I | apply String.eqb_refl].
Qed.

Lemma add_In s x y : In y (Client.add s x) <-> In y s \/ y = x.
Proof.
  unfold Client.add. destruct (Client.has s x) eqn:H.
  - apply has_In in H. split; [auto | intros [I | ->]; assumption].
  - rewrite in_app_iff. cbn. intuition.
Qed.

Lemma add_NoDup s x : NoDup s -> NoDup (Client.add s x).
Proof.
  intros N. unfold Client.add. destruct (Client.has s x) eqn:H; [exact N|].
  assert (NI : ~ In x s) by (rewrite <- has_In; congruence).
  clear H. induction N as [|a l Na N IH]; cbn.
  - constructor; [intros [] | constructor].
  - constructor.
    + rewrite in_app_iff. cbn. intros [I | [E | []]]; [auto | subst; apply NI; now left].
    + apply IH. intros I. apply NI. now right.
Qed.

Lemma fold_add_spec l : forall acc,
  NoDup acc ->
  NoDup (fold_left Client.add l acc) /\
  forall y, In y (fold_left Client.add l acc) <-> In y acc \/ In y l.
Proof.
  induction l as [|x l IH]; intros acc N; cbn.
  - split; [exact N | intros y; intuition].
  - destruct (IH (Client.add acc x) (add_NoDup _ _ N)) as [N' I'].
    split; [exact N'|]. intros y. rewrite I', add_In. intuition.
Qed.

Lemma newSet_spec l :
  NoDup (Client.newSet l) /\ forall y, In y (Client.newSet l) <-> In y l.
Proof.
  destruct (fold_add_spec l [] (NoDup_nil _)) as [N I].
  split; [exact N|]. intros y. rewrite (I y). cbn. intuition.
Qed.




Lemma loaded_valid calendars savedActive y :
  In y (Client.loadCalendarsOnMount calendars savedActive) ->
  In y (map Client.id calendars).
Proof.
  unfold Client.loadCalendarsOnMount.
  destruct savedActive as [| |ids]; try (apply newSet_spec).
  destruct (0 <? _); rewrite (proj2 (newSet_spec _)); [|auto].
  rewrite filter_In, existsb_exists. intros (_ & c & I & E).
  apply String.eqb_eq in E. subst y. now apply in_map.
Qed.




(** ** Creating an event from the page *)

Lemma find_some_In {A} (p : A -> bool) l x : find p l = Some x -> In x l.
Proof. intros H. now apply find_some in H. Qed.

Lemma defaultCalendar_listed lastUsed calendars :
  calendars <> [] ->
  exists c, In c calendars /\
            Client.getDefaultCalendarId lastUsed calendars = Client.id c.
Proof.
  intros NE. unfold Client.getDefaultCalendarId.
  destruct (truthy lastUsed && _) eqn:L.
  - apply andb_true_iff in L as [_ L]. apply existsb_exists in L as (c & I & E).
    apply String.eqb_eq in E. exists c. split; [exact I | now symmetry].
  - destruct (find Client.primary calendars) as [p|] eqn:F.
    + exists p. split; [now apply (find_some_In _ _ _ F) | reflexivity].
    + destruct calendars as [|c r]; [congruence|].
      exists c. split; [now left | reflexivity].
Qed.

Lemma find_first {A} (p : A -> bool) before x after :
  Forall (fun a => p a = false) before -> p x = true ->
  find p (before ++ x :: after) = Some x.
Proof.
  intros F P. induction F as [|a l Pa F IH]; simpl.
  - now rewrite P.
  - now rewrite Pa.
Qed.

Lemma find_none {A} (p : A -> bool) l :
  Forall (fun a => p a = false) l -> find p l = None.
Proof.
  intros F. induction F as [|a l Pa F IH]; [reflexivity|].
  simpl. now rewrite Pa.
Qed.

Lemma lastUsed_listed lastUsed calendars :
  truthy lastUsed
  && existsb (fun c => (Client.id c =? Events.orEmpty lastUsed)%string) calendars
  = true <->
  truthy lastUsed = true /\ In (Events.orEmpty lastUsed) (map Client.id calendars).
Proof.
  rewrite andb_true_iff, existsb_exists, in_map_iff. split.
  - intros [T (c & I & E)]. apply String.eqb_eq in E. eauto.
  - intros [T (c & E & I)]. split; [exact T|]. exists c.
    split; [exact I | now apply String.eqb_eq].
Qed.

(** X15.  When the page has calendars, each with an identifier, an event
    made by voice goes to a calendar of the list: the one used last if it
    is still there, else the first one marked primary, else the first of
    the list; the page never answers "No calendar available".  Without
    calendars no request is sent. *)
Theorem voice_create_goes_to_a_listed_calendar
        (calendars : list Client.Calendar) (lastUsed : option string)
        (appt : Client.AppointmentData) :
  Forall (fun c => Client.id c <> "") calendars ->
  match calendars with
  | [] =>
      Client.createEvent calendars appt
        (Some (Client.getDefaultCalendarId lastUsed calendars))
      = Client.NoCalendarAvailable
  | first :: _ =>
      let lastUsedIsListed :=
        truthy lastUsed = true /\
        In (Events.orEmpty lastUsed) (map Client.id calendars) in
      exists c body,
        In c calendars /\
        Client.createEvent calendars appt
          (Some (Client.getDefaultCalendarId lastUsed calendars))
        = Client.SendCreate body /\
        Events.calendarId body = Some (Client.id c) /\
        (lastUsedIsListed -> Events.calendarId body = lastUsed) /\
        (~ lastUsedIsListed ->
         forall before p after,
           calendars = (before ++ p :: after)%list ->
           Forall (fun c => Client.primary c = false) before ->
           Client.primary p = true ->
           Events.calendarId body = Some (Client.id p)) /\
        (~ lastUsedIsListed ->
         Forall (fun c => Client.primary c = false) calendars ->
         Events.calendarId body = Some (Client.id first))
  end.
Proof.
  intros V. destruct calendars as [|c0 r].
  { unfold Client.getDefaultCalendarId. cbn [existsb].
    rewrite andb_false_r. reflexivity. }
  cbv zeta.
  destruct (defaultCalendar_listed lastUsed (c0 :: r) ltac:(discriminate))
    as (c & I & E).
  assert (T : truthy (Some (Client.id c)) = true).
  { rewrite Forall_forall in V. specialize (V c I).
    destruct (Client.id c); [congruence | reflexivity]. }
  exists c. eexists. split; [exact I|].
  unfold Client.createEvent. rewrite E, T. cbv beta iota zeta.
  rewrite T. cbn [negb].
  split; [reflexivity|]. split; [reflexivity|].
  cbn [Events.calendarId]. rewrite <- E. unfold Client.getDefaultCalendarId.
  pose proof (lastUsed_listed lastUsed (c0 :: r)) as L.
  destruct (truthy lastUsed && existsb _ (c0 :: r)).
  - split; [|split].
    + intros [TL _]. destruct lastUsed as [[|a s]|]; try discriminate. reflexivity.
    + intros N. exfalso. apply N. now apply L.
    + intros N. exfalso. apply N. now apply L.
  - split; [|split].
    + intros H. apply L in H. discriminate.
    + intros _ before p after -> F P. now rewrite (find_first _ _ _ _ F P).
    + intros _ F. now rewrite (find_none _ _ F).
Qed.

Lemma voice_create_goes_to_a_listed_calendar_witness :
  exists c body,
    In c pageCalendars /\
    Client.createEvent pageCalendars (dentistAt (Some "09:30") false)
      (Some (Client.getDefaultCalendarId (Some "gone") pageCalendars))
    = Client.SendCreate body /\
    Events.calendarId body = Some (Client.id c) /\
    Events.calendarId body = Some "home".
Proof.
  destruct (voice_create_goes_to_a_listed_calendar pageCalendars (Some "gone")
              (dentistAt (Some "09:30") false)
              ltac:(repeat constructor; discriminate))
    as (c & body & I & C & E & _ & P & _).
  exists c, body. repeat (split; [assumption|]).
  apply (P ltac:(intros [_ [H | [H | []]]]; discriminate H) [pageWork] pageHome []).
  - reflexivity.
  - repeat constructor.
  - reflexivity.
Defined.

(** X16.  The page in text mode and in voice mode agree on when an
    appointment is complete: text mode asks for more exactly when voice
    mode does not create the event at once. *)
Theorem text_and_voice_agree_on_complete (appt : Client.AppointmentData) :
  Client.needsMoreInfo appt
  = negb (Client.hasAllInfo appt && negb (Client.needsClarification appt)).
Proof.
  unfold Client.needsMoreInfo, Client.hasAllInfo.
  destruct (truthy (Client.title appt)), (Client.needsClarification appt),
    (truthy (Client.date appt)), (Client.allDay appt),
    (truthy (Client.time appt)); reflexivity.
Qed.

Lemma endTimeOf_whole t n d :
  JSNumber.wholeOf n = Some d -> exists e, Events.endTimeOf t n = Some e.
Proof.
  intros W. unfold Events.endTimeOf.
  destruct (nth 0 _ None); [|eauto]. destruct (nth 1 _ None); [|eauto].
  destruct n as [| |q]; try discriminate W. rewrite W. eauto.
Qed.

Lemma page_duration_is_whole (duration : option Z) :
  exists d,
    match match duration with
          | Some d => Some (JSNumber.ofZ (if d =? 0 then 60 else d))
          | None => Some (JSNumber.ofZ 60)
          end with
    | Some d => if JSNumber.falsy d then JSNumber.ofZ 60 else d
    | None => JSNumber.ofZ 60
    end = JSNumber.ofZ d.
Proof.
  destruct duration as [d|]; [|now exists 60].
  destruct (d =? 0) eqn:E; [now exists 60|].
  exists d. cbn. now rewrite E.
Qed.

(** X17.  An appointment that the page takes for complete is never
    refused by the create handler for a missing field or a missing time:
    the handler submits it to the chosen calendar under the title of the
    appointment, or refuses the form of its date or, for a timed event, of
    its time, or (all-day only) fails on a date that does not exist. *)
Theorem complete_appointment_has_required_fields
        (z : Zone) (token : string) (calendars : list Client.Calendar)
        (appt : Client.AppointmentData) (calendarId : option string)
        (body : Events.EventRequest) :
  token <> "" ->
  Client.needsMoreInfo appt = false ->
  Client.createEvent calendars appt calendarId = Client.SendCreate body ->
  match Events.POST z false true (Some token) body with
  | Events.Submit cal ev =>
      Events.calendarId body = Some cal /\
      Client.title appt = Some (Events.summary ev) /\
      (exists d, Client.date appt = Some d /\ Events.isIsoDate d = true)
  | Events.Rejected status error =>
      status = 400 /\
      (error = "Invalid date format. Use YYYY-MM-DD" \/
       (Client.allDay appt = false /\ error = "Invalid time format. Use HH:MM"))
  | Events.Threw => Client.allDay appt = true
  | Events.SubmitFraction _ => False
  end.
Proof.
  intros Tk NM CE.
  unfold Client.needsMoreInfo in NM. rewrite !orb_false_iff in NM.
  destruct NM as [[[Tt _] Td] Tm].
  apply negb_false_iff in Tt, Td.
  unfold Client.createEvent in CE.
  destruct (truthy (if truthy calendarId then calendarId
                    else option_map Client.id (Client.getPrimaryCalendar calendars)))
    eqn:Tc; [|discriminate].
  cbn [negb] in CE. injection CE as <-.
  unfold Events.POST.
  cbn [Events.calendarId Events.title Events.date Events.time Events.allDay
       Events.duration Events.description Events.location Events.recurrence].
  rewrite (truthy_some token Tk), Tc, Tt, Td. cbn [orb negb].
  destruct (truthy_nonempty _ Tt) as (c2 & r2 & Et).
  destruct (truthy_nonempty _ Td) as (c3 & r3 & Ed).
  destruct (truthy_nonempty _ Tc) as (c1 & r1 & Ec).
  rewrite Ec, Et, Ed. cbn [Events.orEmpty].
  destruct (Events.isIsoDate (String c3 r3)) eqn:Iso; cbn [negb]; [|auto].
  destruct (Client.allDay appt) eqn:AD; cbn [negb andb truthy].
  - destruct (Events.allDayEnd z (String c3 r3)); [|reflexivity].
    split; [reflexivity|]. split.
    + now rewrite (proj1 (withRecurrence_fields _ _)).
    + eauto.
  - cbn [andb negb] in Tm. apply negb_false_iff in Tm. rewrite Tm. cbn [negb andb].
    destruct (Events.matchTime (Events.orEmpty (Client.time appt))); cbn [negb]; [|auto].
    cbv zeta. destruct (page_duration_is_whole (Client.duration appt)) as [d ->].
    destruct (endTimeOf_whole (Events.orEmpty (Client.time appt)) _ d (wholeOf_ofZ d))
      as [e ->].
    split; [reflexivity|]. split.
    + now rewrite (proj1 (withRecurrence_fields _ _)).
    + eauto.
Qed.

Lemma complete_appointment_has_required_fields_witness :
  match Events.POST zoneUTC false true (Some "token")
          {| Events.calendarId := Some "work"; Events.title := Some "Dentist";
             Events.description := None; Events.location := None;
             Events.date := Some "2026-03-18"; Events.time := Some "09:30";
             Events.duration := Some (JSNumber.ofZ 60); Events.allDay := false;
             Events.recurrence := Some "none" |} with
  | Events.Submit cal ev =>
      Some "work" = Some cal /\
      Some "Dentist" = Some (Events.summary ev) /\
      (exists d, Some "2026-03-18" = Some d /\ Events.isIsoDate d = true)
  | Events.Rejected status error =>
      status = 400 /\
      (error = "Invalid date format. Use YYYY-MM-DD" \/
       (false = false /\ error = "Invalid time format. Use HH:MM"))
  | Events.Threw => false = true
  | Events.SubmitFraction _ => False
  end.
Proof.
  apply (complete_appointment_has_required_fields zoneUTC "token" pageCalendars
           (dentistAt (Some "09:30") false) (Some "work")).
  - discriminate.
  - reflexivity.
  - reflexivity.
Defined.

(** ** The 12-hour clock of the page *)

Lemma page_parseInt_two_digits c0 c1 :
  isDigit c0 = true -> isDigit c1 = true ->
  Client.parseInt (String c0 (String c1 ""))
  = Some (parseInt (String c0 (String c1 ""))).
Proof.
  intros D0 D1.
  destruct c0 as [[] [] [] [] [] [] [] []]; try discriminate D0;
    destruct c1 as [[] [] [] [] [] [] [] []]; try discriminate D1; reflexivity.
Qed.

Lemma split_time c0 c1 c3 c4 :
  isDigit c0 = true -> isDigit c1 = true ->
  isDigit c3 = true -> isDigit c4 = true ->
  split ":" (String c0 (String c1 (String ":" (String c3 (String c4 "")))))
  = [String c0 (String c1 ""); String c3 (String c4 "")].
Proof.
  intros D0 D1 D3 D4. unfold split. cbn [splitAux].
  rewrite (digit_is_not_colon _ D0), (digit_is_not_colon _ D1),
    (digit_is_not_colon _ D3), (digit_is_not_colon _ D4).
  reflexivity.
Qed.

(** X18.  A time of day HH:MM up to 23:59 is shown on the 12-hour clock
    with its minutes unchanged, an hour from 1 to 12, and AM or PM, from
    which the hour of the day can be told: 00 is 12 AM and 12 is 12 PM. *)
Theorem time_display_is_12_hour_clock (time : string) :
  Events.matchTime time = true ->
  parseInt (substring 0 2 time) <= 23 ->
  exists hour12 ampm,
    Client.formatTimeDisplay time
    = numToString hour12 ++ ":" ++ substring 3 2 time ++ " " ++ ampm /\
    1 <= hour12 <= 12 /\
    (ampm = "AM" \/ ampm = "PM") /\
    parseInt (substring 0 2 time)
    = hour12 mod 12 + (if (ampm =? "PM")%string then 12 else 0).
Proof.
  intros M H.
  pose proof (matchTime_shape time M) as (_ & N & _).
  revert M H N. unfold Events.matchTime. rewrite !andb_true_iff.
  intros [[[L Hh] C] Mm]. apply Nat.eqb_eq in L.
  destruct (length_five time L) as (c0&c1&c2&c3&c4&->).
  cbn [substring] in *. apply one_char_eqb in C. subst c2.
  cbn [allDigits] in Hh, Mm. rewrite !andb_true_iff in Hh, Mm.
  destruct Hh as (D0 & D1 & _). destruct Mm as (D3 & D4 & _).
  unfold Client.formatTimeDisplay.
  rewrite (split_time _ _ _ _ D0 D1 D3 D4). cbn [nth nth_error].
  rewrite (page_parseInt_two_digits _ _ D0 D1).
  generalize (parseInt (String c0 (String c1 ""))). intros h H N.
  rewrite Z.rem_mod_nonneg by lia.
  destruct (Z.leb_spec 12 h) as [P|A]; destruct (Z.eqb_spec (h mod 12) 0) as [Z0|NZ].
  - exists 12, "PM". repeat split; auto; try lia. cbn [String.eqb Ascii.eqb Bool.eqb andb].
    change (12 mod 12) with 0. euclid.
  - exists (h mod 12), "PM". repeat split; auto; try euclid.
    cbn [String.eqb Ascii.eqb Bool.eqb andb]. rewrite Z.mod_mod by lia. euclid.
  - exists 12, "AM". repeat split; auto; try lia. cbn [String.eqb Ascii.eqb Bool.eqb andb].
    change (12 mod 12) with 0. euclid.
  - exists (h mod 12), "AM". repeat split; auto; try euclid.
    cbn [String.eqb Ascii.eqb Bool.eqb andb]. rewrite Z.mod_mod by lia. euclid.
Qed.

Lemma time_display_is_12_hour_clock_witness :
  exists hour12 ampm,
    Client.formatTimeDisplay "00:05"
    = numToString hour12 ++ ":" ++ "05" ++ " " ++ ampm /\
    1 <= hour12 <= 12 /\
    (ampm = "AM" \/ ampm = "PM") /\
    parseInt "00" = hour12 mod 12 + (if (ampm =? "PM")%string then 12 else 0).
Proof.
  apply (time_display_is_12_hour_clock "00:05").
  - reflexivity.
  - vm_compute. discriminate.
Defined.

(** ** The wording of an event list *)

Lemma pushGrouped_keys g k e k' :
  In k' (map fst (Formatting.pushGrouped g k e)) <-> In k' (map fst g) \/ k' = k.
Proof.
  induction g as [|[k0 es] r IH]; cbn.
  - intuition.
  - destruct (String.eqb_spec k0 k) as [->|N]; cbn.
    + intuition.
    + rewrite IH. intuition.
Qed.

Lemma pushGrouped_NoDup g k e :
  NoDup (map fst g) -> NoDup (map fst (Formatting.pushGrouped g k e)).
Proof.
  induction g as [|[k0 es] r IH]; cbn; intros N.
  - constructor; [intros [] | constructor].
  - destruct (String.eqb_spec k0 k) as [->|NE]; cbn; [exact N|].
    inversion N as [|? ? N1 N2]; subst. constructor; [|now apply IH].
    rewrite pushGrouped_keys. intros [I | E]; [now apply N1 | congruence].
Qed.

Lemma pushGrouped_lookup g k e k' :
  Formatting.lookup (Formatting.pushGrouped g k e) k'
  = if (k =? k')%string then (Formatting.lookup g k' ++ [e])%list
    else Formatting.lookup g k'.
Proof.
  induction g as [|[k0 es] r IH]; cbn.
  - rewrite String.eqb_sym. reflexivity.
  - destruct (String.eqb_spec k0 k) as [->|N]; cbn.
    + destruct (String.eqb_spec k k'); reflexivity.
    + destruct (String.eqb_spec k0 k') as [->|N'].
      * destruct (String.eqb_spec k k'); [congruence | reflexivity].
      * exact IH.
Qed.

Lemma groupedFrom_nil : groupedFrom [] [].
Proof.
  split; [constructor|]. split; [|reflexivity].
  intros k. cbn. split; [intros [] | intros (e & [] & _)].
Qed.

Lemma groupedFrom_push seen g e :
  groupedFrom seen g ->
  groupedFrom (seen ++ [e]) (Formatting.pushGrouped g (Formatting.dateKeyOf e) e).
Proof.
  intros (N & K & L). split; [now apply pushGrouped_NoDup|]. split.
  - intros k. rewrite pushGrouped_keys, K. split.
    + intros [(x & I & E) | ->].
      * exists x. split; [apply in_or_app; now left | exact E].
      * exists e. split; [apply in_or_app; right; now left | reflexivity].
    + intros (x & I & E). apply in_app_or in I as [I | [<- | []]].
      * left. now exists x.
      * right. now symmetry.
  - intros k. rewrite pushGrouped_lookup, filter_app, L. cbn [filter].
    destruct (Formatting.dateKeyOf e =? k)%string; [reflexivity | now rewrite app_nil_r].
Qed.

Lemma groupByDate_spec events : forall seen g g',
  groupedFrom seen g ->
  Formatting.groupByDate events g = Some g' ->
  groupedFrom (seen ++ events) g'.
Proof.
  induction events as [|e r IH]; intros seen g g' G; cbn [Formatting.groupByDate].
  - intros [= <-]. now rewrite app_nil_r.
  - cbv zeta.
    destruct (isOneOf (Formatting.dateKeyOf e) Formatting.inheritedKeys);
      [discriminate|]. intros H.
    replace (seen ++ e :: r)%list with ((seen ++ [e]) ++ r)%list
      by (rewrite <- app_assoc; reflexivity).
    eapply IH; [|exact H]. now apply groupedFrom_push.
Qed.

Lemma groupByDate_succeeds events : forall g,
  Forall (fun e => isOneOf (Formatting.dateKeyOf e) Formatting.inheritedKeys = false)
         events ->
  exists g', Formatting.groupByDate events g = Some g'.
Proof.
  induction events as [|e r IH]; intros g F; cbn [Formatting.groupByDate]; [eauto|].
  inversion F as [|? ? F1 F2]; subst. cbv zeta. rewrite F1. now apply IH.
Qed.

Lemma insertKey_perm compareUnits a l :
  Permutation (Formatting.insertKey compareUnits a l) (a :: l).
Proof.
  induction l as [|b r IH]; cbn; [reflexivity|].
  destruct (_ <=? _); [reflexivity|].
  rewrite IH. apply perm_swap.
Qed.

Lemma sortedKeys_perm compareUnits g :
  Permutation (Formatting.sortedKeys compareUnits g) (map fst g).
Proof.
  unfold Formatting.sortedKeys. induction (map fst g) as [|a l IH]; cbn; [reflexivity|].
  rewrite insertKey_perm. now constructor.
Qed.

Lemma insertKey_sorted (compareUnits : string -> string -> Z) a l :
  (forall a b, compareUnits a b <= 0 \/ compareUnits b a <= 0) ->
  (forall a b c, compareUnits a b <= 0 -> compareUnits b c <= 0 ->
                 compareUnits a c <= 0) ->
  StronglySorted (fun a b => compareUnits a b <= 0) l ->
  StronglySorted (fun a b => compareUnits a b <= 0)
                 (Formatting.insertKey compareUnits a l).
Proof.
  intros T Tr S. induction S as [|b r S IH F]; cbn.
  - constructor; constructor.
  - destruct (Z.leb_spec (compareUnits a b) 0) as [L|G].
    + constructor; [constructor; assumption|].
      constructor; [exact L|].
      rewrite Forall_forall in F |- *. intros x I. eapply Tr; [exact L | now apply F].
    + constructor; [exact IH|].
      assert (P : Permutation (Formatting.insertKey compareUnits a r) (a :: r))
        by apply insertKey_perm.
      rewrite Forall_forall in F |- *. intros x I.
      apply (Permutation_in _ P) in I as [<- | I]; [|now apply F].
      destruct (T a b); [lia | assumption].
Qed.

Lemma sortedKeys_sorted (compareUnits : string -> string -> Z) g :
  (forall a b, compareUnits a b <= 0 \/ compareUnits b a <= 0) ->
  (forall a b c, compareUnits a b <= 0 -> compareUnits b c <= 0 ->
                 compareUnits a c <= 0) ->
  StronglySorted (fun a b => compareUnits a b <= 0)
                 (Formatting.sortedKeys compareUnits g).
Proof.
  intros T Tr. unfold Formatting.sortedKeys.
  induction (map fst g) as [|a l IH]; cbn; [constructor|].
  now apply insertKey_sorted.
Qed.

Lemma flat_map_pointwise_perm {A B} (f g : A -> list B) l :
  (forall x, In x l -> Permutation (f x) (g x)) ->
  Permutation (flat_map f l) (flat_map g l).
Proof.
  induction l as [|a r IH]; intros H; cbn; [reflexivity|].
  apply Permutation_app; [apply H; now left | apply IH; intros x I; apply H; now right].
Qed.

Lemma flat_map_pointwise_eq {A B} (f g : A -> list B) l :
  (forall x, In x l -> f x = g x) -> flat_map f l = flat_map g l.
Proof.
  induction l as [|a r IH]; intros H; cbn; [reflexivity|].
  rewrite (H a) by now left. f_equal. apply IH. intros x I. apply H. now right.
Qed.

(** The events with each of a list of distinct keys, one key after the
    other, are all the events when every event has one of the keys. *)
Lemma events_by_key_perm (events : list CalendarEvent) : forall ks,
  NoDup ks ->
  (forall e, In e events -> In (Formatting.dateKeyOf e) ks) ->
  Permutation
    (flat_map (fun k => filter (fun e => (Formatting.dateKeyOf e =? k)%string) events) ks)
    events.
Proof.
  induction events as [|e r IH]; intros ks N C.
  - clear N C. induction ks as [|k ks IHks]; cbn; [constructor | exact IHks].
  - assert (I : In (Formatting.dateKeyOf e) ks) by (apply C; now left).
    destruct (in_split _ _ I) as (k1 & k2 & ->).
    apply NoDup_remove in N as [N NI].
    assert (Cr : forall x, In x r -> In (Formatting.dateKeyOf x) (k1 ++ Formatting.dateKeyOf e :: k2))
      by (intros x Ix; apply C; now right).
    assert (N' : NoDup (k1 ++ Formatting.dateKeyOf e :: k2)).
    { apply NoDup_Add with (a := Formatting.dateKeyOf e) (l := (k1 ++ k2)%list).
      - apply Add_app.
      - auto. }
    specialize (IH _ N' Cr).
    rewrite flat_map_app in IH |- *. cbn [flat_map] in IH |- *.
    assert (E : forall ks', ~ In (Formatting.dateKeyOf e) ks' ->
              flat_map (fun k => filter (fun e0 => (Formatting.dateKeyOf e0 =? k)%string) (e :: r)) ks'
              = flat_map (fun k => filter (fun e0 => (Formatting.dateKeyOf e0 =? k)%string) r) ks').
    { intros ks' NI'. apply flat_map_pointwise_eq. intros k Ik. cbn [filter].
      destruct (String.eqb_spec (Formatting.dateKeyOf e) k); [subst; tauto | reflexivity]. }
    rewrite (E k1), (E k2) by (intros X; apply NI; apply in_or_app; auto).
    cbn [filter]. rewrite String.eqb_refl.
    cbn [app]. rewrite <- IH at 2. apply Permutation_sym, Permutation_middle.
Qed.

Lemma in_sortedKeys compareUnits g k :
  In k (Formatting.sortedKeys compareUnits g) <-> In k (map fst g).
Proof.
  split; apply Permutation_in;
    [apply sortedKeys_perm | apply Permutation_sym, sortedKeys_perm].
Qed.

Lemma sortedKeys_NoDup compareUnits g :
  NoDup (map fst g) -> NoDup (Formatting.sortedKeys compareUnits g).
Proof.
  apply Permutation_NoDup, Permutation_sym, sortedKeys_perm.
Qed.

(** The grouping of a list of events whose date keys are not inherited
    property names. *)
Lemma grouping_of events :
  Forall (fun e => isOneOf (Formatting.dateKeyOf e) Formatting.inheritedKeys = false)
         events ->
  exists grouped,
    Formatting.groupByDate events [] = Some grouped /\ groupedFrom events grouped.
Proof.
  intros F. destruct (groupByDate_succeeds events [] F) as [g G].
  exists g. split; [exact G|].
  exact (groupByDate_spec events [] [] g groupedFrom_nil G).
Qed.

Lemma message_of_grouping localeCompare compareUnits toLocaleDateString
      toLocaleTimeString events rangeDescription showCalendarName grouped :
  events <> [] ->
  Formatting.groupByDate events [] = Some grouped ->
  groupedFrom events grouped ->
  Formatting.formatEventsMessage localeCompare compareUnits toLocaleDateString
    toLocaleTimeString events rangeDescription showCalendarName
  = Some ("Here are your appointments " ++ rangeDescription ++ ":"
          ++ Formatting.newline ++ Formatting.newline
          ++ String.concat (Formatting.newline ++ Formatting.newline)
               (flat_map
                  (fun day =>
                     map (Formatting.eventBlock toLocaleTimeString
                            (toLocaleDateString (day ++ "T12:00:00")) showCalendarName)
                         (sortByStart localeCompare
                            (filter (fun e => (Formatting.dateKeyOf e =? day)%string)
                                    events)))
                  (Formatting.sortedKeys compareUnits grouped))).
Proof.
  intros NE G (N & K & L). unfold Formatting.formatEventsMessage.
  destruct events as [|e r]; [congruence|]. rewrite G. cbv zeta.
  do 7 f_equal. apply flat_map_pointwise_eq. intros k _.
  unfold Formatting.dayEventsOf. now rewrite L.
Qed.

(** X19.  The message for a list of events shows the days in ascending
    order of their date keys, each day once, and under each day the events
    that start on it, in ascending order of their start (events with equal
    starts in the order in which they came). *)
Theorem message_groups_events_by_day
        (localeCompare compareUnits : string -> string -> Z)
        (toLocaleDateString toLocaleTimeString : string -> string)
        (events : list CalendarEvent) (rangeDescription : string)
        (showCalendarName : bool) :
  events <> [] ->
  Forall (fun e => isOneOf (Formatting.dateKeyOf e) Formatting.inheritedKeys = false)
         events ->
  (forall a b, compareUnits a b <= 0 \/ compareUnits b a <= 0) ->
  (forall a b c, compareUnits a b <= 0 -> compareUnits b c <= 0 ->
                 compareUnits a c <= 0) ->
  exists days,
    NoDup days /\
    (forall k, In k days <-> exists e, In e events /\ Formatting.dateKeyOf e = k) /\
    StronglySorted (fun a b => compareUnits a b <= 0) days /\
    Formatting.formatEventsMessage localeCompare compareUnits toLocaleDateString
      toLocaleTimeString events rangeDescription showCalendarName
    = Some ("Here are your appointments " ++ rangeDescription ++ ":"
            ++ Formatting.newline ++ Formatting.newline
            ++ String.concat (Formatting.newline ++ Formatting.newline)
                 (flat_map
                    (fun day =>
                       map (Formatting.eventBlock toLocaleTimeString
                              (toLocaleDateString (day ++ "T12:00:00")) showCalendarName)
                           (sortByStart localeCompare
                              (filter (fun e => (Formatting.dateKeyOf e =? day)%string)
                                      events)))
                    days)).
Proof.
  intros NE F T Tr. destruct (grouping_of events F) as (g & G & GF).
  exists (Formatting.sortedKeys compareUnits g).
  pose proof GF as (N & K & L).
  split; [now apply sortedKeys_NoDup|]. split.
  - intros k. rewrite in_sortedKeys. apply K.
  - split; [now apply sortedKeys_sorted|].
    now apply message_of_grouping.
Qed.

(** X20.  The message has one block for each event of the list: no
    event is left out and none is shown twice, and each block carries the
    day of its own event. *)
Theorem message_shows_every_event_once
        (localeCompare compareUnits : string -> string -> Z)
        (toLocaleDateString toLocaleTimeString : string -> string)
        (events : list CalendarEvent) (rangeDescription : string)
        (showCalendarName : bool) :
  events <> [] ->
  Forall (fun e => isOneOf (Formatting.dateKeyOf e) Formatting.inheritedKeys = false)
         events ->
  exists shown,
    Permutation shown events /\
    Formatting.formatEventsMessage localeCompare compareUnits toLocaleDateString
      toLocaleTimeString events rangeDescription showCalendarName
    = Some ("Here are your appointments " ++ rangeDescription ++ ":"
            ++ Formatting.newline ++ Formatting.newline
            ++ String.concat (Formatting.newline ++ Formatting.newline)
                 (map (fun e =>
                         Formatting.eventBlock toLocaleTimeString
                           (toLocaleDateString (Formatting.dateKeyOf e ++ "T12:00:00"))
                           showCalendarName e)
                      shown)).
Proof.
  intros NE F. destruct (grouping_of events F) as (g & G & GF).
  pose proof GF as (N & K & L).
  exists (flat_map
            (fun day => sortByStart localeCompare
                          (filter (fun e => (Formatting.dateKeyOf e =? day)%string) events))
            (Formatting.sortedKeys compareUnits g)).
  split.
  - rewrite (flat_map_pointwise_perm _
               (fun day => filter (fun e => (Formatting.dateKeyOf e =? day)%string) events))
      by (intros; apply sortByStart_perm).
    apply events_by_key_perm; [now apply sortedKeys_NoDup|].
    intros e I. apply in_sortedKeys, K. now exists e.
  - rewrite (message_of_grouping _ _ _ _ _ _ _ _ NE G GF). do 7 f_equal.
    induction (Formatting.sortedKeys compareUnits g) as [|k ks IH]; [reflexivity|].
    cbn [flat_map]. rewrite map_app, IH. f_equal.
    apply map_ext_in. intros e I.
    apply (Permutation_in _ (sortByStart_perm localeCompare _)) in I.
    apply filter_In in I as [_ E]. apply String.eqb_eq in E. now rewrite E.
Qed.

Lemma message_groups_events_by_day_witness :
  exists days,
    NoDup days /\
    (forall k, In k days <-> exists e, In e threeEvents /\ Formatting.dateKeyOf e = k) /\
    StronglySorted (fun a b => codeUnitCompare a b <= 0) days /\
    Formatting.formatEventsMessage codeUnitCompare codeUnitCompare
      (fun s => s) twelveHourClock threeEvents "for this week" false
    = Some ("Here are your appointments " ++ "for this week" ++ ":"
            ++ Formatting.newline ++ Formatting.newline
            ++ String.concat (Formatting.newline ++ Formatting.newline)
                 (flat_map
                    (fun day =>
                       map (Formatting.eventBlock twelveHourClock
                              (day ++ "T12:00:00") false)
                           (sortByStart codeUnitCompare
                              (filter (fun e => (Formatting.dateKeyOf e =? day)%string)
                                      threeEvents)))
                    days)).
Proof.
  apply (message_groups_events_by_day codeUnitCompare codeUnitCompare
           (fun s => s) twelveHourClock threeEvents "for this week" false).
  - discriminate.
  - repeat constructor.
  - exact codeUnitCompare_total.
  - exact codeUnitCompare_trans.
Defined.

Lemma message_shows_every_event_once_witness :
  exists shown,
    Permutation shown threeEvents /\
    Formatting.formatEventsMessage codeUnitCompare codeUnitCompare
      (fun s => s) twelveHourClock threeEvents "for this week" false
    = Some ("Here are your appointments " ++ "for this week" ++ ":"
            ++ Formatting.newline ++ Formatting.newline
            ++ String.concat (Formatting.newline ++ Formatting.newline)
                 (map (fun e =>
                         Formatting.eventBlock twelveHourClock
                           (Formatting.dateKeyOf e ++ "T12:00:00") false e)
                      shown)).
Proof.
  apply (message_shows_every_event_once codeUnitCompare codeUnitCompare
           (fun s => s) twelveHourClock threeEvents "for this week" false).
  - discriminate.
  - repeat constructor.
Defined.

(** The events under the only key of a grouping are all the events. *)
Lemma single_day_holds_all compareUnits events grouped :
  groupedFrom events grouped ->
  List.length (Formatting.sortedKeys compareUnits grouped) = 1%nat ->
  Formatting.lookup grouped (nth 0 (Formatting.sortedKeys compareUnits grouped) "")
  = events.
Proof.
  intros (N & K & L) One. rewrite L.
  destruct (Formatting.sortedKeys compareUnits grouped) as [|k [|k' r]] eqn:S;
    try discriminate.
  cbn [nth]. apply forallb_filter_id. apply forallb_forall. intros e I.
  assert (Ik : In (Formatting.dateKeyOf e) (Formatting.sortedKeys compareUnits grouped)).
  { apply in_sortedKeys, K. now exists e. }
  rewrite S in Ik. destruct Ik as [<- | []]. apply String.eqb_refl.
Qed.

(** X21.  For more than five events the speech is one sentence with
    their number, whether they fall on one day or on several: no title is
    read out. *)
Theorem speech_of_long_list_is_the_count
        (compareUnits : string -> string -> Z)
        (trim toLocaleTimeString weekdayOf : string -> string)
        (events : list CalendarEvent) (rangeDescription : string) :
  (5 < List.length events)%nat ->
  Forall (fun e => isOneOf (Formatting.dateKeyOf e) Formatting.inheritedKeys = false)
         events ->
  Formatting.formatEventsSpeech compareUnits trim toLocaleTimeString weekdayOf
    events rangeDescription
  = Some ("You have " ++ numToString (Z.of_nat (List.length events))
          ++ " appointments " ++ rangeDescription ++ ".").
Proof.
  intros Len F. destruct (grouping_of events F) as (g & G & GF).
  unfold Formatting.formatEventsSpeech.
  destruct events as [|e1 [|e2 r]]; try (cbn in Len; lia).
  rewrite G. cbv zeta.
  destruct (Nat.eqb_spec (List.length (Formatting.sortedKeys compareUnits g)) 1) as [One|Many].
  - rewrite (single_day_holds_all compareUnits _ _ GF One).
    replace (List.length (e1 :: e2 :: r) <=? 3)%nat with false
      by (symmetry; apply Nat.leb_gt; lia).
    reflexivity.
  - replace (List.length (e1 :: e2 :: r) <=? 5)%nat with false
      by (symmetry; apply Nat.leb_gt; lia).
    reflexivity.
Qed.

Lemma speech_of_long_list_is_the_count_witness :
  Formatting.formatEventsSpeech codeUnitCompare (fun s => s) twelveHourClock
    (fun s => s) sixEvents "for this week"
  = Some ("You have " ++ numToString (Z.of_nat (List.length sixEvents))
          ++ " appointments " ++ "for this week" ++ ".").
Proof.
  apply (speech_of_long_list_is_the_count codeUnitCompare (fun s => s)
           twelveHourClock (fun s => s) sixEvents "for this week").
  - cbn. lia.
  - repeat constructor.
Defined.

(** The read branch with the two renderings of the route: the read of
    the example carries its five events; when the calendar service
    answers with a date text that is a name which every object inherits,
    the grouping by day throws and the reply is that of the [catch]. *)
Example read_reply_with_the_renderings :
  let message :=
    Formatting.formatEventsMessage codeUnitCompare codeUnitCompare
      (fun s => s) twelveHourClock in
  let speech :=
    Formatting.formatEventsSpeech codeUnitCompare (fun s => s) twelveHourClock
      (fun s => s) in
  (exists body,
      readReply codeUnitCompare fetchFromTable (fun s => s) message speech
                hostPacific "tomorrow" threeCalendars
      = JsonReply body /\
      option_map (map id) (r_events body) = Some ["w3"; "h2"; "h1"; "w1"; "w2"] /\
      r_speech body = Some "You have 5 appointments tomorrow.") /\
  readReply codeUnitCompare
            (fun _ _ _ _ => FetchOk (Some [item "x1" (Some "Odd") (date "constructor")]))
            (fun s => s) message speech hostPacific "tomorrow" threeCalendars
  = troubleReply.
Proof.
  cbv zeta. split; [|vm_compute; reflexivity].
  eexists. split; [vm_compute; reflexivity|]. split; vm_compute; reflexivity.
Qed.

(** ** What the speech route sends to the synthesis engine *)












Lemma stripLinks_plain s fuel :
  Forall (fun c => c <> Speech.LBRACKET) s ->
  Speech.replaceGroup Speech.matchLink fuel s = s.
Proof.
  revert s. induction fuel as [|fuel IH]; intros s F; [reflexivity|].
  cbn [Speech.replaceGroup]. destruct s as [|c r]; [reflexivity|].
  inversion F as [|? ? N F']; subst. cbn [Speech.matchLink].
  apply Z.eqb_neq in N. rewrite N. f_equal. now apply IH.
Qed.

Lemma stripBold_plain s fuel :
  Forall (fun c => c <> Speech.STAR) s ->
  Speech.replaceGroup Speech.matchBold fuel s = s.
Proof.
  revert s. induction fuel as [|fuel IH]; intros s F; [reflexivity|].
  cbn [Speech.replaceGroup]. destruct s as [|c r]; [reflexivity|].
  inversion F as [|? ? N F']; subst.
  assert (M : Speech.matchBold (c :: r) = None).
  { unfold Speech.matchBold. destruct r as [|c2 r]; [reflexivity|].
    apply Z.eqb_neq in N. now rewrite N. }
  rewrite M. f_equal. now apply IH.
Qed.

Lemma newlinesToPauses_plain s :
  Forall (fun c => c <> Speech.NEWLINE) s -> Speech.newlinesToPauses s = s.
Proof.
  induction 1 as [|c r N F IH]; [reflexivity|].
  cbn [Speech.newlinesToPauses]. apply Z.eqb_neq in N. rewrite N. now rewrite IH.
Qed.

Lemma trimStart_plain s :
  Speech.isTrimUnit (hd Speech.SPACE s) = false -> Speech.trimStart s = s.
Proof. destruct s as [|c r]; [reflexivity|]. cbn. now intros ->. Qed.

Lemma hd_rev (s : Speech.ustring) d : hd d (List.rev s) = last s d.
Proof.
  induction s as [|c r IH]; [reflexivity|].
  cbn [List.rev]. destruct r as [|c' r']; [reflexivity|].
  change (last (c :: c' :: r') d) with (last (c' :: r') d). rewrite <- IH.
  destruct (List.rev (c' :: r')) eqn:E; [|reflexivity].
  apply (f_equal (@List.length _)) in E. rewrite length_rev in E. discriminate.
Qed.

(** X23.  A text without a character of the class that the route removes
    (the source's twelve: U+011F, U+0178, U+201C, U+2026, U+0152, U+0153,
    U+2022, U+00E2, U+2014, U+2018, U+00EF, U+00B8), without a square
    bracket, an asterisk or a line break, and without blanks at its ends,
    is sent to the synthesis engine as it is. *)
Theorem plain_text_is_spoken_unchanged (t : Speech.ustring)
        (voice : option Speech.ustring) (speed : option JSNumber.Num) :
  Forall (fun c => Speech.isClassUnit c = false /\ c <> Speech.LBRACKET /\
                   c <> Speech.STAR /\ c <> Speech.NEWLINE) t ->
  Speech.isTrimUnit (hd Speech.SPACE t) = false ->
  Speech.isTrimUnit (last t Speech.SPACE) = false ->
  Speech.cleanTextOf t = t /\
  exists v s,
    Speech.POST (Some {| Speech.text := Speech.Text t; Speech.voice := voice;
                         Speech.speed := speed |})
    = Speech.Synthesize t v s.
Proof.
  intros F H L.
  assert (C : Speech.cleanTextOf t = t).
  { unfold Speech.cleanTextOf, Speech.stripLinks, Speech.stripBold.
    assert (E : Speech.stripClass t = t).
    { unfold Speech.stripClass. apply forallb_filter_id. apply forallb_forall.
      rewrite Forall_forall in F. intros x I. destruct (F x I) as [A _]. now rewrite A. }
    rewrite E.
    rewrite stripLinks_plain
      by (eapply Forall_impl; [|exact F]; cbn; intros a (_ & A & _); exact A).
    rewrite stripBold_plain
      by (eapply Forall_impl; [|exact F]; cbn; intros a (_ & _ & A & _); exact A).
    rewrite newlinesToPauses_plain
      by (eapply Forall_impl; [|exact F]; cbn; intros a (_ & _ & _ & A); exact A).
    unfold Speech.trim. rewrite (trimStart_plain t H).
    rewrite trimStart_plain by (now rewrite hd_rev).
    apply rev_involutive. }
  split; [exact C|].
  unfold Speech.POST. cbn [Speech.text Speech.voice Speech.speed].
  destruct t as [|c r]; [discriminate H|].
  cbv zeta. rewrite C. eauto.
Qed.

Lemma plain_text_is_spoken_unchanged_witness :
  Speech.cleanTextOf (0x2705 :: Speech.ofAscii " Dentist at 9, room 2 (upstairs).")
  = 0x2705 :: Speech.ofAscii " Dentist at 9, room 2 (upstairs)." /\
  exists v s,
    Speech.POST (Some {| Speech.text :=
                           Speech.Text (0x2705 :: Speech.ofAscii " Dentist at 9, room 2 (upstairs).");
                         Speech.voice := None; Speech.speed := None |})
    = Speech.Synthesize (0x2705 :: Speech.ofAscii " Dentist at 9, room 2 (upstairs).") v s.
Proof.
  apply (plain_text_is_spoken_unchanged
           (0x2705 :: Speech.ofAscii " Dentist at 9, room 2 (upstairs).") None None).
  - repeat constructor; discriminate.
  - reflexivity.
  - reflexivity.
Defined.

(** ** The delete search of the chat route *)

Lemma toISODate_of_day t : toISODate t = toISODate (Day t * msPerDay).
Proof.
  unfold toISODate, DateFromTime, MonthFromTime, DayWithinYear, InLeapYear,
    YearFromTime.
  now rewrite !Day_of_midnight.
Qed.

Lemma setDate_constant (z : Zone) (c t k : Z) :
  (forall t, tzaAtUTC z t = c) -> (forall t, tzaAtLocal z t = c) ->
  setDate z t (getDate z t + k) = t + k * msPerDay.
Proof.
  intros Hu Hl. unfold setDate, getDate, LocalTime, UTC. rewrite Hu, Hl.
  rewrite MakeDay_of_fields. unfold MakeDate, Day, TimeWithinDay.
  pose proof (Z.div_mod (t + c) msPerDay ltac:(discriminate)) as E. lia.
Qed.

Lemma Day_shift t k : Day (t + k * msPerDay) = Day t + k.
Proof. unfold Day. now rewrite Z.div_add by discriminate. Qed.

(** X24.  The window of a delete search on a host whose offset from UTC
    never changes: without a date it runs from 00:00:00 of the day 30 days
    before today's UTC date to 23:59:59 of the day 30 days after it; with a
    date it is that day.  The offset written is "-08:00". *)
Theorem delete_window_on_constant_offset_host (h : Host) (c : Z) :
  (forall t, tzaAtUTC (zone h) t = c) -> (forall t, tzaAtLocal (zone h) t = c) ->
  DayFromYear 0 + 30 <= Day (now h) < DayFromYear 10000 - 30 ->
  (forall d, truthy d = false ->
     readStamp (timeMin (deleteWindow h d))
     = Some {| stampDay := Day (now h) - 30; stampClock := 0; stampOffset := -480 |} /\
     readStamp (timeMax (deleteWindow h d))
     = Some {| stampDay := Day (now h) + 30; stampClock := 86399;
               stampOffset := -480 |}) /\
  (forall d D, readDay d = Some D ->
     readStamp (timeMin (deleteWindow h (Some d)))
     = Some {| stampDay := D; stampClock := 0; stampOffset := -480 |} /\
     readStamp (timeMax (deleteWindow h (Some d)))
     = Some {| stampDay := D; stampClock := 86399; stampOffset := -480 |}).
Proof.
  intros Hu Hl R.
  pose proof (tzOffsetFor_constant (zone h) c
                (getFullYear (zone h) (now h)) (now h) Hu) as TZ.
  split.
  - intros d Td. unfold deleteWindow. cbv zeta. rewrite Td, TZ.
    cbn [timeMin timeMax].
    replace (getDate (zone h) (now h) - 30) with (getDate (zone h) (now h) + (-30))
      by lia.
    rewrite !(setDate_constant (zone h) c) by assumption.
    rewrite (toISODate_of_day (now h + -30 * msPerDay)),
      (toISODate_of_day (now h + 30 * msPerDay)), !Day_shift.
    destruct (toISODate_reads (Day (now h) + -30) ltac:(lia)) as [R1 _].
    destruct (toISODate_reads (Day (now h) + 30) ltac:(lia)) as [R2 _].
    rewrite (readStamp_startOfDay _ "-08:00" _ R1 (or_intror eq_refl)).
    rewrite (readStamp_endOfDay _ "-08:00" _ R2 (or_intror eq_refl)).
    split; reflexivity.
  - intros d D Rd.
    assert (Td : truthy (Some d) = true).
    { destruct d; [discriminate Rd | reflexivity]. }
    unfold deleteWindow. cbv zeta. rewrite Td, TZ. cbn [timeMin timeMax].
    rewrite (readStamp_startOfDay _ "-08:00" _ Rd (or_intror eq_refl)).
    rewrite (readStamp_endOfDay _ "-08:00" _ Rd (or_intror eq_refl)).
    split; reflexivity.
Qed.

Lemma delete_window_on_constant_offset_host_witness :
  (forall d, truthy d = false ->
     readStamp (timeMin (deleteWindow hostUTC d))
     = Some {| stampDay := Day (now hostUTC) - 30; stampClock := 0;
               stampOffset := -480 |} /\
     readStamp (timeMax (deleteWindow hostUTC d))
     = Some {| stampDay := Day (now hostUTC) + 30; stampClock := 86399;
               stampOffset := -480 |}) /\
  (forall d D, readDay d = Some D ->
     readStamp (timeMin (deleteWindow hostUTC (Some d)))
     = Some {| stampDay := D; stampClock := 0; stampOffset := -480 |} /\
     readStamp (timeMax (deleteWindow hostUTC (Some d)))
     = Some {| stampDay := D; stampClock := 86399; stampOffset := -480 |}).
Proof.
  apply (delete_window_on_constant_offset_host hostUTC 0).
  - reflexivity.
  - reflexivity.
  - vm_compute. split; [discriminate | reflexivity].
Defined.

(** X25.  Without a token for the calendar service the reply of the
    chat handler does not depend on what the calendar service would
    answer, and it carries no event. *)
Theorem no_token_no_calendar_data
        (localeCompare : string -> string -> Z) (Date_parse : string -> option Z)
        (toLocaleTimeString : string -> string) (JSON_parse : string -> Parsed)
        (fetchEvents fetchEvents' :
           CalendarInfo -> string -> string -> string -> FetchOutcome)
        (rangeDescriptionOf : string -> string)
        (formatEventsMessage : list CalendarEvent -> string -> bool -> option string)
        (formatEventsSpeech : list CalendarEvent -> string -> option string)
        (h : Host) (req : Request) :
  truthy (provider_token req) = false ->
  POST localeCompare Date_parse toLocaleTimeString JSON_parse fetchEvents
       rangeDescriptionOf formatEventsMessage formatEventsSpeech h req
  = POST localeCompare Date_parse toLocaleTimeString JSON_parse fetchEvents'
         rangeDescriptionOf formatEventsMessage formatEventsSpeech h req /\
  match POST localeCompare Date_parse toLocaleTimeString JSON_parse fetchEvents
             rangeDescriptionOf formatEventsMessage formatEventsSpeech h req with
  | JsonReply body =>
      r_events body = None /\ r_deleteEvent body = None /\
      r_multipleEvents body = None
  | ErrorReply _ _ | ValueReply => True
  end.
Proof.
  intros T. unfold POST.
  destruct (authError req || negb (sessionUser req)); [split; [reflexivity | exact I]|].
  destruct (negb (truthy (req_message req))); [split; [reflexivity | exact I]|].
  destruct (negb (truthy (openaiKey req))); [split; [reflexivity | exact I]|].
  unfold respond.
  destruct (completion req) as [| |content]; try (split; [reflexivity | exact I]).
  destruct (negb (truthy content)); [split; [reflexivity | exact I]|].
  destruct (JSON_parse (orEmpty content)) as [| | |parsed];
    try (split; [reflexivity | cbn; auto]).
  rewrite T. cbn [negb].
  destruct ((action parsed =? "read")%string && truthy (readRange parsed));
    [split; [reflexivity | cbn; auto]|].
  destruct (deleteSearch parsed) as [ds|]; [|split; [reflexivity | cbn; auto]].
  destruct (action parsed =? "delete")%string; [|split; [reflexivity | cbn; auto]].
  unfold deleteReply. rewrite T. cbn [negb].
  destruct (needsClarification ds); split; try reflexivity; cbn; auto.
Qed.

Lemma no_token_no_calendar_data_witness :
  POST codeUnitCompare parseStampOrDay twelveHourClock parseFromTable
       fetchFromTable (fun s => s) countMessage countSpeech hostPacific
       (requestWithoutToken (CompletionOk (Some "{what do i have tomorrow}")))
  = POST codeUnitCompare parseStampOrDay twelveHourClock parseFromTable
         fetchTwelve (fun s => s) countMessage countSpeech hostPacific
         (requestWithoutToken (CompletionOk (Some "{what do i have tomorrow}"))) /\
  match POST codeUnitCompare parseStampOrDay twelveHourClock parseFromTable
             fetchFromTable (fun s => s) countMessage countSpeech hostPacific
             (requestWithoutToken (CompletionOk (Some "{what do i have tomorrow}"))) with
  | JsonReply body =>
      r_events body = None /\ r_deleteEvent body = None /\
      r_multipleEvents body = None
  | ErrorReply _ _ | ValueReply => True
  end.
Proof.
  apply (no_token_no_calendar_data codeUnitCompare parseStampOrDay twelveHourClock
           parseFromTable fetchFromTable fetchTwelve (fun s => s) countMessage
           countSpeech hostPacific
           (requestWithoutToken (CompletionOk (Some "{what do i have tomorrow}")))).
  reflexivity.
Defined.

Lemma filter_and {A} (p q : A -> bool) l :
  filter q (filter p l) = filter (fun x => p x && q x) l.
Proof.
  induction l as [|a l IH]; [reflexivity|]. cbn.
  destruct (p a) eqn:P; cbn; rewrite ?P, IH; reflexivity.
Qed.

(** Each stage of the cascade is a filter of the events by a test that
    depends on the search only. *)
Lemma stages_are_filters (Date_parse : string -> option Z) (z : Zone)
      (ds : DeleteSearch) :
  exists p1 p2 p3,
    (forall l, stageSearchTerm ds l = filter p1 l) /\
    (forall l, stageTime Date_parse z ds l = filter p2 l) /\
    (forall l, stageTimeRange Date_parse z ds l = filter p3 l).
Proof.
  assert (A : forall l : list CalendarEvent, l = filter (fun _ => true) l).
  { intros l. symmetry. apply forallb_filter_id. now apply forallb_forall. }
  exists (if truthy (searchTerm ds)
          then fun e => includes (toLowerCase (title e))
                                 (toLowerCase (orEmpty (searchTerm ds)))
          else fun _ => true),
         (if truthy (time ds) then timeMatches Date_parse z (orEmpty (time ds))
          else fun _ => true),
         (if truthy (timeRangeStart ds) && truthy (timeRangeEnd ds)
          then rangeMatches Date_parse z (orEmpty (timeRangeStart ds))
                                       (orEmpty (timeRangeEnd ds))
          else fun _ => true).
  repeat split; intros l.
  - unfold stageSearchTerm. destruct (truthy (searchTerm ds)); [reflexivity | apply A].
  - unfold stageTime. destruct (truthy (time ds)); [reflexivity | apply A].
  - unfold stageTimeRange. destruct (_ && _); [reflexivity | apply A].
Qed.

(** X26.  The filters of a delete search compose as one filter: the
    events of several calendars can be filtered together or calendar by
    calendar, filtering a second time changes nothing, the order of the
    three stages does not matter, and a search with no term, no time and
    no complete time range keeps every event. *)
Theorem cascade_composes (Date_parse : string -> option Z) (z : Zone)
        (ds : DeleteSearch) (a b : list CalendarEvent) :
  filterCascade Date_parse z ds (a ++ b)
  = (filterCascade Date_parse z ds a ++ filterCascade Date_parse z ds b)%list /\
  filterCascade Date_parse z ds (filterCascade Date_parse z ds a)
  = filterCascade Date_parse z ds a /\
  filterCascade Date_parse z ds a
  = stageSearchTerm ds (stageTime Date_parse z ds (stageTimeRange Date_parse z ds a)) /\
  (truthy (searchTerm ds) = false -> truthy (time ds) = false ->
   truthy (timeRangeStart ds) && truthy (timeRangeEnd ds) = false ->
   filterCascade Date_parse z ds a = a).
Proof.
  destruct (stages_are_filters Date_parse z ds) as (p1 & p2 & p3 & S1 & S2 & S3).
  unfold filterCascade. split; [|split; [|split]].
  - now rewrite !S1, !S2, !S3, !filter_app.
  - rewrite !S1, !S2, !S3, !filter_and. apply filter_ext. intros e.
    destruct (p1 e), (p2 e), (p3 e); reflexivity.
  - rewrite !S1, !S2, !S3, !filter_and. apply filter_ext. intros e.
    destruct (p1 e), (p2 e), (p3 e); reflexivity.
  - intros T1 T2 T3. unfold stageSearchTerm, stageTime, stageTimeRange.
    now rewrite T1, T2, T3.
Qed.

(** ** The calendar list and the page *)

(** X27.  The calendar list route lists the calendars that the user
    owns or can write to, in the order of the calendar service and each
    with a colour; so every calendar that the page makes active on loading
    is one of those, whatever was stored. *)
Theorem listed_calendars_are_writable
        (authError hasSession : bool) (providerToken : option string)
        (upstream : CalendarList.Upstream) (calendars : list Client.Calendar)
        (savedActive : Client.SavedActive) :
  CalendarList.GET authError hasSession providerToken upstream
  = CalendarList.CalendarsReply calendars ->
  exists items,
    upstream = CalendarList.UpstreamOk items /\
    map Client.id calendars
    = map CalendarList.id
          (filter CalendarList.canWrite (match items with Some l => l | None => [] end)) /\
    Forall (fun c => Client.backgroundColor c <> "") calendars /\
    forall i, In i (Client.loadCalendarsOnMount calendars savedActive) ->
      exists cal, In cal (match items with Some l => l | None => [] end) /\
                  CalendarList.id cal = i /\
                  (CalendarList.accessRole cal = "owner" \/
                   CalendarList.accessRole cal = "writer").
Proof.
  unfold CalendarList.GET.
  destruct (authError || negb hasSession); [discriminate|].
  destruct (negb (truthy providerToken)); [discriminate|].
  destruct upstream as [|status|items]; try discriminate.
  { destruct (status =? 401); discriminate. }
  intros [= <-]. exists items. split; [reflexivity|].
  set (l := match items with Some l => l | None => [] end).
  split; [now rewrite map_map|]. split.
  - apply Forall_forall. intros c I. apply in_map_iff in I as (cal & <- & _).
    cbn [CalendarList.listed Client.backgroundColor].
    destruct (CalendarList.backgroundColor cal) as [[|a s]|]; cbn; discriminate.
  - intros i I. apply loaded_valid in I. rewrite map_map in I.
    apply in_map_iff in I as (cal & E & Ic). apply filter_In in Ic as [Ic W].
    exists cal. split; [exact Ic|]. split; [exact E|].
    unfold CalendarList.canWrite in W. apply orb_true_iff in W as [W|W];
      apply String.eqb_eq in W; auto.
Qed.

Lemma listed_calendars_are_writable_witness :
  exists items,
    CalendarList.UpstreamOk
      (Some [{| CalendarList.id := "team"; CalendarList.summary := "Team";
                CalendarList.primary := None; CalendarList.accessRole := "reader";
                CalendarList.backgroundColor := None |};
             {| CalendarList.id := "home"; CalendarList.summary := "Home";
                CalendarList.primary := Some true; CalendarList.accessRole := "owner";
                CalendarList.backgroundColor := None |}])
    = CalendarList.UpstreamOk items /\
    map Client.id [{| Client.id := "home"; Client.summary := "Home";
                      Client.primary := true; Client.backgroundColor := "#4285f4" |}]
    = map CalendarList.id
          (filter CalendarList.canWrite (match items with Some l => l | None => [] end)) /\
    Forall (fun c => Client.backgroundColor c <> "")
           [{| Client.id := "home"; Client.summary := "Home";
               Client.primary := true; Client.backgroundColor := "#4285f4" |}] /\
    forall i, In i (Client.loadCalendarsOnMount
                      [{| Client.id := "home"; Client.summary := "Home";
                          Client.primary := true; Client.backgroundColor := "#4285f4" |}]
                      (Client.SavedIds ["team"])) ->
      exists cal, In cal (match items with Some l => l | None => [] end) /\
                  CalendarList.id cal = i /\
                  (CalendarList.accessRole cal = "owner" \/
                   CalendarList.accessRole cal = "writer").
Proof.
  apply (listed_calendars_are_writable false true (Some "token")).
  reflexivity.
Defined.

(** ** Reading and deleting through the events route *)



Lemma countDeleted_spec fetch l : forall s f,
  Selection.countDeleted fetch l s f
  = (s + Z.of_nat (List.length
                     (filter (fun e => match fetch e with
                                       | Selection.Answered true => true
                                       | _ => false
                                       end) l)),
     f + Z.of_nat (List.length
                     (filter (fun e => match fetch e with
                                       | Selection.Answered true => false
                                       | _ => true
                                       end) l))).
Proof.
  induction l as [|e r IH]; intros s f; cbn [Selection.countDeleted filter List.length].
  - f_equal; lia.
  - destruct (fetch e) as [|[|]]; rewrite IH; cbn [List.length]; f_equal; lia.
Qed.

Lemma filter_split_length {A} (p : A -> bool) l :
  (List.length (filter p l) + List.length (filter (fun x => negb (p x)) l)
   = List.length l)%nat.
Proof.
  induction l as [|a l IH]; [reflexivity|]. cbn.
  destruct (p a); cbn; lia.
Qed.

(** X29.  Deleting the selected events from the page: every selected
    event is counted once, as deleted or as failed; an event is counted as
    deleted only when it has an identifier and the calendar service has
    deleted that event in its calendar. *)
Theorem selected_events_are_counted_once
        (providerToken : option string)
        (upstream : string -> string -> EventsQuery.DeleteUpstream)
        (selectedEventIds : list string) (events : list Selection.DeleteEventData)
        (successCount failCount : Z) (message : string) :
  truthy providerToken = true ->
  Selection.handleDeleteSelected
    (Selection.viaRoute false true providerToken upstream) selectedEventIds events
  = Some (successCount, failCount, message) ->
  let selected := filter (fun e => Client.has selectedEventIds (Selection.id e)) events in
  let confirmed e :=
    negb (Selection.id e =? "")%string &&
    match upstream (if truthy (Some (Selection.calendarId e))
                    then Selection.calendarId e else "primary")
                   (Selection.id e) with
    | EventsQuery.DeleteOk => true
    | _ => false
    end in
  selected <> [] /\
  successCount = Z.of_nat (List.length (filter confirmed selected)) /\
  successCount + failCount = Z.of_nat (List.length selected) /\
  0 <= successCount /\ 0 <= failCount.
Proof.
  intros T H selected confirmed. unfold Selection.handleDeleteSelected in H.
  fold selected in H. cbv zeta in H.
  destruct (Nat.eqb_spec (List.length selected) 0) as [Z0|NZ]; [discriminate|].
  rewrite countDeleted_spec in H. injection H as <- <- _.
  set (ok := fun e => match Selection.viaRoute false true providerToken upstream e with
                      | Selection.Answered true => true
                      | _ => false
                      end).
  assert (E : forall e, ok e = confirmed e).
  { intros e. unfold ok, confirmed, Selection.viaRoute, EventsQuery.DELETE.
    cbn [orb negb EventsQuery.d_calendarId EventsQuery.eventId Events.orEmpty].
    rewrite T. cbn [negb].
    destruct (Selection.id e) as [|a s]; [reflexivity|]. cbn [truthy negb String.eqb andb].
    destruct (upstream _ _) as [|status|]; try reflexivity.
    destruct (status =? 401); [reflexivity|]. destruct (status =? 404); reflexivity. }
  assert (N : forall e, match Selection.viaRoute false true providerToken upstream e with
                        | Selection.Answered true => false
                        | _ => true
                        end = negb (ok e)).
  { intros e. unfold ok.
    destruct (Selection.viaRoute false true providerToken upstream e) as [|[|]];
      reflexivity. }
  pose proof (filter_split_length ok selected) as S.
  rewrite (filter_ext _ _ N).
  fold ok. rewrite <- (filter_ext _ _ E).
  split; [intros X; apply NZ; now rewrite X|].
  split; [lia|]. split; lia.
Qed.

Lemma selected_events_are_counted_once_witness :
  Selection.handleDeleteSelected
    (Selection.viaRoute false true (Some "token")
       (fun cal ev => if (ev =? "e1")%string then EventsQuery.DeleteOk
                      else EventsQuery.DeleteNotOk 404))
    ["e1"; "e2"]
    [{| Selection.id := "e1"; Selection.title := "Dentist";
        Selection.start := "2026-03-19"; Selection.end_ := "2026-03-20";
        Selection.calendarId := "work"; Selection.calendarName := None |};
     {| Selection.id := "e2"; Selection.title := "Lunch";
        Selection.start := "2026-03-19"; Selection.end_ := "2026-03-20";
        Selection.calendarId := ""; Selection.calendarName := None |};
     {| Selection.id := "e3"; Selection.title := "Walk";
        Selection.start := "2026-03-19"; Selection.end_ := "2026-03-20";
        Selection.calendarId := "home"; Selection.calendarName := None |}]
  <> None /\
  1 + 1 = Z.of_nat 2.
Proof.
  split; [discriminate|].
  pose proof (selected_events_are_counted_once (Some "token")
    (fun cal ev => if (ev =? "e1")%string then EventsQuery.DeleteOk
                   else EventsQuery.DeleteNotOk 404)
    ["e1"; "e2"]
    [{| Selection.id := "e1"; Selection.title := "Dentist";
        Selection.start := "2026-03-19"; Selection.end_ := "2026-03-20";
        Selection.calendarId := "work"; Selection.calendarName := None |};
     {| Selection.id := "e2"; Selection.title := "Lunch";
        Selection.start := "2026-03-19"; Selection.end_ := "2026-03-20";
        Selection.calendarId := ""; Selection.calendarName := None |};
     {| Selection.id := "e3"; Selection.title := "Walk";
        Selection.start := "2026-03-19"; Selection.end_ := "2026-03-20";
        Selection.calendarId := "home"; Selection.calendarName := None |}]
    1 1 _ eq_refl eq_refl) as (_ & _ & H & _).
  exact H.
Defined.
